(** * recur_scan.features: the feature extractor, embedded and verified

    The Python module [src/recur_scan/features.py] computes, for one
    transaction and the history it belongs to, a flat record of features.
    This development embeds it function by function and proves the
    properties stated about it.

    Python values are represented as follows.
    - [int] is [Z]; [abs] is [Z.abs]; [%] is floored ([Z.modulo]) and raises
      [ZeroDivisionError] on a zero divisor.
    - [float] is the kernel's binary64 [float]; arithmetic and comparisons
      are the primitive IEEE-754 operations, the operations Python adds on
      top ([%], [int / int]) are written out from CPython's [floatobject.c]
      and [longobject.c].
    - [str] is [string]; a character is its code point, so the model covers
      the strings whose code points are below 256.
    - an exception is a value of [exn]; code that may raise returns a
      [result], and [try ... except ValueError] is [except_ValueError].
    - [dict] is an association list in insertion order.
    Library behaviour (datetime, re, statistics) follows CPython 3.11. *)

From Stdlib Require Import ZArith List String Ascii Bool Lia Floats Permutation Sorted.
Import ListNotations.
Local Open Scope Z_scope.
#[local] Set Warnings "-inexact-float".

(** ** Exceptions and the result monad *)

Inductive exn : Set :=
| ValueError
| IndexError
| ZeroDivisionError
| OverflowError
| StatisticsError.

Inductive result (A : Type) : Type :=
| Ok (a : A)
| Raise (e : exn).

Arguments Ok {A} a.
Arguments Raise {A} e.

Definition bind {A B : Type} (r : result A) (k : A -> result B) : result B :=
  match r with
  | Ok a => k a
  | Raise e => Raise e
  end.

Notation "x <- r ;; k" := (bind r (fun x => k))
  (at level 61, r at next level, right associativity).

(** [try: body except ValueError: handler]; any other exception goes through. *)
Definition except_ValueError {A : Type} (body handler : result A) : result A :=
  match body with
  | Raise ValueError => handler
  | r => r
  end.

(** A list comprehension whose element expression may raise: elements are
    evaluated left to right and the first exception aborts the whole. *)
Fixpoint mapM {A B : Type} (f : A -> result B) (l : list A) : result (list B) :=
  match l with
  | [] => Ok []
  | a :: l' => b <- f a ;; bs <- mapM f l' ;; Ok (b :: bs)
  end.

Definition returns {A : Type} (r : result A) : Prop := exists a, r = Ok a.

(** ** Python runtime: integers, strings *)

Module Py.

(** [a % b] on ints. *)
Definition int_mod (a b : Z) : result Z :=
  if b =? 0 then Raise ZeroDivisionError else Ok (a mod b).

Definition code (c : ascii) : Z := Z.of_N (N_of_ascii c).

Definition is_digit (c : ascii) : bool := (48 <=? code c) && (code c <=? 57).

Definition digit_val (c : ascii) : Z := code c - 48.

(** [str.isspace] on code points below 256; [int()] maps those above 127 to
    a blank before it reads the number, and among the ASCII ones accepts only
    the C locale's blanks. *)
Definition int_blank (c : ascii) : bool :=
  let n := code c in
  ((9 <=? n) && (n <=? 13)) || (n =? 32) || (n =? 133) || (n =? 160).

(** [s.split(sep)] for a one-character separator: at least one field. *)
Fixpoint split (sep : ascii) (s : string) : list string :=
  match s with
  | EmptyString => [EmptyString]
  | String c s' =>
      if Ascii.eqb c sep then EmptyString :: split sep s'
      else match split sep s' with
           | [] => [String c EmptyString]
           | f :: fs => String c f :: fs
           end
  end.

(** [l[i]] for [i >= 0]. *)
Definition index {A : Type} (l : list A) (i : nat) : result A :=
  match nth_error l i with
  | Some a => Ok a
  | None => Raise IndexError
  end.

Fixpoint lstrip (s : string) : string :=
  match s with
  | String c s' => if int_blank c then lstrip s' else s
  | EmptyString => s
  end.

(** The digits of a decimal literal, single underscores allowed between
    digits: the value, the number of digits, and the text left over.
    [prev] is the previous character's kind: 0 none, 1 digit, 2 underscore.
    [None] when an underscore is doubled, leading or trailing. *)
Fixpoint scan_digits (s : string) (prev : Z) (acc : Z) (ndigits : Z)
  : option (Z * Z * string) :=
  match s with
  | String c s' =>
      if is_digit c then scan_digits s' 1 (10 * acc + digit_val c) (ndigits + 1)
      else if Ascii.eqb c "_" then
        if prev =? 1 then scan_digits s' 2 acc ndigits else None
      else if prev =? 2 then None else Some (acc, ndigits, s)
  | EmptyString => if prev =? 2 then None else Some (acc, ndigits, s)
  end.

(** [sys.get_int_max_str_digits()], CPython's default. *)
Definition int_max_str_digits : Z := 4300.

(** [int(s)] for a [str]: blanks, an optional sign, digits, blanks. *)
Definition int_of_str (s : string) : result Z :=
  let s1 := lstrip s in
  let '(neg, body) :=
    match s1 with
    | String "-" r => (true, r)
    | String "+" r => (false, r)
    | _ => (false, s1)
    end in
  match scan_digits body 0 0 0 with
  | Some (v, n, rest) =>
      if (n =? 0) then Raise ValueError
      else match lstrip rest with
           | EmptyString =>
               if int_max_str_digits <? n then Raise ValueError
               else Ok (if neg then - v else v)
           | _ => Raise ValueError
           end
  | None => Raise ValueError
  end.

End Py.

(** ** datetime: proleptic Gregorian dates and [strptime] *)

Module Datetime.

(** A [datetime] produced by ["%Y-%m-%d"] has its time at midnight, so it is
    determined by its date. *)
Record datetime : Set := mk_datetime { year : Z; month : Z; day : Z }.

Definition is_leap (y : Z) : bool :=
  (y mod 4 =? 0) && (negb (y mod 100 =? 0) || (y mod 400 =? 0)).

Definition days_in_month (y m : Z) : Z :=
  match m with
  | 1 => 31 | 2 => if is_leap y then 29 else 28 | 3 => 31 | 4 => 30
  | 5 => 31 | 6 => 30 | 7 => 31 | 8 => 31 | 9 => 30 | 10 => 31
  | 11 => 30 | 12 => 31
  | _ => 0
  end.

(** Days before January 1st of year [y]. *)
Definition days_before_year (y : Z) : Z :=
  let y1 := y - 1 in
  y1 * 365 + y1 / 4 - y1 / 100 + y1 / 400.

(** Days in year [y] before the first day of month [m]. *)
Definition days_before_month (y m : Z) : Z :=
  match m with
  | 1 => 0 | 2 => 31 | 3 => 59 | 4 => 90 | 5 => 120 | 6 => 151
  | 7 => 181 | 8 => 212 | 9 => 243 | 10 => 273 | 11 => 304 | 12 => 334
  | _ => 0
  end + (if (2 <? m) && is_leap y then 1 else 0).

(** [d.toordinal()]: 0001-01-01 is day 1. *)
Definition toordinal (d : datetime) : Z :=
  days_before_year (year d) + days_before_month (year d) (month d) + day d.

(** [d.weekday()]: Monday is 0, Sunday is 6. *)
Definition weekday (d : datetime) : Z := (toordinal d + 6) mod 7.

(** [(a - b).days] for two midnights. *)
Definition sub_days (a b : datetime) : Z := toordinal a - toordinal b.

(** The constructor's range check: [datetime(y, m, d)] raises [ValueError]
    outside it. *)
Definition valid_date (y m d : Z) : bool :=
  (1 <=? y) && (y <=? 9999) && (1 <=? m) && (m <=? 12) &&
  (1 <=? d) && (d <=? days_in_month y m).

Definition make (y m d : Z) : result datetime :=
  if valid_date y m d then Ok (mk_datetime y m d) else Raise ValueError.

(** *** The regular expression of ["%Y-%m-%d"]

    [_strptime] turns the format into
    [(?P<Y>\d\d\d\d)-(?P<m>1[0-2]|0[1-9]|[1-9])-(?P<d>3[0-1]|[1-2]\d|0[1-9]|[1-9]| [1-9])]
    and matches it at the start of the text.  A matcher returns every way
    it can match a prefix, in the order a backtracking engine tries them. *)

Definition matcher (A : Type) : Type := string -> list (A * string).

Definition in_range (lo hi : Z) (c : ascii) : bool :=
  (lo <=? Py.code c) && (Py.code c <=? hi).

(** One character of a class, as its digit value. *)
Definition digit_in (lo hi : Z) : matcher Z :=
  fun s => match s with
           | String c s' => if in_range lo hi c then [(Py.digit_val c, s')] else []
           | EmptyString => []
           end.

Definition lit (c : ascii) : matcher unit :=
  fun s => match s with
           | String c' s' => if Ascii.eqb c' c then [(tt, s')] else []
           | EmptyString => []
           end.

Definition seq {A B : Type} (p : matcher A) (k : A -> matcher B) : matcher B :=
  fun s => flat_map (fun '(a, s') => k a s') (p s).

Definition alt {A : Type} (p q : matcher A) : matcher A :=
  fun s => p s ++ q s.

Definition ret {A : Type} (a : A) : matcher A := fun s => [(a, s)].

(** Two characters read as the number [10 * a + b]. *)
Definition two (lo1 hi1 lo2 hi2 : Z) : matcher Z :=
  seq (digit_in lo1 hi1) (fun a => seq (digit_in lo2 hi2) (fun b => ret (10 * a + b))).

(** ["0"] is 48, ["9"] is 57. *)
Definition re_Y : matcher Z :=
  seq (digit_in 48 57) (fun a => seq (digit_in 48 57) (fun b =>
  seq (digit_in 48 57) (fun c => seq (digit_in 48 57) (fun d =>
  ret (1000 * a + 100 * b + 10 * c + d))))).

Definition re_m : matcher Z :=
  alt (two 49 49 48 50) (alt (two 48 48 49 57) (digit_in 49 57)).

Definition re_d : matcher Z :=
  alt (two 51 51 48 49) (alt (two 49 50 48 57) (alt (two 48 48 49 57)
  (alt (digit_in 49 57) (seq (lit " ") (fun _ => digit_in 49 57))))).

Definition re_Ymd : matcher (Z * Z * Z) :=
  seq re_Y (fun y => seq (lit "-") (fun _ => seq re_m (fun m =>
  seq (lit "-") (fun _ => seq re_d (fun d => ret (y, m, d)))))).

(** [datetime.strptime(s, "%Y-%m-%d")]: the first match of the expression;
    [ValueError] when there is none, when text remains after it, or when the
    fields are no calendar date. *)
Definition strptime (s : string) : result datetime :=
  match re_Ymd s with
  | [] => Raise ValueError
  | ((y, m, d), rest) :: _ =>
      match rest with
      | EmptyString => make y m d
      | _ => Raise ValueError
      end
  end.

(** [datetime(1970, 1, 1)]. *)
Definition epoch : datetime := mk_datetime 1970 1 1.

End Datetime.

(** ** Python runtime: floats *)

Module PyFloat.

(** C's [fmod] on the exact values: the result has the sign of [x] and is
    [|x| - n * |y|] for the largest [n] that keeps it non-negative; it is
    always representable, so no rounding takes place. *)
Definition SFfmod (x y : spec_float) : spec_float :=
  match x, y with
  | S754_nan, _ | _, S754_nan => S754_nan
  | S754_infinity _, _ => S754_nan
  | _, S754_zero _ => S754_nan
  | S754_zero _, _ => x
  | S754_finite _ _ _, S754_infinity _ => x
  | S754_finite sx mx ex, S754_finite _ my ey =>
      let e := Z.min ex ey in
      let X := Z.shiftl (Zpos mx) (ex - e) in
      let Y := Z.shiftl (Zpos my) (ey - e) in
      let R := X mod Y in
      if R =? 0 then S754_zero sx
      else binary_normalize prec emax (cond_Zopp sx R) e false
  end.

Definition fmod (x y : float) : float := SF2Prim (SFfmod (Prim2SF x) (Prim2SF y)).

(** [x % y] on floats ([float_rem]): [fmod], then the sign of the divisor. *)
Definition rem (x y : float) : result float :=
  if (y =? 0)%float then Raise ZeroDivisionError
  else
    let m := fmod x y in
    Ok (if (m =? 0)%float then (if (y <? 0)%float then neg_zero else zero)
        else if xorb (y <? 0)%float (m <? 0)%float then (m + y)%float
        else m).

(** [x / y] on floats. *)
Definition truediv (x y : float) : result float :=
  if (y =? 0)%float then Raise ZeroDivisionError else Ok (x / y)%float.

(** An int as an exact, unrounded value. *)
Definition SF_of_Z (z : Z) : spec_float :=
  match z with
  | Z0 => S754_zero false
  | Zpos p => S754_finite false p 0
  | Zneg p => S754_finite true p 0
  end.

(** [a / b] on ints ([long_true_divide]): the exact quotient rounded once to
    the nearest float; [OverflowError] when that is out of range. *)
Definition int_truediv (a b : Z) : result float :=
  if b =? 0 then Raise ZeroDivisionError
  else
    match SFdiv prec emax (SF_of_Z a) (SF_of_Z b) with
    | S754_infinity _ => Raise OverflowError
    | r => Ok (SF2Prim r)
    end.

End PyFloat.

(** ** re: the search [\b(w1|w2|...)\b] with [re.IGNORECASE] *)

Module Re.

(** [\w] on code points below 256: letters, digits and other numerals of
    Latin-1, and the underscore. *)
Definition is_word (c : ascii) : bool :=
  let n := Py.code c in
  ((48 <=? n) && (n <=? 57)) || ((65 <=? n) && (n <=? 90)) || (n =? 95) ||
  ((97 <=? n) && (n <=? 122)) || (n =? 170) || (n =? 178) || (n =? 179) ||
  (n =? 181) || (n =? 185) || (n =? 186) || ((188 <=? n) && (n <=? 190)) ||
  ((192 <=? n) && (n <=? 214)) || ((216 <=? n) && (n <=? 246)) ||
  ((248 <=? n) && (n <=? 255)).

Definition is_word_opt (c : option ascii) : bool :=
  match c with
  | Some c => is_word c
  | None => false
  end.

(** [\b] between two neighbours (none at either end of the text). *)
Definition boundary (prev next : option ascii) : bool :=
  xorb (is_word_opt prev) (is_word_opt next).

Definition lower (c : ascii) : ascii :=
  let n := Py.code c in
  if (65 <=? n) && (n <=? 90) then ascii_of_N (Z.to_N (n + 32)) else c.

(** A literal character of the pattern against a character of the text,
    ignoring case. *)
Definition ci_eqb (c p : ascii) : bool := Ascii.eqb (lower c) (lower p).

Definition head (s : string) : option ascii :=
  match s with
  | String c _ => Some c
  | EmptyString => None
  end.

(** The literal [w] at the start of [s]: the last character consumed (or
    [prev] when [w] is empty) and the text that follows. *)
Fixpoint match_lit (w s : string) (prev : option ascii)
  : option (option ascii * string) :=
  match w with
  | EmptyString => Some (prev, s)
  | String p w' =>
      match s with
      | String c s' => if ci_eqb c p then match_lit w' s' (Some c) else None
      | EmptyString => None
      end
  end.

(** The whole pattern at the current position. *)
Definition match_here (alts : list string) (prev : option ascii) (s : string) : bool :=
  boundary prev (head s) &&
  existsb (fun w => match match_lit w s prev with
                    | Some (last, rest) => boundary last (head rest)
                    | None => false
                    end) alts.

Fixpoint search_from (alts : list string) (prev : option ascii) (s : string) : bool :=
  match_here alts prev s ||
  match s with
  | String c s' => search_from alts (Some c) s'
  | EmptyString => false
  end.

(** [bool(re.search(r"\b(w1|...|wn)\b", s, re.IGNORECASE))]. *)
Definition search (alts : list string) (s : string) : bool := search_from alts None s.

End Re.

(** ** statistics: [mean] and [stdev] of ints *)

(** A value stored in the feature record. *)
Inductive value : Set :=
| VBool (b : bool)
| VInt (z : Z)
| VFloat (f : float).

Module Statistics.

Definition sum (l : list Z) : Z := fold_left Z.add l 0.

Definition len {A : Type} (l : list A) : Z := Z.of_nat (List.length l).

(** [mean(data)]: the exact mean as a fraction in lowest terms, handed back
    as an int when it is one and as the nearest float otherwise. *)
Definition mean (data : list Z) : result value :=
  let n := len data in
  if n <? 1 then Raise StatisticsError
  else
    let total := sum data in
    let g := Z.gcd total n in
    let num := total / g in
    let den := n / g in
    if den =? 1 then Ok (VInt num)
    else f <- PyFloat.int_truediv num den ;; Ok (VFloat f).

Definition bit_length (n : Z) : Z :=
  if n =? 0 then 0 else Z.log2 (Z.abs n) + 1.

(** [_integer_sqrt_of_frac_rto]: the square root of [n / m] rounded to odd. *)
Definition integer_sqrt_of_frac_rto (n m : Z) : Z :=
  let a := Z.sqrt (n / m) in
  Z.lor a (if a * a * m =? n then 0 else 1).

(** [2 * sys.float_info.mant_dig + 3]. *)
Definition sqrt_bit_width : Z := 109.

(** [_float_sqrt_of_frac]: the square root of [n / m], correctly rounded. *)
Definition float_sqrt_of_frac (n m : Z) : result float :=
  let q := (bit_length n - bit_length m - sqrt_bit_width) / 2 in
  if 0 <=? q then
    PyFloat.int_truediv
      (Z.shiftl (integer_sqrt_of_frac_rto n (Z.shiftl m (2 * q))) q) 1
  else
    PyFloat.int_truediv
      (integer_sqrt_of_frac_rto (Z.shiftl n (- 2 * q)) m) (Z.shiftl 1 (- q)).

(** [stdev(data)]: the square root of the sample variance, which is
    computed exactly: [(n * sum(x*x) - sum(x)**2) / (n * (n - 1))]. *)
Definition stdev (data : list Z) : result float :=
  let n := len data in
  if n <? 2 then Raise StatisticsError
  else
    let sx := sum data in
    let sxx := sum (map (fun x => x * x) data) in
    let N := n * sxx - sx * sx in
    let D := n * (n - 1) in
    let g := Z.gcd N D in
    float_sqrt_of_frac (N / g) (D / g).

End Statistics.

(** ** The data model *)

(** Modelled from the spec: the [Transaction] record of
    [recur_scan.transactions], which is not among the sources.  It is an
    immutable record with a merchant name, a [YYYY-MM-DD] date string and a
    float amount; the features read no other field. *)
Record Transaction : Set := mk_transaction {
  name : string;
  date : string;
  amount : float
}.

(** A feature record: a [dict] from feature names to values, in insertion
    order. *)
Definition dict : Set := list (string * value).

Fixpoint dict_get (d : dict) (k : string) : option value :=
  match d with
  | [] => None
  | (k', v) :: d' => if String.eqb k' k then Some v else dict_get d' k
  end.

(** [d[k] = v]: an existing key keeps its place, a new one goes last. *)
Fixpoint dict_set (d : dict) (k : string) (v : value) : dict :=
  match d with
  | [] => [(k, v)]
  | (k', v') :: d' =>
      if String.eqb k' k then (k', v) :: d' else (k', v') :: dict_set d' k v
  end.

(** [d.update(other)]. *)
Definition dict_update (d other : dict) : dict :=
  fold_left (fun acc kv => dict_set acc (fst kv) (snd kv)) other d.

(** A float against an int, compared by exact value as [float.__eq__] does. *)
Definition float_eq_int (x : float) (z : Z) : bool :=
  match Prim2SF x with
  | S754_zero _ => z =? 0
  | S754_finite s m e =>
      if 0 <=? e then cond_Zopp s (Zpos m) * 2 ^ e =? z
      else cond_Zopp s (Zpos m) =? z * 2 ^ (- e)
  | _ => false
  end.

(** Python's [==] between two stored values: numbers compare by value, and
    [True] and [False] are the ints 1 and 0. *)
Definition py_eq (a b : value) : bool :=
  let as_int v :=
    match v with
    | VBool b => Some (Z.b2z b)
    | VInt z => Some z
    | VFloat _ => None
    end in
  match a, b with
  | VFloat x, VFloat y => (x =? y)%float
  | VFloat x, _ => match as_int b with Some z => float_eq_int x z | None => false end
  | _, VFloat y => match as_int a with Some z => float_eq_int y z | None => false end
  | _, _ => match as_int a, as_int b with Some x, Some y => x =? y | _, _ => false end
  end.

Definition len {A : Type} (l : list A) : Z := Z.of_nat (List.length l).

(** [sum(1 for x in l if test(x))] where the test may raise. *)
Fixpoint countM {A : Type} (test : A -> result bool) (l : list A) : result Z :=
  match l with
  | [] => Ok 0
  | a :: l' => b <- test a ;; n <- countM test l' ;; Ok (if b then 1 + n else n)
  end.

(** ** Vendor classifiers *)

Definition get_is_always_recurring (transaction : Transaction) : bool :=
  Re.search ["netflix"; "spotify"; "google storage"; "hulu"]%string (name transaction).

Definition get_is_insurance (transaction : Transaction) : bool :=
  Re.search ["insur"; "geico"; "allstate"; "state farm"; "progressive"; "insur";
             "insuranc"]%string (name transaction).

Definition get_is_utility (transaction : Transaction) : bool :=
  Re.search ["water"; "electricity"; "gas"; "internet"; "cable"; "energy"; "utilit";
             "utility"]%string (name transaction).

Definition is_recurring_mobile_transaction (transaction : Transaction) : bool :=
  Re.search ["t-mobile"; "at&t"; "verizon"; "boost mobile"; "tello mobile"]%string
            (name transaction).

(** ** Periodicity detectors *)

Definition _get_days (date : string) : result Z :=
  d <- Datetime.strptime date ;; Ok (Datetime.sub_days d Datetime.epoch).

(** The [for] loop of [get_n_transactions_days_apart], with the counter
    [n_txs] as its state. *)
Fixpoint days_apart_loop (transaction_days n_days_apart n_days_off : Z)
  (all_transactions : list Transaction) (n_txs : Z) : result Z :=
  match all_transactions with
  | [] => Ok n_txs
  | t :: rest =>
      t_days <- _get_days (date t) ;;
      let days_diff := Z.abs (t_days - transaction_days) in
      if days_diff <? n_days_apart - n_days_off then
        days_apart_loop transaction_days n_days_apart n_days_off rest n_txs
      else
        remainder <- Py.int_mod days_diff n_days_apart ;;
        if (remainder <=? n_days_off) || (n_days_apart - remainder <=? n_days_off) then
          days_apart_loop transaction_days n_days_apart n_days_off rest (n_txs + 1)
        else
          days_apart_loop transaction_days n_days_apart n_days_off rest n_txs
  end.

Definition get_n_transactions_days_apart (transaction : Transaction)
  (all_transactions : list Transaction) (n_days_apart n_days_off : Z) : result Z :=
  transaction_days <- _get_days (date transaction) ;;
  days_apart_loop transaction_days n_days_apart n_days_off all_transactions 0.

Definition _get_day (date : string) : result Z :=
  field <- Py.index (Py.split "-" date) 2 ;; Py.int_of_str field.

(** The condition of the comprehension is evaluated afresh for each entry,
    the entry's day first. *)
Definition get_n_transactions_same_day (transaction : Transaction)
  (all_transactions : list Transaction) (n_days_off : Z) : result Z :=
  countM (fun t =>
            a <- _get_day (date t) ;;
            b <- _get_day (date transaction) ;;
            Ok (Z.abs (a - b) <=? n_days_off))
         all_transactions.

(** ** Calendar components and amount shape *)

Definition get_ends_in_99 (transaction : Transaction) : result bool :=
  r <- PyFloat.rem (amount transaction * 100)%float 100 ;; Ok (r =? 99)%float.

Definition get_year (transaction : Transaction) : result Z :=
  except_ValueError
    (d <- Datetime.strptime (date transaction) ;; Ok (Datetime.year d))
    (Ok (-1)).

Definition get_month (transaction : Transaction) : result Z :=
  except_ValueError
    (d <- Datetime.strptime (date transaction) ;; Ok (Datetime.month d))
    (Ok (-1)).

Definition get_day (transaction : Transaction) : result Z :=
  except_ValueError
    (d <- Datetime.strptime (date transaction) ;; Ok (Datetime.day d))
    (Ok (-1)).

Definition get_day_of_week (transaction : Transaction) : result Z :=
  except_ValueError
    (d <- Datetime.strptime (date transaction) ;; Ok (Datetime.weekday d))
    (Ok (-1)).

(** ** Aggregate statistics *)

(** [min] and [max] keep the first item and replace it when a later one
    compares below, respectively above, it. *)
Definition get_min_transaction_amount (all_transactions : list Transaction) : float :=
  match all_transactions with
  | [] => 0%float
  | t :: rest =>
      fold_left (fun m t' => if (amount t' <? m)%float then amount t' else m) rest (amount t)
  end.

Definition get_max_transaction_amount (all_transactions : list Transaction) : float :=
  match all_transactions with
  | [] => 0%float
  | t :: rest =>
      fold_left (fun m t' => if (m <? amount t')%float then amount t' else m) rest (amount t)
  end.

Definition get_n_transactions_same_vendor (transaction : Transaction)
  (all_transactions : list Transaction) : Z :=
  len (filter (fun t => String.eqb (name t) (name transaction)) all_transactions).

Definition get_percent_transactions_same_amount (transaction : Transaction)
  (all_transactions : list Transaction) : result float :=
  match all_transactions with
  | [] => Ok 0%float
  | _ =>
      let n_same_amount :=
        len (filter (fun t => (amount t =? amount transaction)%float) all_transactions) in
      PyFloat.int_truediv n_same_amount (len all_transactions)
  end.

Definition get_n_transactions_same_amount (transaction : Transaction)
  (all_transactions : list Transaction) : Z :=
  len (filter (fun t => (amount t =? amount transaction)%float) all_transactions).

(** ** Interval statistics *)

(** [a < b] on datetimes: the fields in order. *)
Definition datetime_ltb (a b : Datetime.datetime) : bool :=
  (Datetime.year a <? Datetime.year b) ||
  ((Datetime.year a =? Datetime.year b) &&
   ((Datetime.month a <? Datetime.month b) ||
    ((Datetime.month a =? Datetime.month b) && (Datetime.day a <? Datetime.day b)))).

(** [sorted]: a stable sort that compares with [<] only; an item goes in
    front of the first one it is below. *)
Fixpoint insert_sorted (x : Datetime.datetime) (l : list Datetime.datetime)
  : list Datetime.datetime :=
  match l with
  | [] => [x]
  | y :: l' => if datetime_ltb x y then x :: l else y :: insert_sorted x l'
  end.

Definition sorted (l : list Datetime.datetime) : list Datetime.datetime :=
  fold_left (fun acc x => insert_sorted x acc) l [].

(** [[(dates[i] - dates[i - 1]).days for i in range(1, len(dates))]]. *)
Fixpoint day_gaps (dates : list Datetime.datetime) : list Z :=
  match dates with
  | a :: (b :: _) as rest => Datetime.sub_days b a :: day_gaps rest
  | _ => []
  end.

(** [len(set(l))]. *)
Definition n_distinct (l : list Z) : Z := len (nodup Z.eq_dec l).

(** The record returned for fewer than two transactions. *)
Definition zero_intervals : dict :=
  [("avg_days_between_transactions", VFloat 0);
   ("std_dev_days_between_transactions", VFloat 0);
   ("monthly_recurrence", VInt 0);
   ("same_weekday", VInt 0);
   ("same_amount", VInt 0)]%string.

Section IntervalStatistics.

(** The date parser, [datetime.strptime(_, "%Y-%m-%d")] in the source, and
    the reading of an entry's amount are the two accesses the function makes
    to an entry; they are kept abstract here so that what the function does
    with and without them can be stated.  The source parses a date only when
    [isinstance(trans.date, str)] holds; [date] is a [str] in this model, so
    every date is parsed. *)
Variable parse_date : string -> result Datetime.datetime.
Variable read_amount : Transaction -> float.

Definition transaction_intervals_with (transactions : list Transaction) : result dict :=
  if len transactions <? 2 then Ok zero_intervals
  else
    parsed <- mapM (fun trans => parse_date (date trans)) transactions ;;
    let dates := sorted parsed in
    let intervals := day_gaps dates in
    avg_days <- match intervals with
                | [] => Ok (VFloat 0)
                | _ => Statistics.mean intervals
                end ;;
    std_dev_days <- (if 1 <? len intervals then Statistics.stdev intervals
                     else Ok 0%float) ;;
    let monthly_count := len (filter (fun gap => (23 <=? gap) && (gap <=? 38)) intervals) in
    monthly_recurrence <- match intervals with
                          | [] => Ok 0%float
                          | _ => PyFloat.int_truediv monthly_count (len intervals)
                          end ;;
    let weekdays := map Datetime.weekday dates in
    let same_weekday := if n_distinct weekdays =? 1 then 1 else 0 in
    let amounts := map read_amount transactions in
    base_amount <- Py.index amounts 0 ;;
    consistent_amount <-
      (if (base_amount =? 0)%float then Ok 0%float
       else
         n <- countM (fun amt =>
                        q <- PyFloat.truediv (abs (amt - base_amount)) base_amount ;;
                        Ok (q <=? 0.05)%float)
                     amounts ;;
         PyFloat.int_truediv n (len amounts)) ;;
    Ok [("avg_days_between_transactions", avg_days);
        ("std_dev_days_between_transactions", VFloat std_dev_days);
        ("monthly_recurrence", VFloat monthly_recurrence);
        ("same_weekday", VInt same_weekday);
        ("same_amount", VFloat consistent_amount)]%string.

End IntervalStatistics.

Definition get_transaction_intervals (transactions : list Transaction) : result dict :=
  transaction_intervals_with Datetime.strptime amount transactions.

(** ** Feature assembler *)

Definition get_features (transaction : Transaction) (all_transactions : list Transaction)
  : result dict :=
  percent_same_amount <- get_percent_transactions_same_amount transaction all_transactions ;;
  day_of_week <- get_day_of_week transaction ;;
  month <- get_month transaction ;;
  day <- get_day transaction ;;
  year <- get_year transaction ;;
  ends_in_99 <- get_ends_in_99 transaction ;;
  same_day_exact <- get_n_transactions_same_day transaction all_transactions 0 ;;
  same_day_off_1 <- get_n_transactions_same_day transaction all_transactions 1 ;;
  same_day_off_2 <- get_n_transactions_same_day transaction all_transactions 2 ;;
  apart_14_exact <- get_n_transactions_days_apart transaction all_transactions 14 0 ;;
  apart_14_off_1 <- get_n_transactions_days_apart transaction all_transactions 14 1 ;;
  apart_7_exact <- get_n_transactions_days_apart transaction all_transactions 7 0 ;;
  apart_7_off_1 <- get_n_transactions_days_apart transaction all_transactions 7 1 ;;
  let features :=
    [("n_transactions_same_amount",
       VInt (get_n_transactions_same_amount transaction all_transactions));
     ("percent_transactions_same_amount", VFloat percent_same_amount);
     ("n_transactions_same_vendor",
       VInt (get_n_transactions_same_vendor transaction all_transactions));
     ("max_transaction_amount", VFloat (get_max_transaction_amount all_transactions));
     ("min_transaction_amount", VFloat (get_min_transaction_amount all_transactions));
     ("is_recurring_mobile_transaction", VBool (is_recurring_mobile_transaction transaction));
     ("day_of_week", VInt day_of_week);
     ("month", VInt month);
     ("day", VInt day);
     ("year", VInt year);
     ("ends_in_99", VBool ends_in_99);
     ("amount", VFloat (amount transaction));
     ("same_day_exact", VInt same_day_exact);
     ("same_day_off_1", VInt same_day_off_1);
     ("same_day_off_2", VInt same_day_off_2);
     ("14_days_apart_exact", VInt apart_14_exact);
     ("14_days_apart_off_by_1", VInt apart_14_off_1);
     ("7_days_apart_exact", VInt apart_7_exact);
     ("7_days_apart_off_by_1", VInt apart_7_off_1);
     ("is_insurance", VBool (get_is_insurance transaction));
     ("is_utility", VBool (get_is_utility transaction));
     ("is_always_recurring", VBool (get_is_always_recurring transaction))]%string in
  intervals_features <- get_transaction_intervals all_transactions ;;
  Ok (dict_update features intervals_features).

(** The Netflix scenario: three fortnightly payments of 9.99. *)
Definition netflix_history : list Transaction :=
  [mk_transaction "Netflix" "2024-01-01" 9.99;
   mk_transaction "Netflix" "2024-01-15" 9.99;
   mk_transaction "Netflix" "2024-01-29" 9.99].

(** ** Specification-side definitions *)

(** The inclusion test of the days-apart count as the specification words
    it, on the epoch days of the transaction and of one history entry. *)
Definition days_apart_match (transaction_days n_days_apart n_days_off t_days : Z) : bool :=
  let diff := Z.abs (t_days - transaction_days) in
  let remainder := diff mod n_days_apart in
  (n_days_apart - n_days_off <=? diff) &&
  ((remainder <=? n_days_off) || (n_days_apart - remainder <=? n_days_off)).

Definition days_apart_count (transaction_days n_days_apart n_days_off : Z)
  (history_days : list Z) : Z :=
  len (filter (days_apart_match transaction_days n_days_apart n_days_off) history_days).

(** The epoch days of a whole history; an exception when one date fails. *)
Definition history_days (all_transactions : list Transaction) : result (list Z) :=
  mapM (fun t => _get_days (date t)) all_transactions.

(** ** The Netflix scenario *)

(** Whether a computed record holds, under the key [k], a value that is
    [==] to [v]. *)
Definition feature_is (r : result dict) (k : string) (v : value) : bool :=
  match r with
  | Ok d => match dict_get d k with
            | Some x => py_eq x v
            | None => false
            end
  | Raise _ => false
  end.

(** ** Amounts that end in 99 *)

(** [round(x)] for a float: the nearest int, ties to even; it raises on a
    NaN or an infinity, which is [None] here. *)
Definition py_round (x : float) : option Z :=
  match Prim2SF x with
  | S754_zero _ => Some 0
  | S754_finite s m e =>
      Some (cond_Zopp s
              (if 0 <=? e then Zpos m * 2 ^ e
               else
                 let d := 2 ^ (- e) in
                 let q := Zpos m / d in
                 let r := Zpos m mod d in
                 if 2 * r <? d then q
                 else if d <? 2 * r then q + 1
                 else if Z.even q then q else q + 1))
  | _ => None
  end.

(** The test as the specification words it:
    [round(amount * 100) mod 100 == 99]. *)
Definition ends_in_99_spec (amount : float) : option bool :=
  match py_round (amount * 100)%float with
  | Some cents => Some (cents mod 100 =? 99)
  | None => None
  end.

(** ** Same day of the month *)

(** Two transactions with the same fields. *)
Definition transaction_eqb (a b : Transaction) : bool :=
  String.eqb (name a) (name b) && String.eqb (date a) (date b) &&
  PrimFloat.Leibniz.eqb (amount a) (amount b).

(** The number of occurrences of [t] in [h]. *)
Definition occurrences (t : Transaction) (h : list Transaction) : Z :=
  len (filter (transaction_eqb t) h).

(** ** Signed float values *)

(** A float value that is zero, infinite or finite with the sign [s]. *)
Definition signed (s : bool) (x : spec_float) : Prop :=
  x = S754_zero s \/ x = S754_infinity s \/ exists m e, x = S754_finite s m e.

(** ** The range of day gaps *)

(** Day gaps between dates of the years 1 to 9999 are below [2^22]. *)
Definition gap_bound : Z := 2 ^ 22.

Definition ordinal_ok (d : Datetime.datetime) : Prop :=
  0 <= Datetime.toordinal d < gap_bound.

(** ** Dates in canonical form *)

Definition digit_char (n : Z) : ascii := ascii_of_N (Z.to_N (48 + n)).

(** [d.strftime("%Y-%m-%d")]: four, two and two digits, zero padded. *)
Definition month_day_text (m d : Z) : string :=
  String "-" (String (digit_char (m / 10)) (String (digit_char (m mod 10))
  (String "-" (String (digit_char (d / 10)) (String (digit_char (d mod 10))
  EmptyString))))).

Definition isoformat (y m d : Z) : string :=
  String (digit_char (y / 1000)) (String (digit_char (y / 100 mod 10))
  (String (digit_char (y / 10 mod 10)) (String (digit_char (y mod 10))
  (month_day_text m d)))).

(** What follows the year in the expression of ["%Y-%m-%d"]. *)
Definition re_after_Y (y : Z) : Datetime.matcher (Z * Z * Z) :=
  Datetime.seq (Datetime.lit "-") (fun _ => Datetime.seq Datetime.re_m (fun m =>
  Datetime.seq (Datetime.lit "-") (fun _ => Datetime.seq Datetime.re_d (fun d =>
  Datetime.ret (y, m, d))))).

Definition month_days : list (Z * Z) :=
  flat_map (fun m => map (fun d => (Z.of_nat m, Z.of_nat d)) (List.seq 1 31)) (List.seq 1 12).

(** A float that is a number, placed in a lexicographic order of triples
    that agrees with the comparison of floats. *)
Definition sf_key (x : spec_float) : Z * Z * Z :=
  match x with
  | S754_infinity true => (-2, 0, 0)
  | S754_finite true m e => (-1, - e, - Zpos m)
  | S754_zero _ => (0, 0, 0)
  | S754_finite false m e => (1, e, Zpos m)
  | S754_infinity false => (2, 0, 0)
  | S754_nan => (3, 0, 0)
  end.

Definition key_le (a b : Z * Z * Z) : Prop :=
  let '(a1, a2, a3) := a in
  let '(b1, b2, b3) := b in
  a1 < b1 \/ (a1 = b1 /\ (a2 < b2 \/ (a2 = b2 /\ a3 <= b3))).

Definition key_lt (a b : Z * Z * Z) : Prop :=
  let '(a1, a2, a3) := a in
  let '(b1, b2, b3) := b in
  a1 < b1 \/ (a1 = b1 /\ (a2 < b2 \/ (a2 = b2 /\ a3 < b3))).

Definition is_number (x : float) : Prop := is_nan x = false.

(** No dash among the characters of a text. *)
Fixpoint no_dash (s : string) : bool :=
  match s with
  | EmptyString => true
  | String c s' => negb (Ascii.eqb c "-") && no_dash s'
  end.

(** The keys of the interval-statistics record, in order. *)
Definition interval_names : list string :=
  ["avg_days_between_transactions"; "std_dev_days_between_transactions";
   "monthly_recurrence"; "same_weekday"; "same_amount"]%string.

(** The keys of the feature record, in order. *)
Definition feature_names : list string :=
  List.app
    ["n_transactions_same_amount"; "percent_transactions_same_amount";
     "n_transactions_same_vendor"; "max_transaction_amount"; "min_transaction_amount";
     "is_recurring_mobile_transaction"; "day_of_week"; "month"; "day"; "year";
     "ends_in_99"; "amount"; "same_day_exact"; "same_day_off_1"; "same_day_off_2";
     "14_days_apart_exact"; "14_days_apart_off_by_1"; "7_days_apart_exact";
     "7_days_apart_off_by_1"; "is_insurance"; "is_utility"; "is_always_recurring"]%string
    interval_names.

(** A text with its ASCII capitals turned into small letters. *)
Fixpoint lower_string (s : string) : string :=
  match s with
  | EmptyString => EmptyString
  | String c s' => String (Re.lower c) (lower_string s')
  end.

(** The last character of [s], or [prev] when [s] is empty. *)
Fixpoint last_char (prev : option ascii) (s : string) : option ascii :=
  match s with
  | EmptyString => prev
  | String c s' => last_char (Some c) s'
  end.

(** A term that begins and ends with a word character. *)
Definition word_edged (w : string) : bool :=
  Re.is_word_opt (Re.head w) && Re.is_word_opt (last_char None w).

Definition recurring_terms : list string :=
  ["netflix"; "spotify"; "google storage"; "hulu"]%string.

Definition insurance_terms : list string :=
  ["insur"; "geico"; "allstate"; "state farm"; "progressive"; "insur"; "insuranc"]%string.

Definition utility_terms : list string :=
  ["water"; "electricity"; "gas"; "internet"; "cable"; "energy"; "utilit"; "utility"]%string.

Definition mobile_terms : list string :=
  ["t-mobile"; "at&t"; "verizon"; "boost mobile"; "tello mobile"]%string.

(** The month tables with the leap flag as their only dependence on the
    year. *)
Definition month_table_ok (leap : bool) (m : Z) : bool :=
  let y := if leap then 2024 else 2023 in
  ((m =? 12) ||
   (Datetime.days_before_month y m + Datetime.days_in_month y m
    <=? Datetime.days_before_month y (m + 1))) &&
  (Datetime.days_before_month y m + Datetime.days_in_month y m
   <=? 365 + (if leap then 1 else 0)).

Definition valid (d : Datetime.datetime) : Prop :=
  Datetime.valid_date (Datetime.year d) (Datetime.month d) (Datetime.day d) = true.

(** A history whose entries, in the order given, are [g] days apart: every
    date parses and lies [g] days after the date of the entry before. *)
Fixpoint evenly_spaced (g : Z) (h : list Transaction) : bool :=
  match h with
  | a :: (b :: _) as rest =>
      match _get_days (date a), _get_days (date b) with
      | Ok da, Ok db => (db =? da + g) && evenly_spaced g rest
      | _, _ => false
      end
  | _ => true
  end.

(** The same of a list of dates. *)
Fixpoint spaced (g : Z) (l : list Datetime.datetime) : Prop :=
  match l with
  | a :: (b :: _) as rest =>
      Datetime.toordinal b = Datetime.toordinal a + g /\ spaced g rest
  | _ => True
  end.

Definition ordinal_le (a b : Datetime.datetime) : Prop :=
  Datetime.toordinal a <= Datetime.toordinal b.

(** [a <= b] on datetimes, as [sorted] sees it: [b] is not below [a]. *)
Definition date_le (a b : Datetime.datetime) : Prop := datetime_ltb b a = false.

(** What a call stores in the record: its value, once it has returned. *)
Definition stored {A : Type} (inj : A -> value) (r : result A) : option value :=
  match r with
  | Ok a => Some (inj a)
  | Raise _ => None
  end.

(** * Checks and proofs *)

(** ** Python runtime: examples, as CPython 3.11 evaluates them *)

Example split_date : Py.split "-" "2024-01-15" = ["2024"; "01"; "15"]%string.
Proof. reflexivity. Qed.

Example split_empty_field : Py.split "-" "2024-01--5" = ["2024"; "01"; ""; "5"]%string.
Proof. reflexivity. Qed.

Example int_of_str_examples :
  Py.int_of_str "15" = Ok 15 /\ Py.int_of_str " 007 " = Ok 7 /\
  Py.int_of_str "+5" = Ok 5 /\ Py.int_of_str "-5" = Ok (-5) /\
  Py.int_of_str "1_0" = Ok 10 /\ Py.int_of_str "" = Raise ValueError /\
  Py.int_of_str "5_" = Raise ValueError /\ Py.int_of_str "_5" = Raise ValueError /\
  Py.int_of_str "5__0" = Raise ValueError /\ Py.int_of_str "- 5" = Raise ValueError /\
  Py.int_of_str "5 5" = Raise ValueError /\ Py.int_of_str "+" = Raise ValueError.
Proof. repeat split; reflexivity. Qed.

(** ** datetime: examples *)

Example strptime_examples :
  Datetime.strptime "2024-01-01" = Ok (Datetime.mk_datetime 2024 1 1) /\
  Datetime.strptime "2024-1-5" = Ok (Datetime.mk_datetime 2024 1 5) /\
  Datetime.strptime "2024-01- 5" = Ok (Datetime.mk_datetime 2024 1 5) /\
  Datetime.strptime "2024-10-5" = Ok (Datetime.mk_datetime 2024 10 5) /\
  Datetime.strptime "2024-02-29" = Ok (Datetime.mk_datetime 2024 2 29) /\
  Datetime.strptime "9999-12-31" = Ok (Datetime.mk_datetime 9999 12 31) /\
  Datetime.strptime "2024-13-40" = Raise ValueError /\
  Datetime.strptime "0000-01-01" = Raise ValueError /\
  Datetime.strptime "2023-02-29" = Raise ValueError /\
  Datetime.strptime "1900-02-29" = Raise ValueError /\
  Datetime.strptime "2024-01-311" = Raise ValueError /\
  Datetime.strptime "2024-01-39" = Raise ValueError /\
  Datetime.strptime "2024-111-5" = Raise ValueError /\
  Datetime.strptime "2024-01-01 " = Raise ValueError /\
  Datetime.strptime " 2024-01-01" = Raise ValueError /\
  Datetime.strptime "2024-1-0" = Raise ValueError /\
  Datetime.strptime "2024-9-31" = Raise ValueError /\
  Datetime.strptime "20240101" = Raise ValueError /\
  Datetime.strptime "" = Raise ValueError.
Proof. repeat split; reflexivity. Qed.

Example weekday_examples :
  Datetime.weekday (Datetime.mk_datetime 2024 1 1) = 0 /\
  Datetime.weekday (Datetime.mk_datetime 2024 1 5) = 4 /\
  Datetime.weekday (Datetime.mk_datetime 9999 12 31) = 4 /\
  Datetime.weekday (Datetime.mk_datetime 2000 2 29) = 1 /\
  Datetime.weekday (Datetime.mk_datetime 1 1 1) = 0.
Proof. repeat split; reflexivity. Qed.

Example epoch_days_examples :
  Datetime.sub_days (Datetime.mk_datetime 2024 1 1) Datetime.epoch = 19723 /\
  Datetime.sub_days (Datetime.mk_datetime 2000 2 29) Datetime.epoch = 11016 /\
  Datetime.sub_days (Datetime.mk_datetime 1 1 1) Datetime.epoch = -719162 /\
  Datetime.sub_days (Datetime.mk_datetime 9999 12 31) Datetime.epoch = 2932896.
Proof. repeat split; reflexivity. Qed.

(** ** Floats: examples *)

Example float_rem_examples :
  PyFloat.rem 1998.9999999999998%float 100 = Ok 98.99999999999977%float /\
  PyFloat.rem 999 100 = Ok 99%float /\
  PyFloat.rem (-7.5) 2 = Ok 0.5%float /\
  PyFloat.rem 7.5 (-2) = Ok (-0.5)%float /\
  PyFloat.rem 6 (-2) = Ok neg_zero /\
  PyFloat.rem 1e300 7 = Ok 1%float /\
  PyFloat.rem 5e-324 3 = Ok 5e-324%float /\
  PyFloat.rem 1 0 = Raise ZeroDivisionError.
Proof. repeat split; vm_compute; reflexivity. Qed.

Example int_truediv_examples :
  PyFloat.int_truediv 1 3 = Ok 0x1.5555555555555p-2%float /\
  PyFloat.int_truediv 2 3 = Ok 0x1.5555555555555p-1%float /\
  PyFloat.int_truediv (-7) 2 = Ok (-3.5)%float /\
  PyFloat.int_truediv 0 (-5) = Ok neg_zero /\
  PyFloat.int_truediv 3 3 = Ok 1%float /\
  PyFloat.int_truediv (10 ^ 30) 7 = Ok 0x1.cd98a8b00a10bp+96%float /\
  PyFloat.int_truediv (2 ^ 60 + 1) 3 = Ok 0x1.5555555555555p+58%float /\
  PyFloat.int_truediv 1 (10 ^ 400) = Ok 0%float /\
  PyFloat.int_truediv (10 ^ 400) 1 = Raise OverflowError /\
  PyFloat.int_truediv 1 0 = Raise ZeroDivisionError.
Proof. repeat split; vm_compute; reflexivity. Qed.

(** ** re and statistics: examples *)

Example search_examples :
  Re.search ["netflix"; "spotify"; "google storage"; "hulu"]%string "Netflix" = true /\
  Re.search ["netflix"; "spotify"; "google storage"; "hulu"]%string "NETFLIX*1" = true /\
  Re.search ["netflix"; "spotify"; "google storage"; "hulu"]%string "my_netflix" = false /\
  Re.search ["netflix"; "spotify"; "google storage"; "hulu"]%string "netflix9" = false /\
  Re.search ["netflix"; "spotify"; "google storage"; "hulu"]%string "Hulu-plus" = true /\
  Re.search ["netflix"; "spotify"; "google storage"; "hulu"]%string "Google  Storage" = false /\
  Re.search ["t-mobile"; "at&t"; "verizon"; "boost mobile"; "tello mobile"]%string "AT&T Wireless" = true /\
  Re.search ["t-mobile"; "at&t"; "verizon"; "boost mobile"; "tello mobile"]%string "ATT Store" = false /\
  Re.search ["insur"; "geico"; "allstate"; "state farm"; "progressive"; "insur"; "insuranc"]%string "insurance" = false /\
  Re.search ["insur"; "geico"; "allstate"; "state farm"; "progressive"; "insur"; "insuranc"]%string "pre-insur" = true.
Proof. repeat split; reflexivity. Qed.

Example statistics_examples :
  Statistics.mean [14; 14] = Ok (VInt 14) /\
  Statistics.mean [1; 2] = Ok (VFloat 1.5) /\
  Statistics.mean [] = Raise StatisticsError /\
  Statistics.stdev [14; 14] = Ok 0%float /\
  Statistics.stdev [1; 2] = Ok 0x1.6a09e667f3bcdp-1%float /\
  Statistics.stdev [30; 31; 28; 45] = Ok 0x1.f11df5238275ap+2%float /\
  Statistics.stdev [1; 3652058; 17; 400000] = Ok 0x1.affdab7ac6533p+20%float /\
  Statistics.stdev [3; 3; 4] = Ok 0x1.279a74590331cp-1%float /\
  Statistics.mean [1; 3652058; 17; 400001] = Ok (VFloat 0x1.eea368p+19) /\
  Statistics.stdev [7] = Raise StatisticsError.
Proof. repeat split; vm_compute; reflexivity. Qed.

(** ** Days apart, the zero record and the calendar components *)

Lemma strptime_raises_ValueError (s : string) (e : exn) :
  Datetime.strptime s = Raise e -> e = ValueError.
Proof.
  unfold Datetime.strptime, Datetime.make.
  destruct (Datetime.re_Ymd s) as [|[[[y m] d] rest] l]; [congruence|].
  destruct rest; [|congruence].
  destruct (Datetime.valid_date y m d); congruence.
Qed.

Lemma strptime_valid (s : string) (d : Datetime.datetime) :
  Datetime.strptime s = Ok d ->
  Datetime.valid_date (Datetime.year d) (Datetime.month d) (Datetime.day d) = true.
Proof.
  unfold Datetime.strptime, Datetime.make.
  destruct (Datetime.re_Ymd s) as [|[[[y m] dd] rest] l]; [congruence|].
  destruct rest; [|congruence].
  destruct (Datetime.valid_date y m dd) eqn:E; [|congruence].
  intros H; injection H as <-; exact E.
Qed.

Lemma get_days_raises_ValueError (s : string) (e : exn) :
  _get_days s = Raise e -> e = ValueError.
Proof.
  unfold _get_days. destruct (Datetime.strptime s) eqn:E; simpl; [discriminate|].
  intros H; injection H as <-. eapply strptime_raises_ValueError; eauto.
Qed.

(** The loop adds to its counter the number of entries the specification
    counts, whatever the counter holds on entry. *)
Lemma days_apart_loop_spec (d0 g k : Z) (h : list Transaction) :
  g <> 0 ->
  forall (ds : list Z) (n : Z),
    history_days h = Ok ds ->
    days_apart_loop d0 g k h n = Ok (n + days_apart_count d0 g k ds).
Proof.
  intros Hg. unfold history_days, days_apart_count, len.
  induction h as [|t h IH]; intros ds n Hds; simpl in *.
  - injection Hds as <-. simpl. f_equal. lia.
  - destruct (_get_days (date t)) as [td|] eqn:Et; simpl in *; [|discriminate].
    destruct (mapM (fun t0 => _get_days (date t0)) h) as [ds'|] eqn:Eh; simpl in *;
      [|discriminate].
    injection Hds as <-. simpl.
    unfold days_apart_match at 1. cbv zeta.
    unfold Py.int_mod.
    destruct (g =? 0) eqn:Eg; [apply Z.eqb_eq in Eg; contradiction|].
    destruct (Z.abs (td - d0) <? g - k) eqn:Elt.
    + apply Z.ltb_lt in Elt.
      replace (g - k <=? Z.abs (td - d0)) with false by (symmetry; apply Z.leb_gt; lia).
      simpl. apply IH. reflexivity.
    + apply Z.ltb_ge in Elt.
      replace (g - k <=? Z.abs (td - d0)) with true by (symmetry; apply Z.leb_le; lia).
      simpl.
      destruct ((Z.abs (td - d0) mod g <=? k) || (g - Z.abs (td - d0) mod g <=? k)).
      * rewrite (IH ds' (n + 1) eq_refl). f_equal. simpl List.length. lia.
      * apply IH. reflexivity.
Qed.

(** When a date of the transaction or of the history does not parse, the
    count raises [ValueError]. *)
Lemma days_apart_loop_raises (d0 g k : Z) (h : list Transaction) :
  g <> 0 ->
  forall (e : exn) (n : Z),
    history_days h = Raise e ->
    days_apart_loop d0 g k h n = Raise ValueError.
Proof.
  intros Hg. unfold history_days.
  induction h as [|t h IH]; intros e n He; simpl in *; [discriminate|].
  destruct (_get_days (date t)) as [td|e'] eqn:Et; simpl in *.
  - destruct (mapM (fun t0 => _get_days (date t0)) h) as [ds'|e''] eqn:Eh; simpl in *;
      [discriminate|].
    unfold Py.int_mod.
    destruct (g =? 0) eqn:Eg; [apply Z.eqb_eq in Eg; contradiction|].
    simpl.
    destruct (Z.abs (td - d0) <? g - k); [eapply IH; reflexivity|].
    destruct ((Z.abs (td - d0) mod g <=? k) || (g - Z.abs (td - d0) mod g <=? k));
      eapply IH; reflexivity.
  - f_equal. eapply get_days_raises_ValueError; eauto.
Qed.

(** With parsed dates the whole call returns the specification's count. *)
Lemma days_apart_returns_count
  (t : Transaction) (h : list Transaction) (g k d0 : Z) (ds : list Z) :
  0 < g ->
  _get_days (date t) = Ok d0 ->
  history_days h = Ok ds ->
  get_n_transactions_days_apart t h g k = Ok (days_apart_count d0 g k ds).
Proof.
  intros Hg Ht Hh. unfold get_n_transactions_days_apart. rewrite Ht. simpl.
  rewrite (days_apart_loop_spec d0 g k h) with (ds := ds) by (auto; lia).
  f_equal.
Qed.

(** C1 (as amended): for every transaction and history whose date strings
    all parse, every target gap above 0 and every tolerance from 0 up,
    [get_n_transactions_days_apart] returns exactly the number of history
    entries whose absolute epoch-day difference [diff] from the transaction
    satisfies [diff >= gap - tolerance] and, with [remainder = diff mod gap],
    [remainder <= tolerance] or [gap - remainder <= tolerance]; entries with
    [diff < gap - tolerance] are not counted. *)
Theorem days_apart_counts_matching_entries
  (t : Transaction) (h : list Transaction) (g k d0 : Z) (ds : list Z) :
  0 < g -> 0 <= k ->
  _get_days (date t) = Ok d0 ->
  history_days h = Ok ds ->
  get_n_transactions_days_apart t h g k = Ok (days_apart_count d0 g k ds).
Proof.
  intros Hg _ Ht Hh. apply days_apart_returns_count; assumption.
Qed.

Lemma days_apart_counts_matching_entries_witness :
  get_n_transactions_days_apart
    (mk_transaction "Netflix" "2024-01-15" 9.99)
    [mk_transaction "Netflix" "2024-01-01" 9.99;
     mk_transaction "Netflix" "2024-01-15" 9.99;
     mk_transaction "Netflix" "2024-01-28" 9.99;
     mk_transaction "Netflix" "2024-02-20" 9.99] 14 1
  = Ok (days_apart_count 19737 14 1 [19723; 19737; 19750; 19773]).
Proof.
  apply days_apart_counts_matching_entries; [lia | lia | reflexivity | reflexivity].
Defined.

(** C1, the claim as stated fails: a transaction whose date does not parse
    makes the count raise [ValueError], even against the empty history, in
    which no entry is there to be counted. *)
Lemma days_apart_raises_on_malformed_date :
  get_n_transactions_days_apart (mk_transaction "Netflix" "2024-13-40" 9.99) [] 14 1
  = Raise ValueError.
Proof. reflexivity. Qed.

Lemma days_apart_match_sym (a b g k : Z) :
  days_apart_match a g k b = days_apart_match b g k a.
Proof.
  unfold days_apart_match.
  replace (Z.abs (b - a)) with (Z.abs (a - b)) by lia. reflexivity.
Qed.

(** C4: for two transactions with parseable dates, a gap above 0 and a
    tolerance from 0 up, the count of [b] against the transaction [a] and
    the count of [a] against the transaction [b] are the same number: the
    inclusion decision does not depend on which of the two is the
    transaction. *)
Theorem days_apart_pair_symmetric (a b : Transaction) (g k : Z) :
  0 < g -> 0 <= k ->
  returns (Datetime.strptime (date a)) ->
  returns (Datetime.strptime (date b)) ->
  exists n : Z,
    get_n_transactions_days_apart a [b] g k = Ok n /\
    get_n_transactions_days_apart b [a] g k = Ok n.
Proof.
  intros Hg Hk [da Ha] [db Hb].
  pose (ea := Datetime.sub_days da Datetime.epoch).
  pose (eb := Datetime.sub_days db Datetime.epoch).
  assert (Hda : _get_days (date a) = Ok ea) by (unfold _get_days; rewrite Ha; reflexivity).
  assert (Hdb : _get_days (date b) = Ok eb) by (unfold _get_days; rewrite Hb; reflexivity).
  exists (days_apart_count ea g k [eb]). split.
  - apply days_apart_returns_count; auto.
    unfold history_days; simpl; rewrite Hdb; reflexivity.
  - rewrite (days_apart_returns_count b [a] g k eb [ea]); auto.
    + unfold days_apart_count. simpl. rewrite (days_apart_match_sym eb ea g k).
      destruct (days_apart_match ea g k eb); reflexivity.
    + unfold history_days; simpl; rewrite Hda; reflexivity.
Qed.

Lemma days_apart_pair_symmetric_witness :
  exists n : Z,
    get_n_transactions_days_apart
      (mk_transaction "Netflix" "2024-01-01" 9.99)
      [mk_transaction "Spotify" "2024-01-15" 4.99] 14 1 = Ok n /\
    get_n_transactions_days_apart
      (mk_transaction "Spotify" "2024-01-15" 4.99)
      [mk_transaction "Netflix" "2024-01-01" 9.99] 14 1 = Ok n.
Proof.
  apply days_apart_pair_symmetric;
    [lia | lia | eexists; reflexivity | eexists; reflexivity].
Defined.

Lemma len_lt_2 {A : Type} (l : list A) : (List.length l < 2)%nat -> (len l <? 2) = true.
Proof. intros H. unfold len. apply Z.ltb_lt. lia. Qed.

(** C5: for every history with fewer than two entries, empty or with one
    entry, [get_transaction_intervals] returns the fixed record with
    [avg_days_between_transactions = 0.0],
    [std_dev_days_between_transactions = 0.0], [monthly_recurrence = 0],
    [same_weekday = 0] and [same_amount = 0], which is not 1. *)
Theorem intervals_zero_record_below_two (h : list Transaction) :
  (List.length h < 2)%nat ->
  get_transaction_intervals h =
    Ok [("avg_days_between_transactions", VFloat 0);
        ("std_dev_days_between_transactions", VFloat 0);
        ("monthly_recurrence", VInt 0);
        ("same_weekday", VInt 0);
        ("same_amount", VInt 0)]%string /\
  py_eq (VInt 0) (VInt 1) = false.
Proof.
  intros H. split; [|reflexivity].
  unfold get_transaction_intervals, transaction_intervals_with.
  rewrite (len_lt_2 h H). reflexivity.
Qed.

Lemma intervals_zero_record_below_two_witness :
  get_transaction_intervals [mk_transaction "Netflix" "2024-01-01" 9.99] =
    Ok [("avg_days_between_transactions", VFloat 0);
        ("std_dev_days_between_transactions", VFloat 0);
        ("monthly_recurrence", VInt 0);
        ("same_weekday", VInt 0);
        ("same_amount", VInt 0)]%string /\
  py_eq (VInt 0) (VInt 1) = false.
Proof.
  apply intervals_zero_record_below_two. simpl. lia.
Defined.

(** C10: for every history with fewer than two entries,
    [get_transaction_intervals] returns its zero-valued record without
    reading or parsing any entry's date or amount: the result is the same
    whatever the date parser and the amount reader would do (a parser that
    fails on every string included) and whatever the entries hold, so the
    call is total on such histories even when every date is malformed. *)
Theorem intervals_below_two_reads_nothing (h : list Transaction) :
  (List.length h < 2)%nat ->
  returns (get_transaction_intervals h) /\
  (forall (parse_date : string -> result Datetime.datetime)
          (read_amount : Transaction -> float),
      transaction_intervals_with parse_date read_amount h
      = get_transaction_intervals h) /\
  (forall f : Transaction -> Transaction,
      get_transaction_intervals (map f h) = get_transaction_intervals h).
Proof.
  intros H.
  assert (E : forall p r, transaction_intervals_with p r h = Ok zero_intervals).
  { intros p r. unfold transaction_intervals_with. rewrite (len_lt_2 h H). reflexivity. }
  split; [|split].
  - exists zero_intervals. apply E.
  - intros p r. unfold get_transaction_intervals. rewrite !E. reflexivity.
  - intros f. unfold get_transaction_intervals. rewrite E.
    unfold transaction_intervals_with.
    rewrite (len_lt_2 (map f h)) by (rewrite length_map; exact H). reflexivity.
Qed.

Lemma intervals_below_two_reads_nothing_witness :
  returns (get_transaction_intervals [mk_transaction "Netflix" "2024-13-40" nan]) /\
  (forall (parse_date : string -> result Datetime.datetime)
          (read_amount : Transaction -> float),
      transaction_intervals_with parse_date read_amount
        [mk_transaction "Netflix" "2024-13-40" nan]
      = get_transaction_intervals [mk_transaction "Netflix" "2024-13-40" nan]) /\
  (forall f : Transaction -> Transaction,
      get_transaction_intervals (map f [mk_transaction "Netflix" "2024-13-40" nan])
      = get_transaction_intervals [mk_transaction "Netflix" "2024-13-40" nan]).
Proof.
  apply intervals_below_two_reads_nothing. simpl. lia.
Defined.

(** C6: for every transaction, [get_year], [get_month], [get_day] and
    [get_day_of_week] return without an exception; when the date string
    parses they return the parsed year, month, day of the month and weekday,
    and when it does not, as for ["2024-13-40"], each returns -1. *)
Theorem calendar_components_or_sentinel (t : Transaction) :
  match Datetime.strptime (date t) with
  | Ok d =>
      get_year t = Ok (Datetime.year d) /\ get_month t = Ok (Datetime.month d) /\
      get_day t = Ok (Datetime.day d) /\ get_day_of_week t = Ok (Datetime.weekday d)
  | Raise _ =>
      get_year t = Ok (-1) /\ get_month t = Ok (-1) /\
      get_day t = Ok (-1) /\ get_day_of_week t = Ok (-1)
  end /\
  (let bad := mk_transaction (name t) "2024-13-40" (amount t) in
   get_year bad = Ok (-1) /\ get_month bad = Ok (-1) /\
   get_day bad = Ok (-1) /\ get_day_of_week bad = Ok (-1)).
Proof.
  unfold get_year, get_month, get_day, get_day_of_week.
  split; [|repeat split].
  destruct (Datetime.strptime (date t)) as [d|e] eqn:E; simpl.
  - repeat split.
  - rewrite (strptime_raises_ValueError _ _ E). repeat split.
Qed.

(** ** Rounding: what the binary64 rounding step can return

    [binary_round_aux] is the step every rounded operation of the float
    specification ends with.  Two facts about it are needed: it returns a
    zero, an infinity or a finite number of the sign it is given, and it
    overflows only when the value is [2^1023] or more. *)

Lemma Zdigits2_log2 (p : positive) : Zdigits2 (Zpos p) = Z.log2 (Zpos p) + 1.
Proof.
  assert (H : forall q, Zpos (digits2_pos q) = Zpos (Pos.size q)).
  { induction q; simpl; try rewrite !Pos2Z.inj_succ; try rewrite IHq; reflexivity. }
  simpl. rewrite H. destruct p; simpl; lia.
Qed.

Lemma Zdigits2_nonneg (m : Z) : 0 <= Zdigits2 m.
Proof. destruct m; simpl; lia. Qed.

Lemma Zdigits2_le (m k : Z) : 0 <= m -> 0 <= k -> m < 2 ^ k -> Zdigits2 m <= k.
Proof.
  intros Hm Hk H. destruct m as [|p|p]; [simpl; lia| |lia].
  rewrite Zdigits2_log2.
  assert (Z.log2 (Zpos p) < k) by (apply Z.log2_lt_pow2; lia). lia.
Qed.

Lemma Zdigits2_gt (m : Z) : 0 <= m -> m < 2 ^ Zdigits2 m.
Proof.
  intros Hm. destruct m as [|p|p]; [simpl; lia| |lia].
  rewrite Zdigits2_log2. apply Z.log2_spec. lia.
Qed.

Lemma Zdigits2_ge (m : Z) : 0 < m -> 2 ^ (Zdigits2 m - 1) <= m.
Proof.
  intros Hm. destruct m as [|p|p]; try lia.
  rewrite Zdigits2_log2. replace (Z.log2 (Zpos p) + 1 - 1) with (Z.log2 (Zpos p)) by lia.
  apply Z.log2_spec. lia.
Qed.

Lemma shr_1_m (mrs : shr_record) : 0 <= shr_m mrs -> shr_m (shr_1 mrs) = shr_m mrs / 2.
Proof.
  destruct mrs as [m r s]. simpl. intros Hm.
  destruct m as [|p|p]; [reflexivity| |lia].
  destruct p; simpl shr_m.
  - rewrite Pos2Z.inj_xI. apply Z.div_unique with 1; lia.
  - rewrite Pos2Z.inj_xO. apply Z.div_unique with 0; lia.
  - reflexivity.
Qed.

Lemma iter_pos_nat {A : Type} (f : A -> A) (p : positive) (x : A) :
  iter_pos f p x = Nat.iter (Pos.to_nat p) f x.
Proof.
  revert x. induction p; intros x; cbn [iter_pos].
  - rewrite !IHp, Pos2Nat.inj_xI.
    replace (2 * Pos.to_nat p)%nat with (Pos.to_nat p + Pos.to_nat p)%nat by lia.
    rewrite Nat.iter_succ_r, Nat.iter_add. reflexivity.
  - rewrite !IHp, Pos2Nat.inj_xO.
    replace (2 * Pos.to_nat p)%nat with (Pos.to_nat p + Pos.to_nat p)%nat by lia.
    rewrite Nat.iter_add. reflexivity.
  - reflexivity.
Qed.

Lemma iter_shr_1_m (n : nat) (mrs : shr_record) :
  0 <= shr_m mrs -> shr_m (Nat.iter n shr_1 mrs) = shr_m mrs / 2 ^ Z.of_nat n.
Proof.
  intros Hm. induction n.
  - simpl. rewrite Z.div_1_r. reflexivity.
  - rewrite Nat2Z.inj_succ. rewrite Z.pow_succ_r by apply Nat2Z.is_nonneg.
    rewrite Nat.iter_succ.
    assert (P : 0 < 2 ^ Z.of_nat n) by (apply Z.pow_pos_nonneg; lia).
    rewrite shr_1_m.
    + rewrite IHn. rewrite Z.div_div by lia. f_equal. lia.
    + rewrite IHn. apply Z.div_pos; lia.
Qed.

Lemma fexp_eq (x : Z) : fexp prec emax x = Z.max (x - 53) (-1074).
Proof. reflexivity. Qed.

Lemma shr_spec (mrs : shr_record) (e n : Z) :
  0 <= shr_m mrs ->
  shr_m (fst (shr mrs e n)) = shr_m mrs / 2 ^ Z.max 0 n /\
  snd (shr mrs e n) = e + Z.max 0 n.
Proof.
  intros Hm. destruct n as [|p|p]; simpl fst; simpl snd.
  - rewrite Z.div_1_r. split; [reflexivity | simpl; lia].
  - rewrite iter_pos_nat, iter_shr_1_m by assumption.
    rewrite positive_nat_Z. split; [f_equal; f_equal; lia | lia].
  - rewrite Z.div_1_r. split; [reflexivity | simpl; lia].
Qed.

Lemma shr_fexp_spec (m e : Z) (l : location) :
  0 <= m ->
  let n := Z.max 0 (fexp prec emax (Zdigits2 m + e) - e) in
  shr_m (fst (shr_fexp prec emax m e l)) = m / 2 ^ n /\
  snd (shr_fexp prec emax m e l) = e + n.
Proof.
  intros Hm n. unfold shr_fexp.
  assert (Hr : shr_m (shr_record_of_loc m l) = m) by (destruct l as [|[]]; reflexivity).
  destruct (shr_spec (shr_record_of_loc m l) e (fexp prec emax (Zdigits2 m + e) - e))
    as [H1 H2]; [rewrite Hr; assumption|].
  rewrite Hr in H1. split; assumption.
Qed.

Lemma round_nearest_even_bounds (m : Z) (l : location) :
  m <= round_nearest_even m l <= m + 1.
Proof.
  destruct l as [|[]]; simpl; try lia. destruct (Z.even m); lia.
Qed.

Lemma Zdigits2_shift (m n k : Z) :
  0 <= m -> 0 <= n -> 0 <= k -> Zdigits2 m <= k + n -> m / 2 ^ n < 2 ^ k.
Proof.
  intros Hm Hn Hk Hd.
  apply Z.div_lt_upper_bound; [apply Z.pow_pos_nonneg; lia|].
  rewrite <- Z.pow_add_r by lia.
  apply Z.lt_le_trans with (2 ^ Zdigits2 m); [apply Zdigits2_gt; assumption|].
  apply Z.pow_le_mono_r; lia.
Qed.

(** The value a rounding step returns keeps the sign it is given: never NaN. *)
Lemma binary_round_aux_cases (sx : bool) (mx ex : Z) (lx : location) :
  0 <= mx ->
  binary_round_aux prec emax sx mx ex lx = S754_zero sx \/
  binary_round_aux prec emax sx mx ex lx = S754_infinity sx \/
  exists m e, binary_round_aux prec emax sx mx ex lx = S754_finite sx m e.
Proof.
  intros Hm. unfold binary_round_aux.
  destruct (shr_fexp_spec mx ex lx Hm) as [H1 _].
  destruct (shr_fexp prec emax mx ex lx) as [mrs1 e1]. simpl fst in H1.
  set (m2 := round_nearest_even (shr_m mrs1) (loc_of_shr_record mrs1)).
  assert (Hm1 : 0 <= shr_m mrs1) by (rewrite H1; apply Z.div_pos; [lia | apply Z.pow_pos_nonneg; lia]).
  assert (Hm2 : 0 <= m2)
    by (pose proof (round_nearest_even_bounds (shr_m mrs1) (loc_of_shr_record mrs1)); subst m2; lia).
  destruct (shr_fexp_spec m2 e1 loc_Exact Hm2) as [H3 _].
  destruct (shr_fexp prec emax m2 e1 loc_Exact) as [mrs2 e2]. simpl fst in H3.
  assert (Hm3 : 0 <= shr_m mrs2) by (rewrite H3; apply Z.div_pos; [lia | apply Z.pow_pos_nonneg; lia]).
  destruct (shr_m mrs2) as [|p|p]; [left; reflexivity | | lia].
  right. destruct (e2 <=? emax - prec); [right; eauto | left; reflexivity].
Qed.

(** A rounding step overflows only on a value of [2^1023] or more. *)
Lemma binary_round_aux_finite (sx sy : bool) (mx ex : Z) (lx : location) :
  0 <= mx -> ex <= 971 -> Zdigits2 mx + ex <= 1023 ->
  binary_round_aux prec emax sx mx ex lx <> S754_infinity sy.
Proof.
  intros Hm He Hd. unfold binary_round_aux.
  destruct (shr_fexp_spec mx ex lx Hm) as [H1 H2].
  destruct (shr_fexp prec emax mx ex lx) as [mrs1 e1]. simpl fst in H1. simpl snd in H2.
  set (m2 := round_nearest_even (shr_m mrs1) (loc_of_shr_record mrs1)).
  assert (Hm1 : 0 <= shr_m mrs1) by (rewrite H1; apply Z.div_pos; [lia | apply Z.pow_pos_nonneg; lia]).
  pose proof (round_nearest_even_bounds (shr_m mrs1) (loc_of_shr_record mrs1)) as Hr.
  fold m2 in Hr.
  assert (Hm2 : 0 <= m2) by lia.
  destruct (shr_fexp_spec m2 e1 loc_Exact Hm2) as [H3 H4].
  destruct (shr_fexp prec emax m2 e1 loc_Exact) as [mrs2 e2]. simpl fst in H3. simpl snd in H4.
  pose proof (Zdigits2_nonneg mx) as Hdn.
  rewrite fexp_eq in H1, H2.
  assert (He1 : e1 <= 971) by lia.
  assert (Hd1 : shr_m mrs1 < 2 ^ (Z.max 0 (1023 - e1))).
  { rewrite H1. apply Zdigits2_shift; lia. }
  assert (Hd2 : Zdigits2 m2 <= Z.max 0 (1023 - e1) + 1).
  { apply Zdigits2_le; [lia | lia |].
    rewrite Z.pow_add_r by lia. change (2 ^ 1) with 2. lia. }
  rewrite fexp_eq in H4.
  assert (He2 : e2 <= 971) by lia.
  destruct (shr_m mrs2); try discriminate.
  replace (e2 <=? emax - prec) with true; [discriminate|].
  symmetry. apply Z.leb_le. change (emax - prec) with 971. lia.
Qed.

(** ** [int / int]: when it returns, and two values it takes *)

Lemma div_core_bounds (pa pb : positive) :
  let '(q, e, l) := SFdiv_core_binary prec emax (Zpos pa) 0 (Zpos pb) 0 in
  0 <= q /\ e <= 0 /\
  Zdigits2 q + e <= Z.max 0 (Zdigits2 (Zpos pa) - Zdigits2 (Zpos pb) + 1).
Proof.
  unfold SFdiv_core_binary.
  set (d1 := Zdigits2 (Zpos pa)). set (d2 := Zdigits2 (Zpos pb)).
  set (e' := Z.min (fexp prec emax (d1 + 0 - (d2 + 0))) (0 - 0)).
  assert (He : e' <= 0) by (subst e'; lia).
  set (s := 0 - 0 - e').
  set (m' := match s with Z.pos _ => Z.shiftl (Zpos pa) s | 0 => Zpos pa | Z.neg _ => 0 end).
  assert (Hm' : m' = Zpos pa * 2 ^ s).
  { subst m'. destruct s eqn:Es; [simpl; lia | rewrite Z.shiftl_mul_pow2 by lia; reflexivity | lia]. }
  pose proof (Z_div_mod m' (Zpos pb) eq_refl) as Hdiv.
  destruct (Z.div_eucl m' (Zpos pb)) as [q r].
  destruct Hdiv as [Hq Hr].
  assert (Hs : 0 <= s) by (subst s; lia).
  assert (P : 0 < 2 ^ s) by (apply Z.pow_pos_nonneg; lia).
  assert (Hq0 : 0 <= q) by nia.
  split; [assumption|]. split; [assumption|].
  pose proof (Zdigits2_gt (Zpos pa) ltac:(lia)) as Ha. fold d1 in Ha.
  pose proof (Zdigits2_ge (Zpos pb) ltac:(lia)) as Hb. fold d2 in Hb.
  assert (Hd1 : 1 <= d1) by (subst d1; rewrite Zdigits2_log2; pose proof (Z.log2_nonneg (Zpos pa)); lia).
  assert (Hd2 : 1 <= d2) by (subst d2; rewrite Zdigits2_log2; pose proof (Z.log2_nonneg (Zpos pb)); lia).
  set (K := Z.max 0 (d1 + s - d2 + 1)).
  assert (HK : Zdigits2 q <= K).
  { apply Zdigits2_le; [assumption | subst K; lia |].
    destruct (Z_lt_le_dec q (2 ^ K)) as [|Hge]; [assumption|exfalso].
    assert (H1 : 2 ^ K * 2 ^ (d2 - 1) <= q * Zpos pb).
    { apply Z.mul_le_mono_nonneg; try lia; apply Z.pow_nonneg; lia. }
    rewrite <- Z.pow_add_r in H1 by (subst K; lia).
    assert (H2 : m' < 2 ^ (d1 + s)).
    { rewrite Hm', Z.pow_add_r by lia. nia. }
    assert (H3 : 2 ^ (d1 + s) <= 2 ^ (K + (d2 - 1))) by (apply Z.pow_le_mono_r; subst K; lia).
    lia. }
  subst K s. lia.
Qed.

Lemma int_truediv_returns (a b : Z) :
  0 < b -> Zdigits2 a <= Zdigits2 b + 1022 ->
  returns (PyFloat.int_truediv a b).
Proof.
  intros Hb Hd. unfold PyFloat.int_truediv.
  destruct (b =? 0) eqn:Eb; [apply Z.eqb_eq in Eb; lia|].
  destruct b as [|pb|pb]; try lia.
  assert (R : forall (s : bool) (pa : positive),
             Zdigits2 (Zpos pa) <= Zdigits2 (Zpos pb) + 1022 ->
             returns (match SFdiv prec emax (S754_finite s pa 0) (S754_finite false pb 0) with
                      | S754_infinity _ => Raise OverflowError
                      | r => Ok (SF2Prim r)
                      end)).
  { intros s pa Hpa. unfold SFdiv.
    pose proof (div_core_bounds pa pb) as H.
    destruct (SFdiv_core_binary prec emax (Zpos pa) 0 (Zpos pb) 0) as [[q e] l].
    destruct H as (Hq & He & Hqe).
    pose proof (binary_round_aux_finite (xorb s false) true q e l Hq ltac:(lia) ltac:(lia)) as F1.
    pose proof (binary_round_aux_finite (xorb s false) false q e l Hq ltac:(lia) ltac:(lia)) as F2.
    destruct (binary_round_aux prec emax (xorb s false) q e l) as [s'|[|]| |s' m e0];
      try (eexists; reflexivity); congruence. }
  destruct a as [|pa|pa].
  - simpl. eexists; reflexivity.
  - apply R. exact Hd.
  - apply R. exact Hd.
Qed.

Lemma int_truediv_self (n : Z) : 0 < n -> PyFloat.int_truediv n n = Ok 1%float.
Proof.
  intros Hn. unfold PyFloat.int_truediv.
  destruct (n =? 0) eqn:En; [apply Z.eqb_eq in En; lia|].
  destruct n as [|p|p]; try lia.
  unfold PyFloat.SF_of_Z, SFdiv.
  assert (E : SFdiv_core_binary prec emax (Zpos p) 0 (Zpos p) 0 = (2 ^ 53, -53, loc_Exact)).
  { unfold SFdiv_core_binary.
    replace (Zdigits2 (Zpos p) + 0 - (Zdigits2 (Zpos p) + 0)) with 0 by lia.
    change (Z.min (fexp prec emax 0) (0 - 0)) with (-53).
    change (0 - 0 - -53) with 53.
    cbv iota beta.
    rewrite Z.shiftl_mul_pow2 by lia.
    pose proof (Z_div_mod (Zpos p * 2 ^ 53) (Zpos p) eq_refl) as Hdiv.
    destruct (Z.div_eucl (Zpos p * 2 ^ 53) (Zpos p)) as [q r].
    destruct Hdiv as [Hq Hr].
    assert (Hq' : q = Zpos p * 2 ^ 53 / Zpos p) by (apply Z.div_unique with r; lia).
    rewrite Z.mul_comm, Z.div_mul in Hq' by lia. subst q.
    assert (r = 0) by lia. subst r.
    unfold new_location, new_location_even, new_location_odd.
    destruct (Z.even (Zpos p)); reflexivity. }
  rewrite E. vm_compute. reflexivity.
Qed.

Lemma int_truediv_zero (n : Z) : 0 < n -> PyFloat.int_truediv 0 n = Ok 0%float.
Proof.
  intros Hn. unfold PyFloat.int_truediv.
  destruct (n =? 0) eqn:En; [apply Z.eqb_eq in En; lia|].
  destruct n as [|p|p]; try lia. reflexivity.
Qed.

Lemma Zdigits2_mono (a b : Z) : 0 <= a <= b -> Zdigits2 a <= Zdigits2 b.
Proof.
  intros H. apply Zdigits2_le; [lia | apply Zdigits2_nonneg |].
  pose proof (Zdigits2_gt b ltac:(lia)). lia.
Qed.

Lemma len_filter_le {A : Type} (f : A -> bool) (l : list A) :
  0 <= len (filter f l) <= len l.
Proof.
  unfold len. pose proof (filter_length_le f l). lia.
Qed.

(** C7: for every transaction and every non-empty history,
    [get_percent_transactions_same_amount] returns
    [get_n_transactions_same_amount] divided by the length of the history
    (Python's [/] on two ints, which here cannot fail); for the empty
    history it returns 0.0. *)
Theorem percent_same_amount_is_count_over_length
  (t : Transaction) (h : list Transaction) :
  match h with
  | [] => get_percent_transactions_same_amount t h = Ok 0%float
  | _ :: _ =>
      exists f : float,
        get_percent_transactions_same_amount t h = Ok f /\
        PyFloat.int_truediv (get_n_transactions_same_amount t h) (len h) = Ok f
  end.
Proof.
  destruct h as [|e h]; [reflexivity|].
  unfold get_percent_transactions_same_amount, get_n_transactions_same_amount.
  set (l := e :: h).
  pose proof (len_filter_le (fun t0 => (amount t0 =? amount t)%float) l) as Hc.
  assert (Hl : 0 < len l) by (unfold len, l; simpl List.length; lia).
  destruct (int_truediv_returns
              (len (filter (fun t0 => (amount t0 =? amount t)%float) l)) (len l))
    as [f Hf]; [lia | |].
  - pose proof (Zdigits2_mono _ _ Hc). lia.
  - exists f. split; exact Hf.
Qed.

Example percent_same_amount_example :
  get_percent_transactions_same_amount
    (mk_transaction "Netflix" "2024-01-15" 9.99)
    [mk_transaction "Netflix" "2024-01-01" 9.99;
     mk_transaction "Hulu" "2024-01-15" 7.99;
     mk_transaction "Netflix" "2024-01-29" 9.99] = Ok 0x1.5555555555555p-1%float.
Proof. vm_compute. reflexivity. Qed.

(** ** The Netflix scenario *)

(** C3: for the history of exactly three transactions dated 2024-01-01,
    2024-01-15 and 2024-01-29, each of amount 9.99 and name "Netflix",
    [get_features] on any of them returns [is_always_recurring = True],
    [same_amount = 1.0], [avg_days_between_transactions = 14.0],
    [std_dev_days_between_transactions = 0.0], [monthly_recurrence = 0.0]
    and [same_weekday = 1]. *)
Theorem netflix_scenario_features (t : Transaction) :
  In t netflix_history ->
  let r := get_features t netflix_history in
  feature_is r "is_always_recurring" (VBool true) = true /\
  feature_is r "same_amount" (VFloat 1) = true /\
  feature_is r "avg_days_between_transactions" (VFloat 14) = true /\
  feature_is r "std_dev_days_between_transactions" (VFloat 0) = true /\
  feature_is r "monthly_recurrence" (VFloat 0) = true /\
  feature_is r "same_weekday" (VInt 1) = true.
Proof.
  intros [<-|[<-|[<-|[]]]]; vm_compute; repeat split.
Qed.

Lemma netflix_scenario_features_witness :
  let r := get_features (mk_transaction "Netflix" "2024-01-15" 9.99) netflix_history in
  feature_is r "is_always_recurring" (VBool true) = true /\
  feature_is r "same_amount" (VFloat 1) = true /\
  feature_is r "avg_days_between_transactions" (VFloat 14) = true /\
  feature_is r "std_dev_days_between_transactions" (VFloat 0) = true /\
  feature_is r "monthly_recurrence" (VFloat 0) = true /\
  feature_is r "same_weekday" (VInt 1) = true.
Proof.
  apply (netflix_scenario_features (mk_transaction "Netflix" "2024-01-15" 9.99)).
  right; left; reflexivity.
Defined.

(** The record of the scenario in full, for its middle transaction. *)
Example netflix_scenario_record :
  get_features (mk_transaction "Netflix" "2024-01-15" 9.99) netflix_history =
  Ok [("n_transactions_same_amount", VInt 3);
      ("percent_transactions_same_amount", VFloat 1);
      ("n_transactions_same_vendor", VInt 3);
      ("max_transaction_amount", VFloat 9.99);
      ("min_transaction_amount", VFloat 9.99);
      ("is_recurring_mobile_transaction", VBool false);
      ("day_of_week", VInt 0); ("month", VInt 1); ("day", VInt 15);
      ("year", VInt 2024); ("ends_in_99", VBool true); ("amount", VFloat 9.99);
      ("same_day_exact", VInt 1); ("same_day_off_1", VInt 1);
      ("same_day_off_2", VInt 1); ("14_days_apart_exact", VInt 2);
      ("14_days_apart_off_by_1", VInt 2); ("7_days_apart_exact", VInt 2);
      ("7_days_apart_off_by_1", VInt 2); ("is_insurance", VBool false);
      ("is_utility", VBool false); ("is_always_recurring", VBool true);
      ("avg_days_between_transactions", VInt 14);
      ("std_dev_days_between_transactions", VFloat 0);
      ("monthly_recurrence", VFloat 0); ("same_weekday", VInt 1);
      ("same_amount", VFloat 1)]%string.
Proof. vm_compute. reflexivity. Qed.

(** ** Amounts that end in 99 *)

(** C2, the code at the failing input: for the amount 19.99 the product
    [19.99 * 100] is the float 1998.9999999999998, its remainder modulo 100
    is 98.99999999999977, and [get_ends_in_99] returns [False], where the
    rounded test of the specification gives [True]; for 20.00 both give
    [False]. *)
Theorem ends_in_99_misses_19_99 :
  get_ends_in_99 (mk_transaction "Netflix" "2024-01-15" 19.99) = Ok false /\
  PyFloat.rem (19.99 * 100)%float 100 = Ok 98.99999999999977%float /\
  ends_in_99_spec 19.99 = Some true /\
  get_ends_in_99 (mk_transaction "Netflix" "2024-01-15" 20.00) = Ok false /\
  ends_in_99_spec 20.00 = Some false.
Proof. vm_compute. repeat split. Qed.

(** ** Same day of the month *)

Lemma transaction_eqb_refl (t : Transaction) : transaction_eqb t t = true.
Proof.
  unfold transaction_eqb. rewrite !String.eqb_refl. simpl.
  apply FloatAxioms.Leibniz.eqb_spec. reflexivity.
Qed.

Lemma transaction_eqb_date (a b : Transaction) :
  transaction_eqb a b = true -> date a = date b.
Proof.
  unfold transaction_eqb. intros H.
  apply andb_prop in H as [H _]. apply andb_prop in H as [_ H].
  apply String.eqb_eq. exact H.
Qed.

Lemma occurrences_pos (t : Transaction) (h : list Transaction) :
  In t h -> 1 <= occurrences t h.
Proof.
  unfold occurrences, len. induction h as [|e h IH]; intros Hin; [destruct Hin|].
  simpl. destruct Hin as [->|Hin].
  - rewrite transaction_eqb_refl. simpl List.length. lia.
  - specialize (IH Hin). destruct (transaction_eqb t e); simpl List.length; lia.
Qed.

(** Against entries whose day field is an integer, the comprehension counts
    at least the entries equal to the transaction. *)
Lemma same_day_count_ge_occurrences
  (t : Transaction) (h : list Transaction) (k b : Z) :
  0 <= k ->
  _get_day (date t) = Ok b ->
  Forall (fun e => returns (_get_day (date e))) h ->
  exists n : Z,
    get_n_transactions_same_day t h k = Ok n /\ occurrences t h <= n.
Proof.
  intros Hk Hb. unfold get_n_transactions_same_day, occurrences, len.
  induction h as [|e h IH]; intros HF.
  - exists 0. split; [reflexivity | simpl; lia].
  - inversion HF as [|? ? [a Ha] HF']; subst.
    destruct (IH HF') as (n & Hn & Hle).
    cbn [countM filter]. rewrite Ha, Hn, Hb. cbn [bind].
    destruct (transaction_eqb t e) eqn:E.
    + apply transaction_eqb_date in E. rewrite <- E, Hb in Ha.
      injection Ha as <-.
      replace (Z.abs (b - b) <=? k) with true by (symmetry; apply Z.leb_le; lia).
      exists (1 + n). split; [reflexivity | simpl List.length; lia].
    + destruct (Z.abs (a - b) <=? k); eexists; (split; [reflexivity | lia]).
Qed.

(** C9 (as amended): for every transaction [t], every history that
    contains [t] and all of whose date strings have an integer third
    dash-delimited field, and every tolerance from 0 up,
    [get_n_transactions_same_day] returns at least the number of occurrences
    of [t] in the history, hence at least 1: each occurrence has day-of-month
    difference 0. *)
Theorem same_day_counts_own_occurrences
  (t : Transaction) (h : list Transaction) (k : Z) :
  0 <= k ->
  In t h ->
  Forall (fun e => returns (_get_day (date e))) h ->
  exists n : Z,
    get_n_transactions_same_day t h k = Ok n /\
    occurrences t h <= n /\ 1 <= n.
Proof.
  intros Hk Hin HF.
  destruct (proj1 (Forall_forall _ _) HF t Hin) as [b Hb].
  destruct (same_day_count_ge_occurrences t h k b Hk Hb HF) as (n & Hn & Hle).
  pose proof (occurrences_pos t h Hin).
  exists n. repeat split; [assumption | assumption | lia].
Qed.

Lemma same_day_counts_own_occurrences_witness :
  exists n : Z,
    get_n_transactions_same_day
      (mk_transaction "Netflix" "2024-01-15" 9.99)
      [mk_transaction "Netflix" "2024-01-15" 9.99;
       mk_transaction "Hulu" "2024-02-16" 7.99;
       mk_transaction "Netflix" "2024-01-15" 9.99] 1 = Ok n /\
    occurrences
      (mk_transaction "Netflix" "2024-01-15" 9.99)
      [mk_transaction "Netflix" "2024-01-15" 9.99;
       mk_transaction "Hulu" "2024-02-16" 7.99;
       mk_transaction "Netflix" "2024-01-15" 9.99] <= n /\ 1 <= n.
Proof.
  apply same_day_counts_own_occurrences;
    [lia | left; reflexivity
     | repeat constructor; eexists; reflexivity].
Defined.

(** C9, the claim as stated fails: the transaction below has the integer
    day field 05 and is in the history, but the history's other entry has no
    third dash-delimited field, and the count raises [IndexError] instead of
    returning a number. *)
Lemma same_day_raises_on_malformed_entry :
  _get_day "2024-01-05" = Ok 5 /\
  get_n_transactions_same_day
    (mk_transaction "Netflix" "2024-01-05" 9.99)
    [mk_transaction "Netflix" "2024-01-05" 9.99;
     mk_transaction "Hulu" "20240105" 7.99] 0 = Raise IndexError /\
  get_n_transactions_same_day
    (mk_transaction "Netflix" "2024-01-05" 9.99)
    [mk_transaction "Netflix" "2024-01-05" 9.99;
     mk_transaction "Hulu" "2024-01-xx" 7.99] 0 = Raise ValueError.
Proof. repeat split; reflexivity. Qed.

(** ** Signs of float results: the five-percent test against a negative baseline *)

Lemma binary_round_aux_signed (sx : bool) (mx ex : Z) (lx : location) :
  0 <= mx -> signed sx (binary_round_aux prec emax sx mx ex lx).
Proof. apply binary_round_aux_cases. Qed.

Lemma binary_normalize_not_nan (m e : Z) (sz : bool) :
  binary_normalize prec emax m e sz <> S754_nan.
Proof.
  unfold binary_normalize, binary_round.
  destruct m as [|p|p]; [discriminate| |].
  - destruct (shl_align p e (fexp prec emax (Z.pos (digits2_pos p) + e))) as [mz ez].
    destruct (binary_round_aux_cases false (Zpos mz) ez loc_Exact ltac:(lia))
      as [H|[H|(m' & e' & H)]]; rewrite H; discriminate.
  - destruct (shl_align p e (fexp prec emax (Z.pos (digits2_pos p) + e))) as [mz ez].
    destruct (binary_round_aux_cases true (Zpos mz) ez loc_Exact ltac:(lia))
      as [H|[H|(m' & e' & H)]]; rewrite H; discriminate.
Qed.

Lemma SFsub_not_nan (x : spec_float) (sy : bool) (my : positive) (ey : Z) :
  x <> S754_nan -> SFsub prec emax x (S754_finite sy my ey) <> S754_nan.
Proof.
  intros Hx. destruct x as [s|s| |s m e]; simpl; try discriminate; try congruence.
  apply binary_normalize_not_nan.
Qed.

Lemma SFabs_signed (x : spec_float) : x <> S754_nan -> signed false (SFabs x).
Proof.
  intros Hx. destruct x as [s|s| |s m e]; simpl.
  - left; reflexivity.
  - right; left; reflexivity.
  - congruence.
  - right; right; eauto.
Qed.

Lemma SFdiv_signed (x : spec_float) (my : positive) (ey : Z) :
  signed false x -> signed true (SFdiv prec emax x (S754_finite true my ey)).
Proof.
  intros [->|[->|(m & e & ->)]]; simpl.
  - left; reflexivity.
  - right; left; reflexivity.
  - assert (Hq : 0 <= fst (fst (SFdiv_core_binary prec emax (Zpos m) e (Zpos my) ey))).
    { unfold SFdiv_core_binary.
      match goal with |- context [Z.div_eucl ?a ?b] =>
        pose proof (Z_div_mod a b eq_refl) as Hdiv;
        assert (Ha : 0 <= a);
        [| destruct (Z.div_eucl a b) as [q r]; simpl; destruct Hdiv; nia]
      end.
      match goal with |- 0 <= match ?s with _ => _ end => destruct s end;
        [lia | apply Z.shiftl_nonneg; lia | lia]. }
    destruct (SFdiv_core_binary prec emax (Zpos m) e (Zpos my) ey) as [[q e'] l].
    simpl in Hq. apply binary_round_aux_signed. exact Hq.
Qed.

Lemma signed_true_leb (x : spec_float) (m : positive) (e : Z) :
  signed true x -> SFleb x (S754_finite false m e) = true.
Proof.
  intros [->|[->|(m' & e' & ->)]]; reflexivity.
Qed.

(** A float that is below zero and not infinite is a finite negative number. *)
Lemma negative_finite (x : float) :
  (x <? 0)%float = true -> is_infinity x = false ->
  exists m e, Prim2SF x = S754_finite true m e.
Proof.
  unfold is_infinity. rewrite ltb_spec, eqb_spec, abs_spec.
  change (Prim2SF infinity) with (S754_infinity false).
  change (Prim2SF 0) with (S754_zero false).
  destruct (Prim2SF x) as [s|s| |s m e]; try destruct s; simpl;
    intros H1 H2; try discriminate; eauto.
Qed.

Lemma not_nan (x : float) : is_nan x = false -> Prim2SF x <> S754_nan.
Proof.
  unfold is_nan. rewrite eqb_spec. intros H E. rewrite E in H. discriminate.
Qed.

(** Against a finite negative baseline every amount that is a number passes
    the five-percent test, because the quotient is not above zero. *)
Lemma negative_baseline_test (amt base : float) :
  (base <? 0)%float = true -> is_infinity base = false -> is_nan amt = false ->
  (base =? 0)%float = false /\
  (abs (amt - base) / base <=? 0.05)%float = true.
Proof.
  intros Hneg Hfin Hnan.
  destruct (negative_finite base Hneg Hfin) as (mb & eb & Hb).
  split.
  - rewrite eqb_spec, Hb. reflexivity.
  - rewrite leb_spec, div_spec, abs_spec, sub_spec, Hb.
    assert (E : exists m e, Prim2SF 0.05 = S754_finite false m e)
      by (vm_compute; eauto).
    destruct E as (m & e & ->).
    apply signed_true_leb. apply SFdiv_signed. apply SFabs_signed.
    apply SFsub_not_nan. apply not_nan. exact Hnan.
Qed.

(** ** Day gaps and their statistics *)

Lemma days_before_month_bounds (y m : Z) : 0 <= Datetime.days_before_month y m <= 335.
Proof.
  unfold Datetime.days_before_month.
  destruct ((2 <? m) && Datetime.is_leap y);
    repeat match goal with
           | |- context [match ?p with _ => _ end] => destruct p
           end; lia.
Qed.

Lemma days_in_month_bounds (y m : Z) : Datetime.days_in_month y m <= 31.
Proof.
  unfold Datetime.days_in_month.
  destruct (Datetime.is_leap y);
    repeat match goal with
           | |- context [match ?p with _ => _ end] => destruct p
           end; lia.
Qed.

Lemma toordinal_bounds (d : Datetime.datetime) :
  Datetime.valid_date (Datetime.year d) (Datetime.month d) (Datetime.day d) = true ->
  0 <= Datetime.toordinal d < gap_bound.
Proof.
  unfold Datetime.valid_date, Datetime.toordinal, Datetime.days_before_year, gap_bound.
  intros H. repeat (apply andb_prop in H as [H ?]).
  pose proof (days_before_month_bounds (Datetime.year d) (Datetime.month d)).
  pose proof (days_in_month_bounds (Datetime.year d) (Datetime.month d)).
  change (2 ^ 22) with 4194304.
  cbv zeta. Z.div_mod_to_equations. lia.
Qed.

Lemma mapM_strptime (h : list Transaction) :
  Forall (fun t => returns (Datetime.strptime (date t))) h ->
  exists parsed,
    mapM (fun trans => Datetime.strptime (date trans)) h = Ok parsed /\
    List.length parsed = List.length h /\ Forall ordinal_ok parsed.
Proof.
  induction 1 as [|t h [d Hd] _ (parsed & Hp & Hl & Ho)].
  - exists []. repeat split. constructor.
  - exists (d :: parsed). simpl. rewrite Hd, Hp. simpl. repeat split.
    + congruence.
    + constructor; [|assumption]. apply toordinal_bounds. eapply strptime_valid; eauto.
Qed.

Lemma insert_sorted_spec (P : Datetime.datetime -> Prop) (x : Datetime.datetime)
  (l : list Datetime.datetime) :
  P x -> Forall P l ->
  Forall P (insert_sorted x l) /\ List.length (insert_sorted x l) = S (List.length l).
Proof.
  intros Hx. induction 1 as [|y l Hy Hl [IH1 IH2]]; simpl.
  - split; [repeat constructor; assumption | reflexivity].
  - destruct (datetime_ltb x y); simpl.
    + split; [repeat constructor; assumption | reflexivity].
    + split; [constructor; assumption | congruence].
Qed.

Lemma sorted_spec (P : Datetime.datetime -> Prop) (l : list Datetime.datetime) :
  Forall P l -> Forall P (sorted l) /\ List.length (sorted l) = List.length l.
Proof.
  unfold sorted.
  assert (G : forall acc, Forall P acc -> Forall P l ->
              Forall P (fold_left (fun acc x => insert_sorted x acc) l acc) /\
              List.length (fold_left (fun acc x => insert_sorted x acc) l acc)
              = (List.length acc + List.length l)%nat).
  { induction l as [|x l IH]; intros acc Ha Hl; simpl.
    - split; [assumption | lia].
    - inversion Hl as [|? ? Px Pl]; subst.
      destruct (insert_sorted_spec P x acc Px Ha) as [I1 I2].
      destruct (IH (insert_sorted x acc) I1 Pl) as [I3 I4].
      split; [assumption | simpl; lia]. }
  intros Hl. destruct (G [] (Forall_nil _) Hl) as [H1 H2]. split; [assumption | exact H2].
Qed.

Lemma day_gaps_spec (l : list Datetime.datetime) :
  Forall ordinal_ok l ->
  Forall (fun g => Z.abs g < gap_bound) (day_gaps l) /\
  List.length (day_gaps l) = pred (List.length l).
Proof.
  induction l as [|a l IH]; intros H; simpl.
  - split; [constructor | reflexivity].
  - inversion H as [|? ? Ha Hl]; subst.
    destruct l as [|b l'].
    + split; [constructor | reflexivity].
    + destruct (IH Hl) as [H1 H2]. inversion Hl as [|? ? Hb _]; subst.
      split.
      * constructor; [|exact H1].
        unfold Datetime.sub_days, ordinal_ok in *. lia.
      * simpl in *. rewrite H2. reflexivity.
Qed.

Lemma sum_cons (x : Z) (l : list Z) : Statistics.sum (x :: l) = x + Statistics.sum l.
Proof.
  unfold Statistics.sum. simpl.
  assert (G : forall l a, fold_left Z.add l a = a + fold_left Z.add l 0).
  { clear. induction l as [|y l IH]; intros a; simpl; [lia|].
    rewrite (IH (a + y)), (IH y). lia. }
  apply G.
Qed.

Lemma len_cons {A : Type} (x : A) (l : list A) : Statistics.len (x :: l) = 1 + Statistics.len l.
Proof. unfold Statistics.len. simpl List.length. lia. Qed.

Lemma sum_bounds (B : Z) (l : list Z) :
  0 <= B -> Forall (fun g => Z.abs g < B) l ->
  Z.abs (Statistics.sum l) <= Statistics.len l * B /\
  0 <= Statistics.sum (map (fun x => x * x) l) <= Statistics.len l * (B * B).
Proof.
  intros HB. induction 1 as [|x l Hx Hl [IH1 IH2]].
  - unfold Statistics.sum, Statistics.len. simpl. lia.
  - simpl map. rewrite !sum_cons, len_cons.
    assert (0 <= x * x <= B * B) by nia.
    split; lia.
Qed.

Lemma Zdigits2_abs (a : Z) : Zdigits2 (Z.abs a) = Zdigits2 a.
Proof. destruct a; reflexivity. Qed.

Lemma Zdigits2_le_mul (a b k : Z) :
  0 < b -> 0 <= k -> Z.abs a <= b * 2 ^ k -> Zdigits2 a <= Zdigits2 b + k.
Proof.
  intros Hb Hk H. rewrite <- Zdigits2_abs.
  pose proof (Zdigits2_nonneg b).
  apply Zdigits2_le; [lia | lia |].
  rewrite Z.pow_add_r by lia.
  pose proof (Zdigits2_gt b ltac:(lia)).
  assert (0 < 2 ^ k) by (apply Z.pow_pos_nonneg; lia).
  nia.
Qed.

Lemma Zdigits2_pow2_le (m j : Z) : 0 <= j -> 2 ^ j <= m -> j + 1 <= Zdigits2 m.
Proof.
  intros Hj H.
  assert (0 < 2 ^ j) by (apply Z.pow_pos_nonneg; lia).
  pose proof (Zdigits2_gt m ltac:(lia)) as Hm.
  pose proof (Zdigits2_nonneg m).
  assert (j < Zdigits2 m) by (apply (Z.pow_lt_mono_r_iff 2); lia).
  lia.
Qed.

(** A fraction in lowest terms keeps the bound of the fraction it reduces. *)
Lemma reduced_bounds (N D C : Z) :
  0 < D -> Z.abs N <= D * C ->
  let g := Z.gcd N D in
  0 < D / g /\ Z.abs (N / g) <= D / g * C.
Proof.
  intros HD HN g.
  assert (Hg : 0 < g).
  { pose proof (Z.gcd_nonneg N D). destruct (Z.eq_dec g 0) as [E|]; [|lia].
    apply Z.gcd_eq_0_r in E. lia. }
  destruct (Z.gcd_divide_l N D) as [n' Hn]. destruct (Z.gcd_divide_r N D) as [d' Hd].
  fold g in Hn, Hd.
  assert (En : N / g = n') by (rewrite Hn at 1; apply Z.div_mul; lia).
  assert (Ed : D / g = d') by (rewrite Hd at 1; apply Z.div_mul; lia).
  rewrite En, Ed. split; nia.
Qed.

Lemma mean_returns (data : list Z) :
  data <> [] -> Forall (fun g => Z.abs g < gap_bound) data ->
  returns (Statistics.mean data).
Proof.
  intros Hne HF. unfold Statistics.mean.
  assert (Hn : 0 < Statistics.len data)
    by (destruct data; [congruence | rewrite len_cons; unfold Statistics.len; lia]).
  destruct (Statistics.len data <? 1) eqn:E; [apply Z.ltb_lt in E; lia|].
  destruct (sum_bounds gap_bound data ltac:(unfold gap_bound; lia) HF) as [Hs _].
  destruct (reduced_bounds (Statistics.sum data) (Statistics.len data) gap_bound Hn Hs)
    as [Hd Hb].
  cbv zeta.
  destruct (Statistics.len data / Z.gcd (Statistics.sum data) (Statistics.len data) =? 1);
    [eexists; reflexivity|].
  destruct (int_truediv_returns
              (Statistics.sum data / Z.gcd (Statistics.sum data) (Statistics.len data))
              (Statistics.len data / Z.gcd (Statistics.sum data) (Statistics.len data)))
    as [f Hf]; [assumption | |].
  - pose proof (Zdigits2_le_mul _ _ 22 Hd ltac:(lia) Hb). lia.
  - rewrite Hf. eexists; reflexivity.
Qed.

Lemma bit_length_digits (n : Z) : Statistics.bit_length n = Zdigits2 n.
Proof.
  unfold Statistics.bit_length. destruct n as [|p|p]; [reflexivity| |];
    rewrite <- Zdigits2_abs; simpl Z.abs; rewrite Zdigits2_log2; reflexivity.
Qed.

Lemma lor_bit_bounds (a b : Z) : 0 <= a -> 0 <= b -> 0 <= Z.lor a b <= a + b.
Proof.
  intros Ha Hb. pose proof (Z.add_lor_land a b).
  assert (0 <= Z.land a b) by (apply Z.land_nonneg; lia).
  assert (0 <= Z.lor a b) by (apply Z.lor_nonneg; lia).
  lia.
Qed.

(** The square root of a fraction below [2^45] is computed without overflow. *)
Lemma float_sqrt_of_frac_returns (n m : Z) :
  0 < m -> Z.abs n <= m * 2 ^ 45 ->
  returns (Statistics.float_sqrt_of_frac n m).
Proof.
  intros Hm Hn. unfold Statistics.float_sqrt_of_frac.
  rewrite !bit_length_digits.
  pose proof (Zdigits2_le_mul n m 45 Hm ltac:(lia) Hn) as Hd.
  set (q := (Zdigits2 n - Zdigits2 m - Statistics.sqrt_bit_width) / 2).
  assert (Hq : q < 0).
  { subst q. unfold Statistics.sqrt_bit_width. apply Z.div_lt_upper_bound; lia. }
  destruct (0 <=? q) eqn:E; [apply Z.leb_le in E; lia|].
  set (k := - q). assert (Hk : 0 < k) by (subst k; lia).
  replace (- 2 * q) with (2 * k) by (subst k; lia).
  rewrite !Z.shiftl_mul_pow2 by lia. rewrite Z.mul_1_l.
  assert (P : 0 < 2 ^ k) by (apply Z.pow_pos_nonneg; lia).
  apply int_truediv_returns; [assumption|].
  unfold Statistics.integer_sqrt_of_frac_rto.
  set (v := n * 2 ^ (2 * k) / m).
  assert (Ha : 0 <= Z.sqrt v < 2 ^ (23 + k)).
  { split; [apply Z.sqrt_nonneg|].
    destruct (Z_lt_le_dec v 0) as [Hneg|Hpos].
    - rewrite Z.sqrt_neg by assumption. apply Z.pow_pos_nonneg; lia.
    - apply Z.sqrt_lt_square; [assumption | apply Z.pow_nonneg; lia |].
      rewrite <- Z.pow_add_r by lia.
      apply Z.le_lt_trans with (2 ^ (45 + 2 * k)).
      + subst v. apply Z.div_le_upper_bound; [assumption|].
        rewrite Z.pow_add_r by lia.
        assert (0 < 2 ^ (2 * k)) by (apply Z.pow_pos_nonneg; lia). nia.
      + apply Z.pow_lt_mono_r; lia. }
  set (bit := if Z.sqrt v * Z.sqrt v * m =? n * 2 ^ (2 * k) then 0 else 1).
  assert (Hbit : 0 <= bit <= 1) by (subst bit; destruct (_ =? _); lia).
  pose proof (lor_bit_bounds (Z.sqrt v) bit ltac:(lia) ltac:(lia)) as Hl.
  assert (Hx : Zdigits2 (Z.lor (Z.sqrt v) bit) <= 24 + k).
  { apply Zdigits2_le; [lia | lia |].
    replace (24 + k) with (1 + (23 + k)) by lia.
    rewrite Z.pow_add_r by lia. change (2 ^ 1) with 2. lia. }
  pose proof (Zdigits2_pow2_le (2 ^ k) k ltac:(lia) ltac:(lia)). lia.
Qed.

Lemma stdev_returns (data : list Z) :
  (2 <= List.length data)%nat -> Forall (fun g => Z.abs g < gap_bound) data ->
  returns (Statistics.stdev data).
Proof.
  intros Hlen HF. unfold Statistics.stdev.
  assert (Hn : 2 <= Statistics.len data) by (unfold Statistics.len; lia).
  destruct (Statistics.len data <? 2) eqn:E; [apply Z.ltb_lt in E; lia|].
  destruct (sum_bounds gap_bound data ltac:(unfold gap_bound; lia) HF) as [Hs Hss].
  cbv zeta.
  set (n := Statistics.len data) in *.
  set (sx := Statistics.sum data) in *.
  set (sxx := Statistics.sum (map (fun x => x * x) data)) in *.
  assert (HD : 0 < n * (n - 1)) by nia.
  assert (HB : gap_bound * gap_bound * 2 = 2 ^ 45) by reflexivity.
  assert (HN : Z.abs (n * sxx - sx * sx) <= n * (n - 1) * 2 ^ 45).
  { rewrite <- HB.
    assert (0 <= sx * sx <= (n * gap_bound) * (n * gap_bound)) by nia.
    assert (0 <= n * sxx <= (n * gap_bound) * (n * gap_bound)) by nia.
    assert ((n * gap_bound) * (n * gap_bound) <= n * (n - 1) * (gap_bound * gap_bound * 2))
      by (unfold gap_bound; nia).
    lia. }
  destruct (reduced_bounds (n * sxx - sx * sx) (n * (n - 1)) (2 ^ 45) HD HN) as [Hd Hb].
  apply float_sqrt_of_frac_returns; assumption.
Qed.

(** ** A negative baseline amount *)

Lemma countM_all_true {A : Type} (test : A -> result bool) (l : list A) :
  Forall (fun a => test a = Ok true) l -> countM test l = Ok (len l).
Proof.
  induction 1 as [|a l Ha _ IH]; [reflexivity|].
  cbn [countM]. rewrite Ha, IH. cbn [bind]. f_equal. unfold len.
  rewrite length_cons, Nat2Z.inj_succ. lia.
Qed.

(** C8 (as amended): for every history with at least two entries whose
    date strings all parse, whose first entry's amount (in the original,
    unsorted order) is strictly negative and finite, and none of whose
    amounts is a NaN, [get_transaction_intervals] returns
    [same_amount = 1.0] regardless of the other amounts: the test
    [abs(amt - base) / base <= 0.05] divides by the signed baseline, so the
    quotient is not above zero and every entry passes. *)
Theorem negative_baseline_same_amount_is_one
  (h : list Transaction) (t0 : Transaction) :
  (2 <= List.length h)%nat ->
  nth_error h 0 = Some t0 ->
  (amount t0 <? 0)%float = true ->
  is_infinity (amount t0) = false ->
  Forall (fun t => is_nan (amount t) = false) h ->
  Forall (fun t => returns (Datetime.strptime (date t))) h ->
  exists d : dict,
    get_transaction_intervals h = Ok d /\
    dict_get d "same_amount" = Some (VFloat 1).
Proof.
  intros Hlen Hhd Hneg Hfin Hnan Hdates.
  unfold get_transaction_intervals, transaction_intervals_with.
  destruct (len h <? 2) eqn:E; [apply Z.ltb_lt in E; unfold len in E; lia|]. clear E.
  destruct (mapM_strptime h Hdates) as (parsed & -> & Hpl & Hpo). cbn [bind].
  destruct (sorted_spec ordinal_ok parsed Hpo) as [Hso Hsl].
  destruct (day_gaps_spec (sorted parsed) Hso) as [Hgb Hgl].
  set (intervals := day_gaps (sorted parsed)) in *.
  assert (Hil : (1 <= List.length intervals)%nat) by lia.
  assert (Hne : intervals <> []) by (intros E; rewrite E in Hil; simpl in Hil; lia).
  destruct (mean_returns intervals Hne Hgb) as [avg Havg].
  assert (Havg' : match intervals with [] => Ok (VFloat 0) | _ :: _ => Statistics.mean intervals end = Ok avg)
    by (destruct intervals; [congruence | exact Havg]).
  rewrite Havg'. cbn [bind].
  assert (Hstd : exists sd, (if 1 <? len intervals then Statistics.stdev intervals else Ok 0%float) = Ok sd).
  { destruct (1 <? len intervals) eqn:E; [|eauto].
    apply Z.ltb_lt in E. unfold len in E.
    apply stdev_returns; [lia | exact Hgb]. }
  destruct Hstd as [sd ->]. cbn [bind].
  set (cnt := len (filter (fun gap => (23 <=? gap) && (gap <=? 38)) intervals)).
  assert (Hmon : exists mr, match intervals with [] => Ok 0%float | _ :: _ => PyFloat.int_truediv cnt (len intervals) end = Ok mr).
  { assert (R : returns (PyFloat.int_truediv cnt (len intervals))).
    { pose proof (len_filter_le (fun gap => (23 <=? gap) && (gap <=? 38)) intervals) as Hc.
      fold cnt in Hc.
      apply int_truediv_returns; [unfold len; lia|].
      pose proof (Zdigits2_mono _ _ Hc). lia. }
    destruct R as [mr R]. exists mr. destruct intervals; [congruence | exact R]. }
  destruct Hmon as [mr ->]. cbn [bind].
  destruct h as [|t h']; [discriminate|]. injection Hhd as ->.
  cbn [map Py.index nth_error bind].
  assert (T : forall amt, is_nan amt = false ->
              (q <- PyFloat.truediv (abs (amt - amount t0)) (amount t0) ;;
               Ok (q <=? 0.05)%float) = Ok true).
  { intros amt Ha.
    destruct (negative_baseline_test amt (amount t0) Hneg Hfin Ha) as [Hz Hle].
    unfold PyFloat.truediv. rewrite Hz. cbn [bind]. rewrite Hle. reflexivity. }
  destruct (negative_baseline_test (amount t0) (amount t0) Hneg Hfin
              ltac:(inversion Hnan; assumption)) as [Hz _].
  rewrite Hz.
  rewrite (countM_all_true _ (amount t0 :: map amount h')).
  - cbn [bind]. rewrite int_truediv_self by (unfold len; simpl List.length; lia).
    cbn [bind]. eexists. split; reflexivity.
  - change (amount t0 :: map amount h') with (map amount (t0 :: h')).
    apply Forall_map. eapply Forall_impl; [|exact Hnan]. intros a Ha. apply T. exact Ha.
Qed.

Lemma negative_baseline_same_amount_is_one_witness :
  exists d : dict,
    get_transaction_intervals
      [mk_transaction "Refund" "2024-01-01" (-10);
       mk_transaction "Refund" "2024-02-01" 250;
       mk_transaction "Refund" "2024-03-05" (-0.5)] = Ok d /\
    dict_get d "same_amount" = Some (VFloat 1).
Proof.
  apply (negative_baseline_same_amount_is_one _ (mk_transaction "Refund" "2024-01-01" (-10)));
    [simpl; lia | reflexivity | reflexivity | reflexivity
     | repeat constructor
     | repeat constructor; eexists; reflexivity].
Defined.

(** C8, the claim as stated fails on three histories whose first amount is
    strictly negative: with a date that does not parse the call raises
    [ValueError]; with a NaN among the other amounts the ratio is 0.5; with
    the baseline minus infinity it is 0.0. *)
Lemma same_amount_not_one_counterexamples :
  get_transaction_intervals
    [mk_transaction "Refund" "2024-01-01" (-10);
     mk_transaction "Refund" "2024-13-40" (-10)] = Raise ValueError /\
  feature_is
    (get_transaction_intervals
       [mk_transaction "Refund" "2024-01-01" (-10);
        mk_transaction "Refund" "2024-02-01" nan])
    "same_amount" (VFloat 0.5) = true /\
  feature_is
    (get_transaction_intervals
       [mk_transaction "Refund" "2024-01-01" neg_infinity;
        mk_transaction "Refund" "2024-02-01" (-10)])
    "same_amount" (VFloat 0) = true.
Proof. vm_compute. repeat split. Qed.

(** ** Dates in canonical form parse to themselves *)

Lemma digit_char_spec (n : Z) :
  0 <= n <= 9 ->
  Datetime.in_range 48 57 (digit_char n) = true /\ Py.digit_val (digit_char n) = n.
Proof.
  intros H.
  assert (G : forall k : nat, (k < 10)%nat ->
              Datetime.in_range 48 57 (digit_char (Z.of_nat k)) = true /\
              Py.digit_val (digit_char (Z.of_nat k)) = Z.of_nat k).
  { intros k Hk. do 10 (destruct k as [|k]; [split; reflexivity|]). lia. }
  specialize (G (Z.to_nat n) ltac:(lia)).
  rewrite Z2Nat.id in G by lia. exact G.
Qed.

Lemma re_Y_digits (y : Z) (tail : string) :
  0 <= y <= 9999 ->
  Datetime.re_Y
    (String (digit_char (y / 1000)) (String (digit_char (y / 100 mod 10))
    (String (digit_char (y / 10 mod 10)) (String (digit_char (y mod 10)) tail))))
  = [(y, tail)].
Proof.
  intros Hy.
  destruct (digit_char_spec (y / 1000)) as [A1 A2]; [Z.div_mod_to_equations; lia|].
  destruct (digit_char_spec (y / 100 mod 10)) as [B1 B2]; [Z.div_mod_to_equations; lia|].
  destruct (digit_char_spec (y / 10 mod 10)) as [C1 C2]; [Z.div_mod_to_equations; lia|].
  destruct (digit_char_spec (y mod 10)) as [D1 D2]; [Z.div_mod_to_equations; lia|].
  unfold Datetime.re_Y, Datetime.seq, Datetime.digit_in, Datetime.ret.
  rewrite A1. cbn [flat_map app]. rewrite B1. cbn [flat_map app].
  rewrite C1. cbn [flat_map app]. rewrite D1. cbn [flat_map app].
  rewrite A2, B2, C2, D2. do 2 f_equal. Z.div_mod_to_equations. lia.
Qed.

Lemma re_after_Y_month_day (y : Z) :
  Forall (fun md => hd_error (re_after_Y y (month_day_text (fst md) (snd md)))
                    = Some (y, fst md, snd md, EmptyString)) month_days.
Proof.
  unfold month_days. cbn [List.seq flat_map map app].
  repeat (constructor; [vm_compute; reflexivity|]). constructor.
Qed.

Lemma strptime_isoformat (y m d : Z) :
  Datetime.valid_date y m d = true ->
  Datetime.strptime (isoformat y m d) = Ok (Datetime.mk_datetime y m d).
Proof.
  intros Hv.
  assert (Hr : 1 <= y <= 9999 /\ 1 <= m <= 12 /\ 1 <= d <= 31).
  { pose proof (days_in_month_bounds y m). unfold Datetime.valid_date in Hv.
    repeat (apply andb_prop in Hv as [Hv ?]). lia. }
  assert (Hin : In (m, d) month_days).
  { unfold month_days. apply in_flat_map. exists (Z.to_nat m). split.
    - apply in_seq. lia.
    - apply in_map_iff. exists (Z.to_nat d). split; [f_equal; lia | apply in_seq; lia]. }
  pose proof (proj1 (Forall_forall _ _) (re_after_Y_month_day y) (m, d) Hin) as Hmd.
  cbn [fst snd] in Hmd.
  unfold Datetime.strptime, isoformat.
  assert (E : Datetime.re_Ymd
                (String (digit_char (y / 1000)) (String (digit_char (y / 100 mod 10))
                (String (digit_char (y / 10 mod 10)) (String (digit_char (y mod 10))
                (month_day_text m d)))))
              = re_after_Y y (month_day_text m d)).
  { unfold Datetime.re_Ymd. unfold Datetime.seq at 1.
    rewrite re_Y_digits by lia. cbn [flat_map]. rewrite app_nil_r. reflexivity. }
  rewrite E.
  destruct (re_after_Y y (month_day_text m d)) as [|[[[y' m'] d'] rest] l];
    [discriminate|].
  cbn [hd_error] in Hmd. injection Hmd as -> -> -> ->.
  unfold Datetime.make. rewrite Hv. reflexivity.
Qed.

(** The calendar components of a transaction dated in canonical form are
    the year, month and day written in it. *)
Corollary calendar_components_of_isoformat (t : Transaction) (y m d : Z) :
  Datetime.valid_date y m d = true ->
  date t = isoformat y m d ->
  get_year t = Ok y /\ get_month t = Ok m /\ get_day t = Ok d /\
  get_day_of_week t = Ok (Datetime.weekday (Datetime.mk_datetime y m d)).
Proof.
  intros Hv Hd. unfold get_year, get_month, get_day, get_day_of_week.
  rewrite Hd, (strptime_isoformat y m d Hv). repeat split.
Qed.

Example isoformat_example : isoformat 2024 1 15 = "2024-01-15"%string.
Proof. reflexivity. Qed.

(** * Further properties of the feature functions *)

(** ** Calendar components stay in range *)

(** Each calendar component is either the sentinel -1, all four together,
    or within the range of its field. *)
Theorem calendar_components_in_range (t : Transaction) :
  exists y m d w : Z,
    get_year t = Ok y /\ get_month t = Ok m /\ get_day t = Ok d /\
    get_day_of_week t = Ok w /\
    ((y = -1 /\ m = -1 /\ d = -1 /\ w = -1) \/
     (1 <= y <= 9999 /\ 1 <= m <= 12 /\ 1 <= d <= 31 /\ 0 <= w <= 6)).
Proof.
  unfold get_year, get_month, get_day, get_day_of_week.
  destruct (Datetime.strptime (date t)) as [dt|e] eqn:E; simpl.
  - exists (Datetime.year dt), (Datetime.month dt), (Datetime.day dt), (Datetime.weekday dt).
    repeat split. right.
    pose proof (strptime_valid _ _ E) as Hv.
    pose proof (days_in_month_bounds (Datetime.year dt) (Datetime.month dt)).
    unfold Datetime.valid_date in Hv. repeat (apply andb_prop in Hv as [Hv ?]).
    unfold Datetime.weekday.
    pose proof (Z.mod_pos_bound (Datetime.toordinal dt + 6) 7 ltac:(lia)).
    lia.
  - rewrite (strptime_raises_ValueError _ _ E).
    exists (-1), (-1), (-1), (-1). repeat split. left. repeat split.
Qed.

(** ** Days apart: errors, bounds, tolerance *)

Lemma history_days_returns (h : list Transaction) :
  returns (history_days h) <->
  Forall (fun e => returns (Datetime.strptime (date e))) h.
Proof.
  unfold history_days. induction h as [|e h IH]; cbn [mapM].
  - split; [constructor | intros _; eexists; reflexivity].
  - unfold _get_days at 1. split.
    + intros [ds H].
      destruct (Datetime.strptime (date e)) as [d|] eqn:E; cbn [bind] in H; [|discriminate].
      destruct (mapM (fun t => _get_days (date t)) h) eqn:E';
        cbn [bind] in H; [|discriminate].
      constructor; [rewrite E; eexists; reflexivity | apply IH; eexists; reflexivity].
    + intros H. inversion H as [|? ? [d Hd] Hh]; subst.
      apply IH in Hh as [ds Hds]. rewrite Hd. cbn [bind]. rewrite Hds. cbn [bind].
      eexists; reflexivity.
Qed.

Lemma get_days_returns (s : string) :
  returns (_get_days s) <-> returns (Datetime.strptime s).
Proof.
  unfold _get_days. split.
  - intros [d H]. destruct (Datetime.strptime s); [eexists; reflexivity | discriminate].
  - intros [d ->]. eexists; reflexivity.
Qed.

(** With a gap above zero the count returns exactly when every date
    parses, and the only exception it raises is [ValueError]. *)
Theorem days_apart_returns_iff_dates_parse
  (t : Transaction) (h : list Transaction) (g k : Z) :
  0 < g ->
  (returns (get_n_transactions_days_apart t h g k) <->
   returns (Datetime.strptime (date t)) /\
   Forall (fun e => returns (Datetime.strptime (date e))) h) /\
  (forall e, get_n_transactions_days_apart t h g k = Raise e -> e = ValueError).
Proof.
  intros Hg. unfold get_n_transactions_days_apart.
  destruct (_get_days (date t)) as [d0|e0] eqn:Et; simpl.
  - assert (Rt : returns (Datetime.strptime (date t)))
      by (apply get_days_returns; rewrite Et; eexists; reflexivity).
    destruct (history_days h) as [ds|eh] eqn:Eh.
    + rewrite (days_apart_loop_spec d0 g k h ltac:(lia) ds 0 Eh).
      split; [|discriminate].
      split; [intros _; split; [exact Rt | apply history_days_returns; rewrite Eh; eexists; reflexivity]
             | intros _; eexists; reflexivity].
    + rewrite (days_apart_loop_raises d0 g k h ltac:(lia) eh 0 Eh).
      split; [|congruence].
      split; [intros [n Hn]; discriminate|].
      intros [_ HF]. apply history_days_returns in HF as [ds Hds]. congruence.
  - split.
    + split; [intros [n Hn]; discriminate|].
      intros [Rt _]. apply get_days_returns in Rt as [d Hd]. congruence.
    + intros e H. injection H as <-. eapply get_days_raises_ValueError; eauto.
Qed.

Lemma filter_length_mono {A : Type} (f g : A -> bool) (l : list A) :
  (forall a, f a = true -> g a = true) ->
  (List.length (filter f l) <= List.length (filter g l))%nat.
Proof.
  intros H. induction l as [|a l IH]; simpl; [lia|].
  destruct (f a) eqn:Ef.
  - rewrite (H a Ef). simpl. lia.
  - destruct (g a); simpl; lia.
Qed.

Lemma days_apart_match_mono (d0 g k k' d : Z) :
  k <= k' -> days_apart_match d0 g k d = true -> days_apart_match d0 g k' d = true.
Proof.
  unfold days_apart_match. cbv zeta. intros Hk H.
  apply andb_prop in H as [H1 H2]. apply orb_prop in H2.
  apply andb_true_intro. split; [apply Z.leb_le; apply Z.leb_le in H1; lia|].
  apply orb_true_intro.
  destruct H2 as [H2|H2]; [left | right]; apply Z.leb_le; apply Z.leb_le in H2; lia.
Qed.

(** A count that returns is between 0 and the length of the history, and a
    larger tolerance never counts fewer entries. *)
Theorem days_apart_monotone_in_tolerance
  (t : Transaction) (h : list Transaction) (g k k' n : Z) :
  0 < g -> k <= k' ->
  get_n_transactions_days_apart t h g k = Ok n ->
  exists n' : Z,
    get_n_transactions_days_apart t h g k' = Ok n' /\
    0 <= n /\ n <= n' /\ n' <= len h.
Proof.
  intros Hg Hk Hn. unfold get_n_transactions_days_apart in *.
  destruct (_get_days (date t)) as [d0|] eqn:Et; simpl in *; [|discriminate].
  destruct (history_days h) as [ds|eh] eqn:Eh.
  - rewrite (days_apart_loop_spec d0 g k h ltac:(lia) ds 0 Eh) in Hn.
    rewrite (days_apart_loop_spec d0 g k' h ltac:(lia) ds 0 Eh).
    injection Hn as <-. eexists. split; [reflexivity|].
    unfold days_apart_count, len.
    pose proof (filter_length_mono (days_apart_match d0 g k) (days_apart_match d0 g k') ds
                  (fun d => days_apart_match_mono d0 g k k' d Hk)).
    pose proof (filter_length_le (days_apart_match d0 g k') ds).
    assert (List.length ds = List.length h).
    { clear - Eh. unfold history_days in Eh. revert ds Eh.
      induction h as [|e h IH]; intros ds Eh; simpl in Eh.
      - injection Eh as <-. reflexivity.
      - destruct (_get_days (date e)); simpl in Eh; [|discriminate].
        destruct (mapM (fun t => _get_days (date t)) h); simpl in Eh; [|discriminate].
        injection Eh as <-. simpl. f_equal. apply IH. reflexivity. }
    lia.
  - rewrite (days_apart_loop_raises d0 g k h ltac:(lia) eh 0 Eh) in Hn. discriminate.
Qed.

Lemma days_apart_monotone_in_tolerance_witness :
  exists n' : Z,
    get_n_transactions_days_apart
      (mk_transaction "Netflix" "2024-01-15" 9.99)
      [mk_transaction "Netflix" "2024-01-01" 9.99;
       mk_transaction "Netflix" "2024-01-30" 9.99] 14 1 = Ok n' /\
    0 <= 1 /\ 1 <= n' /\
    n' <= len [mk_transaction "Netflix" "2024-01-01" 9.99;
               mk_transaction "Netflix" "2024-01-30" 9.99].
Proof.
  apply (days_apart_monotone_in_tolerance _ _ 14 0 1 1); [lia | lia | reflexivity].
Defined.

Lemma days_apart_returns_iff_dates_parse_witness :
  (returns (get_n_transactions_days_apart
              (mk_transaction "Netflix" "2024-01-15" 9.99)
              [mk_transaction "Hulu" "2024-13-40" 7.99] 7 1) <->
   returns (Datetime.strptime "2024-01-15") /\
   Forall (fun e => returns (Datetime.strptime (date e)))
          [mk_transaction "Hulu" "2024-13-40" 7.99]) /\
  (forall e,
      get_n_transactions_days_apart
        (mk_transaction "Netflix" "2024-01-15" 9.99)
        [mk_transaction "Hulu" "2024-13-40" 7.99] 7 1 = Raise e -> e = ValueError).
Proof.
  apply (days_apart_returns_iff_dates_parse
           (mk_transaction "Netflix" "2024-01-15" 9.99)
           [mk_transaction "Hulu" "2024-13-40" 7.99] 7 1).
  lia.
Defined.

Lemma history_days_same_date (t : Transaction) (h : list Transaction) (d0 : Z) :
  _get_days (date t) = Ok d0 ->
  Forall (fun e => date e = date t) h ->
  history_days h = Ok (repeat d0 (List.length h)).
Proof.
  intros Ht. unfold history_days. induction 1 as [|e h He _ IH]; [reflexivity|].
  cbn [mapM]. rewrite He, Ht, IH. reflexivity.
Qed.

(** Entries dated as the transaction itself are left out while the
    tolerance is below the gap, and all counted once it reaches the gap:
    a transaction found in its own history does not count itself under the
    tolerances 0 and 1 that [get_features] uses. *)
Theorem days_apart_same_date_entries
  (t : Transaction) (h : list Transaction) (g k : Z) :
  0 < g -> 0 <= k ->
  returns (Datetime.strptime (date t)) ->
  Forall (fun e => date e = date t) h ->
  get_n_transactions_days_apart t h g k = Ok (if k <? g then 0 else len h).
Proof.
  intros Hg Hk Rt HF. apply get_days_returns in Rt as [d0 Ht].
  rewrite (days_apart_returns_count t h g k d0 (repeat d0 (List.length h)) Hg Ht
             (history_days_same_date t h d0 Ht HF)).
  f_equal. unfold days_apart_count, len.
  assert (M : days_apart_match d0 g k d0 = negb (k <? g)).
  { unfold days_apart_match. cbv zeta. rewrite Z.sub_diag. simpl Z.abs.
    rewrite Z.mod_0_l by lia.
    destruct (k <? g) eqn:E; simpl.
    - apply Z.ltb_lt in E. replace (g - k <=? 0) with false by (symmetry; apply Z.leb_gt; lia).
      reflexivity.
    - apply Z.ltb_ge in E. replace (g - k <=? 0) with true by (symmetry; apply Z.leb_le; lia).
      replace (0 <=? k) with true by (symmetry; apply Z.leb_le; lia). reflexivity. }
  induction (List.length h) as [|n IH]; simpl.
  - destruct (k <? g); reflexivity.
  - rewrite M. destruct (k <? g); simpl in *; lia.
Qed.

Lemma days_apart_same_date_entries_witness :
  get_n_transactions_days_apart
    (mk_transaction "Netflix" "2024-01-15" 9.99)
    [mk_transaction "Netflix" "2024-01-15" 9.99;
     mk_transaction "Hulu" "2024-01-15" 7.99] 14 1
  = Ok (if 1 <? 14 then 0
        else len [mk_transaction "Netflix" "2024-01-15" 9.99;
                  mk_transaction "Hulu" "2024-01-15" 7.99]).
Proof.
  apply days_apart_same_date_entries;
    [lia | lia | eexists; reflexivity | repeat constructor].
Defined.

(** An entry a whole number of gaps away, one gap at least, is counted
    under every tolerance from 0 up, in either direction of time. *)
Theorem days_apart_counts_whole_periods
  (t e : Transaction) (g k j d0 : Z) :
  0 < g -> 0 <= k -> j <> 0 ->
  _get_days (date t) = Ok d0 ->
  _get_days (date e) = Ok (d0 + j * g) ->
  get_n_transactions_days_apart t [e] g k = Ok 1.
Proof.
  intros Hg Hk Hj Ht He.
  rewrite (days_apart_returns_count t [e] g k d0 [d0 + j * g] Hg Ht).
  - f_equal. unfold days_apart_count, len. simpl filter.
    assert (M : days_apart_match d0 g k (d0 + j * g) = true).
    { unfold days_apart_match. cbv zeta.
      replace (d0 + j * g - d0) with (j * g) by lia.
      assert (Ha : Z.abs (j * g) = Z.abs j * g) by (rewrite Z.abs_mul; lia).
      rewrite Ha, Z.mod_mul by lia.
      apply andb_true_intro. split; [apply Z.leb_le; nia|].
      apply orb_true_intro. left. apply Z.leb_le. lia. }
    rewrite M. reflexivity.
  - unfold history_days. cbn [mapM]. rewrite He. reflexivity.
Qed.

Lemma days_apart_counts_whole_periods_witness :
  get_n_transactions_days_apart
    (mk_transaction "Netflix" "2024-01-29" 9.99)
    [mk_transaction "Netflix" "2024-01-01" 9.99] 14 0 = Ok 1.
Proof.
  apply (days_apart_counts_whole_periods _ _ 14 0 (-2) 19751);
    [lia | lia | lia | reflexivity | reflexivity].
Defined.

(** With the gap 0 the remainder cannot be taken: against a non-empty
    history with parsed dates the count raises [ZeroDivisionError]. *)
Theorem days_apart_zero_gap_raises
  (t e : Transaction) (rest : list Transaction) (k : Z) :
  0 <= k ->
  returns (Datetime.strptime (date t)) ->
  returns (Datetime.strptime (date e)) ->
  get_n_transactions_days_apart t (e :: rest) 0 k = Raise ZeroDivisionError.
Proof.
  intros Hk Rt Re.
  apply get_days_returns in Rt as [d0 Ht]. apply get_days_returns in Re as [d1 He].
  unfold get_n_transactions_days_apart. rewrite Ht. cbn [bind days_apart_loop].
  rewrite He. cbn [bind].
  replace (Z.abs (d1 - d0) <? 0 - k) with false by (symmetry; apply Z.ltb_ge; lia).
  reflexivity.
Qed.

Lemma days_apart_zero_gap_raises_witness :
  get_n_transactions_days_apart
    (mk_transaction "Netflix" "2024-01-29" 9.99)
    (mk_transaction "Netflix" "2024-01-01" 9.99 :: []) 0 1 = Raise ZeroDivisionError.
Proof.
  apply days_apart_zero_gap_raises; [lia | eexists; reflexivity | eexists; reflexivity].
Defined.

(** ** Same day of the month: errors, bounds, tolerance *)

(** The same-day count returns exactly when the history is empty, in which
    case not even the transaction's own date is looked at, or the third
    dash-delimited field of every date involved is an integer. *)
Theorem same_day_returns_iff (t : Transaction) (h : list Transaction) (k : Z) :
  returns (get_n_transactions_same_day t h k) <->
  h = [] \/
  (returns (_get_day (date t)) /\ Forall (fun e => returns (_get_day (date e))) h).
Proof.
  unfold get_n_transactions_same_day. split.
  - destruct h as [|e0 h0]; [left; reflexivity|]. intros R. right.
    set (h := e0 :: h0) in *.
    assert (G : Forall (fun e => returns (_get_day (date e))) h /\
                (h <> [] -> returns (_get_day (date t)))).
    { clearbody h. clear e0 h0. destruct R as [n R]. revert n R.
      destruct (_get_day (date t)) as [b|eb] eqn:Eb.
      - induction h as [|e h IH]; intros n R.
        + split; [constructor | congruence].
        + cbn [countM] in R.
          destruct (_get_day (date e)) as [a|] eqn:Ea; cbn [bind] in R; [|discriminate].
          match type of R with context [countM ?f h] => destruct (countM f h) as [m|] eqn:Em end;
            cbn [bind] in R; [|discriminate].
          destruct (IH m Em) as [IH1 _].
          split; [constructor; [rewrite Ea; eexists; reflexivity | exact IH1]
                 | intros _; eexists; reflexivity].
      - intros n R. destruct h as [|e h]; [split; [constructor | congruence]|].
        cbn [countM] in R.
        destruct (_get_day (date e)); cbn [bind] in R; discriminate. }
    destruct G as [G1 G2]. split; [apply G2; discriminate | exact G1].
  - intros [->|[[b Hb] HF]]; [eexists; reflexivity|].
    induction HF as [|e h [a Ha] _ [n IH]]; [eexists; reflexivity|].
    cbn [countM]. rewrite Ha, IH, Hb. cbn [bind]. eexists; reflexivity.
Qed.

(** A same-day count that returns is between 0 and the length of the
    history, and a larger tolerance never counts fewer entries. *)
Theorem same_day_monotone_in_tolerance
  (t : Transaction) (h : list Transaction) (k k' n : Z) :
  k <= k' ->
  get_n_transactions_same_day t h k = Ok n ->
  exists n' : Z,
    get_n_transactions_same_day t h k' = Ok n' /\
    0 <= n /\ n <= n' /\ n' <= len h.
Proof.
  intros Hk. unfold get_n_transactions_same_day, len. revert n.
  destruct (_get_day (date t)) as [b|eb] eqn:Eb.
  - induction h as [|e h IH]; intros n R.
    + injection R as <-. exists 0. simpl. repeat split; lia.
    + cbn [countM] in *.
      destruct (_get_day (date e)) as [a|] eqn:Ea; cbn [bind] in *; [|discriminate].
      match type of R with context [countM ?f h] => destruct (countM f h) as [m|] eqn:Em end;
        cbn [bind] in R; [|discriminate].
      destruct (IH m eq_refl) as (m' & Hm' & H0 & H1 & H2).
      cbn [bind] in Hm'. rewrite Hm'. cbn [bind].
      rewrite length_cons, Nat2Z.inj_succ.
      destruct (Z.abs (a - b) <=? k) eqn:E1.
      * apply Z.leb_le in E1.
        replace (Z.abs (a - b) <=? k') with true by (symmetry; apply Z.leb_le; lia).
        assert (n = 1 + m) by congruence. subst n.
        exists (1 + m'). split; [reflexivity | lia].
      * assert (n = m) by congruence. subst n.
        destruct (Z.abs (a - b) <=? k'); eexists; (split; [reflexivity | lia]).
  - intros n R. destruct h as [|e h].
    + injection R as <-. exists 0. simpl. repeat split; lia.
    + cbn [countM] in R. destruct (_get_day (date e)); cbn [bind] in R; discriminate.
Qed.

Lemma same_day_monotone_in_tolerance_witness :
  exists n' : Z,
    get_n_transactions_same_day
      (mk_transaction "Netflix" "2024-01-15" 9.99)
      [mk_transaction "Netflix" "2024-02-15" 9.99;
       mk_transaction "Netflix" "2024-03-16" 9.99] 1 = Ok n' /\
    0 <= 1 /\ 1 <= n' /\
    n' <= len [mk_transaction "Netflix" "2024-02-15" 9.99;
               mk_transaction "Netflix" "2024-03-16" 9.99].
Proof.
  apply (same_day_monotone_in_tolerance _ _ 0 1 1); [lia | reflexivity].
Defined.

(** ** Counts of equal amounts and vendors *)

Lemma is_nan_spec (x : float) : is_nan x = true -> Prim2SF x = S754_nan.
Proof.
  unfold is_nan. rewrite eqb_spec. unfold SFeqb.
  destruct (Prim2SF x) as [s|s| |s m e]; simpl; try discriminate; try reflexivity.
  - destruct s; discriminate.
  - destruct s; rewrite Z.compare_refl, Pos.compare_cont_refl; discriminate.
Qed.

(** A NaN amount equals no amount, its own included: for a transaction
    whose amount is a NaN the count of equal amounts is 0 and the percentage
    0.0, against every history, also one that holds the transaction. *)
Theorem nan_amount_matches_nothing (t : Transaction) (h : list Transaction) :
  is_nan (amount t) = true ->
  get_n_transactions_same_amount t h = 0 /\
  get_percent_transactions_same_amount t h = Ok 0%float.
Proof.
  intros Hn. apply is_nan_spec in Hn.
  assert (F : filter (fun e => (amount e =? amount t)%float) h = []).
  { induction h as [|e h IH]; [reflexivity|]. simpl. rewrite IH.
    rewrite eqb_spec, Hn. unfold SFeqb. destruct (Prim2SF (amount e)); reflexivity. }
  unfold get_n_transactions_same_amount, get_percent_transactions_same_amount.
  rewrite F. split; [reflexivity|].
  destruct h as [|e h]; [reflexivity|].
  apply int_truediv_zero. unfold len. simpl List.length. lia.
Qed.

Lemma nan_amount_matches_nothing_witness :
  get_n_transactions_same_amount
    (mk_transaction "Netflix" "2024-01-15" nan)
    [mk_transaction "Netflix" "2024-01-15" nan] = 0 /\
  get_percent_transactions_same_amount
    (mk_transaction "Netflix" "2024-01-15" nan)
    [mk_transaction "Netflix" "2024-01-15" nan] = Ok 0%float.
Proof.
  apply nan_amount_matches_nothing. reflexivity.
Defined.

Lemma filter_length_in {A : Type} (f : A -> bool) (a : A) (l : list A) :
  In a l -> f a = true -> (1 <= List.length (filter f l) <= List.length l)%nat.
Proof.
  intros Hin Hf. pose proof (filter_length_le f l).
  assert (In a (filter f l)) by (apply filter_In; split; assumption).
  destruct (filter f l); [contradiction | simpl in *; lia].
Qed.

(** A transaction found in its history is counted by the vendor count, and
    by the amount count unless its amount is a NaN; both counts are at most
    the length of the history. *)
Theorem own_entry_is_counted (t : Transaction) (h : list Transaction) :
  In t h ->
  1 <= get_n_transactions_same_vendor t h <= len h /\
  (is_nan (amount t) = false ->
   1 <= get_n_transactions_same_amount t h <= len h).
Proof.
  intros Hin. unfold get_n_transactions_same_vendor, get_n_transactions_same_amount, len.
  split.
  - pose proof (filter_length_in (fun e => String.eqb (name e) (name t)) t h Hin
                  (String.eqb_refl _)). lia.
  - intros Hn.
    assert (E : (amount t =? amount t)%float = true)
      by (unfold is_nan in Hn; destruct (amount t =? amount t)%float; [reflexivity | discriminate]).
    pose proof (filter_length_in (fun e => (amount e =? amount t)%float) t h Hin E). lia.
Qed.

Lemma own_entry_is_counted_witness :
  1 <= get_n_transactions_same_vendor
         (mk_transaction "Netflix" "2024-01-15" 9.99)
         [mk_transaction "Hulu" "2024-01-01" 7.99;
          mk_transaction "Netflix" "2024-01-15" 9.99]
    <= len [mk_transaction "Hulu" "2024-01-01" 7.99;
            mk_transaction "Netflix" "2024-01-15" 9.99] /\
  (is_nan 9.99 = false ->
   1 <= get_n_transactions_same_amount
          (mk_transaction "Netflix" "2024-01-15" 9.99)
          [mk_transaction "Hulu" "2024-01-01" 7.99;
           mk_transaction "Netflix" "2024-01-15" 9.99]
     <= len [mk_transaction "Hulu" "2024-01-01" 7.99;
             mk_transaction "Netflix" "2024-01-15" 9.99]).
Proof.
  apply (own_entry_is_counted (mk_transaction "Netflix" "2024-01-15" 9.99)).
  right; left; reflexivity.
Defined.

(** ** The order of floats that are numbers *)

Lemma SFcompare_key (x y : spec_float) :
  x <> S754_nan -> y <> S754_nan ->
  (SFleb x y = true <-> key_le (sf_key x) (sf_key y)) /\
  (SFltb x y = true <-> key_lt (sf_key x) (sf_key y)).
Proof.
  intros Hx Hy. unfold SFleb, SFltb.
  destruct x as [sx|sx| |sx mx ex]; try congruence;
    destruct y as [sy|sy| |sy my ey]; try congruence;
    try destruct sx; try destruct sy; simpl;
    try (split; split; intros H; try discriminate; try reflexivity; lia).
  - change (Pos.compare_cont Eq mx my) with (Pos.compare mx my).
    destruct (Z.compare_spec ex ey); destruct (Pos.compare_spec mx my); simpl;
      split; split; intros HH; try discriminate; try reflexivity; lia.
  - change (Pos.compare_cont Eq mx my) with (Pos.compare mx my).
    destruct (Z.compare_spec ex ey); destruct (Pos.compare_spec mx my); simpl;
      split; split; intros HH; try discriminate; try reflexivity; lia.
Qed.

Lemma is_number_key (x : float) : is_number x -> Prim2SF x <> S754_nan.
Proof. apply not_nan. Qed.

Lemma leb_refl (x : float) : is_number x -> (x <=? x)%float = true.
Proof.
  intros Hx. rewrite leb_spec.
  apply (SFcompare_key _ _ (is_number_key x Hx) (is_number_key x Hx)).
  unfold key_le. destruct (sf_key (Prim2SF x)) as [[a b] c]. lia.
Qed.

Lemma leb_trans (x y z : float) :
  is_number x -> is_number y -> is_number z ->
  (x <=? y)%float = true -> (y <=? z)%float = true -> (x <=? z)%float = true.
Proof.
  intros Hx Hy Hz. rewrite !leb_spec. intros H1 H2.
  apply (SFcompare_key _ _ (is_number_key x Hx) (is_number_key y Hy)) in H1.
  apply (SFcompare_key _ _ (is_number_key y Hy) (is_number_key z Hz)) in H2.
  apply (SFcompare_key _ _ (is_number_key x Hx) (is_number_key z Hz)).
  unfold key_le in *.
  destruct (sf_key (Prim2SF x)) as [[a1 a2] a3].
  destruct (sf_key (Prim2SF y)) as [[b1 b2] b3].
  destruct (sf_key (Prim2SF z)) as [[c1 c2] c3]. lia.
Qed.

(** Of two numbers, one that is not below the other is at least it. *)
Lemma ltb_leb_cases (x y : float) :
  is_number x -> is_number y ->
  ((x <? y)%float = true /\ (x <=? y)%float = true) \/
  ((x <? y)%float = false /\ (y <=? x)%float = true).
Proof.
  intros Hx Hy. rewrite !leb_spec, ltb_spec.
  pose proof (SFcompare_key _ _ (is_number_key x Hx) (is_number_key y Hy)) as [L1 L2].
  pose proof (SFcompare_key _ _ (is_number_key y Hy) (is_number_key x Hx)) as [R1 _].
  destruct (SFltb (Prim2SF x) (Prim2SF y)) eqn:E.
  - left. split; [reflexivity|]. apply L1. apply proj1 in L2. specialize (L2 eq_refl).
    unfold key_le, key_lt in *.
    destruct (sf_key (Prim2SF x)) as [[a1 a2] a3].
    destruct (sf_key (Prim2SF y)) as [[b1 b2] b3]. lia.
  - right. split; [reflexivity|]. apply R1.
    assert (N : ~ key_lt (sf_key (Prim2SF x)) (sf_key (Prim2SF y)))
      by (intros K; apply L2 in K; discriminate).
    unfold key_le, key_lt in *.
    destruct (sf_key (Prim2SF x)) as [[a1 a2] a3].
    destruct (sf_key (Prim2SF y)) as [[b1 b2] b3]. lia.
Qed.

(** ** Minimum and maximum amount *)

(** What the fold of [min] keeps: its value is the start or an amount met,
    and it is at most the start and every amount met. *)
Lemma min_fold_spec (rest : list Transaction) (m0 : float) :
  is_number m0 -> Forall (fun t => is_number (amount t)) rest ->
  let r := fold_left (fun m t' => if (amount t' <? m)%float then amount t' else m) rest m0 in
  is_number r /\
  (r = m0 \/ exists t, In t rest /\ amount t = r) /\
  (r <=? m0)%float = true /\
  Forall (fun t => (r <=? amount t)%float = true) rest.
Proof.
  intros Hm HF. revert m0 Hm.
  induction HF as [|t rest Ht _ IH]; intros m0 Hm; cbn [fold_left].
  - repeat split; [assumption | left; reflexivity | apply leb_refl; assumption | constructor].
  - set (m1 := if (amount t <? m0)%float then amount t else m0).
    assert (H1 : is_number m1 /\ (m1 <=? m0)%float = true /\ (m1 <=? amount t)%float = true /\
                 (m1 = m0 \/ m1 = amount t)).
    { subst m1. destruct (ltb_leb_cases (amount t) m0 Ht Hm) as [[E L]|[E L]]; rewrite E.
      - repeat split; [assumption | assumption | apply leb_refl; assumption | right; reflexivity].
      - repeat split; [assumption | apply leb_refl; assumption | assumption | left; reflexivity]. }
    destruct H1 as (N1 & L0 & Lt & C1).
    destruct (IH m1 N1) as (Nr & Cr & Lr & Fr).
    cbv zeta in *.
    set (r := fold_left (fun m t' => if (amount t' <? m)%float then amount t' else m) rest m1) in *.
    repeat split.
    + assumption.
    + destruct Cr as [Cr|(t' & Hin & Ht')].
      * destruct C1 as [C1|C1]; [left; congruence|].
        right. exists t. split; [left; reflexivity | congruence].
      * right. exists t'. split; [right; assumption | assumption].
    + apply (leb_trans r m1 m0); assumption.
    + constructor; [apply (leb_trans r m1 (amount t)); assumption | exact Fr].
Qed.

Lemma max_fold_spec (rest : list Transaction) (m0 : float) :
  is_number m0 -> Forall (fun t => is_number (amount t)) rest ->
  let r := fold_left (fun m t' => if (m <? amount t')%float then amount t' else m) rest m0 in
  is_number r /\
  (r = m0 \/ exists t, In t rest /\ amount t = r) /\
  (m0 <=? r)%float = true /\
  Forall (fun t => (amount t <=? r)%float = true) rest.
Proof.
  intros Hm HF. revert m0 Hm.
  induction HF as [|t rest Ht _ IH]; intros m0 Hm; cbn [fold_left].
  - repeat split; [assumption | left; reflexivity | apply leb_refl; assumption | constructor].
  - set (m1 := if (m0 <? amount t)%float then amount t else m0).
    assert (H1 : is_number m1 /\ (m0 <=? m1)%float = true /\ (amount t <=? m1)%float = true /\
                 (m1 = m0 \/ m1 = amount t)).
    { subst m1. destruct (ltb_leb_cases m0 (amount t) Hm Ht) as [[E L]|[E L]]; rewrite E.
      - repeat split; [assumption | assumption | apply leb_refl; assumption | right; reflexivity].
      - repeat split; [assumption | apply leb_refl; assumption | assumption | left; reflexivity]. }
    destruct H1 as (N1 & L0 & Lt & C1).
    destruct (IH m1 N1) as (Nr & Cr & Lr & Fr).
    cbv zeta in *.
    set (r := fold_left (fun m t' => if (m <? amount t')%float then amount t' else m) rest m1) in *.
    repeat split.
    + assumption.
    + destruct Cr as [Cr|(t' & Hin & Ht')].
      * destruct C1 as [C1|C1]; [left; congruence|].
        right. exists t. split; [left; reflexivity | congruence].
      * right. exists t'. split; [right; assumption | assumption].
    + apply (leb_trans m0 m1 r); assumption.
    + constructor; [apply (leb_trans (amount t) m1 r); assumption | exact Fr].
Qed.

(** For a non-empty history none of whose amounts is a NaN, the minimum and
    the maximum are amounts of entries of the history, and every amount lies
    between them. *)
Theorem min_max_bound_every_amount (h : list Transaction) :
  h <> [] ->
  Forall (fun t => is_nan (amount t) = false) h ->
  (exists t, In t h /\ amount t = get_min_transaction_amount h) /\
  (exists t, In t h /\ amount t = get_max_transaction_amount h) /\
  Forall (fun t =>
            (get_min_transaction_amount h <=? amount t)%float = true /\
            (amount t <=? get_max_transaction_amount h)%float = true) h.
Proof.
  intros Hne HF. destruct h as [|t0 rest]; [congruence|].
  inversion HF as [|? ? H0 Hrest]; subst.
  unfold get_min_transaction_amount, get_max_transaction_amount.
  destruct (min_fold_spec rest (amount t0) H0 Hrest) as (_ & Cmin & Lmin & Fmin).
  destruct (max_fold_spec rest (amount t0) H0 Hrest) as (_ & Cmax & Lmax & Fmax).
  cbv zeta in *.
  split; [|split].
  - destruct Cmin as [E|(t & Hin & E)];
      [exists t0; split; [left; reflexivity | congruence]
      | exists t; split; [right; assumption | assumption]].
  - destruct Cmax as [E|(t & Hin & E)];
      [exists t0; split; [left; reflexivity | congruence]
      | exists t; split; [right; assumption | assumption]].
  - constructor; [split; assumption|].
    rewrite Forall_forall in *. intros t Hin. split; [apply Fmin | apply Fmax]; assumption.
Qed.

Lemma min_max_bound_every_amount_witness :
  (exists t, In t netflix_history /\ amount t = get_min_transaction_amount netflix_history) /\
  (exists t, In t netflix_history /\ amount t = get_max_transaction_amount netflix_history) /\
  Forall (fun t =>
            (get_min_transaction_amount netflix_history <=? amount t)%float = true /\
            (amount t <=? get_max_transaction_amount netflix_history)%float = true)
         netflix_history.
Proof.
  apply min_max_bound_every_amount; [discriminate | repeat constructor].
Defined.

(** With a NaN in the history the bounds can fail: the minimum of
    [nan, 1.0] is the NaN itself, which is at most nothing. *)
Example min_with_nan :
  (get_min_transaction_amount
     [mk_transaction "a" "2024-01-01" nan; mk_transaction "b" "2024-01-02" 1]
   <=? 1)%float = false.
Proof. reflexivity. Qed.

(** ** The raw day field against the parsed day *)

Lemma split_no_dash (s : string) : no_dash s = true -> Py.split "-" s = [s].
Proof.
  induction s as [|c s IH]; [reflexivity|]. simpl. intros H.
  apply andb_prop in H as [Hc Hs]. apply negb_true_iff in Hc. rewrite Hc, (IH Hs). reflexivity.
Qed.

Lemma split_app_dash (a b : string) :
  no_dash a = true ->
  Py.split "-" (a ++ String "-" b) = a :: Py.split "-" b.
Proof.
  induction a as [|c a IH]; [reflexivity|]. simpl. intros H.
  apply andb_prop in H as [Hc Hs]. apply negb_true_iff in Hc. rewrite Hc, (IH Hs). reflexivity.
Qed.

(** What a match of each piece of the expression says about the text. *)
Lemma in_digit_in (lo hi a : Z) (s s' : string) :
  In (a, s') (Datetime.digit_in lo hi s) ->
  exists c, s = String c s' /\ Datetime.in_range lo hi c = true /\ a = Py.digit_val c.
Proof.
  unfold Datetime.digit_in. destruct s as [|c s]; [intros []|].
  destruct (Datetime.in_range lo hi c) eqn:E; [|intros []].
  intros [H|[]]. injection H as <- <-. exists c. repeat split. exact E.
Qed.

Lemma in_lit (c : ascii) (u : unit) (s s' : string) :
  In (u, s') (Datetime.lit c s) -> s = String c s'.
Proof.
  unfold Datetime.lit. destruct s as [|c' s]; [intros []|].
  destruct (Ascii.eqb c' c) eqn:E; [|intros []].
  intros [H|[]]. injection H as <-. apply Ascii.eqb_eq in E. congruence.
Qed.

Lemma in_matcher_seq {A B : Type} (p : Datetime.matcher A) (k : A -> Datetime.matcher B)
  (b : B) (s s' : string) :
  In (b, s') (Datetime.seq p k s) ->
  exists a s1, In (a, s1) (p s) /\ In (b, s') (k a s1).
Proof.
  unfold Datetime.seq. intros H. apply in_flat_map in H as ([a s1] & H1 & H2). eauto.
Qed.

Lemma in_two (l1 h1 l2 h2 v : Z) (s s' : string) :
  In (v, s') (Datetime.two l1 h1 l2 h2 s) ->
  exists c1 c2,
    s = String c1 (String c2 s') /\
    Datetime.in_range l1 h1 c1 = true /\ Datetime.in_range l2 h2 c2 = true /\
    v = 10 * Py.digit_val c1 + Py.digit_val c2.
Proof.
  unfold Datetime.two. intros H.
  apply in_matcher_seq in H as (a & s1 & H1 & H).
  apply in_matcher_seq in H as (b & s2 & H2 & H).
  destruct H as [H|[]]. injection H as <- <-.
  apply in_digit_in in H1 as (c1 & -> & R1 & ->).
  apply in_digit_in in H2 as (c2 & -> & R2 & ->).
  exists c1, c2. repeat split; assumption.
Qed.

(** A character of a digit class is not a dash and is one of the ten
    digits. *)
Lemma in_range_digit (lo hi : Z) (c : ascii) :
  Datetime.in_range lo hi c = true -> 48 <= lo -> hi <= 57 ->
  Ascii.eqb c "-" = false /\
  exists n, 0 <= n <= 9 /\ c = digit_char n /\ Py.digit_val c = n.
Proof.
  intros H Hlo Hhi. unfold Datetime.in_range in H.
  apply andb_prop in H as [H1 H2]. apply Z.leb_le in H1, H2.
  split.
  - destruct (Ascii.eqb c "-") eqn:E; [|reflexivity].
    apply Ascii.eqb_eq in E. subst c. unfold Py.code in *. simpl in *. lia.
  - exists (Py.code c - 48). split; [lia|]. split; [|reflexivity].
    unfold digit_char, Py.code.
    replace (48 + (Z.of_N (N_of_ascii c) - 48)) with (Z.of_N (N_of_ascii c)) by lia.
    rewrite N2Z.id, ascii_N_embedding. reflexivity.
Qed.

Lemma int_of_str_digit (n : Z) :
  0 <= n <= 9 ->
  Py.int_of_str (String (digit_char n) EmptyString) = Ok n /\
  Py.int_of_str (String " " (String (digit_char n) EmptyString)) = Ok n.
Proof.
  intros H.
  assert (G : forall k : nat, (k < 10)%nat ->
              Py.int_of_str (String (digit_char (Z.of_nat k)) EmptyString) = Ok (Z.of_nat k) /\
              Py.int_of_str (String " " (String (digit_char (Z.of_nat k)) EmptyString))
              = Ok (Z.of_nat k)).
  { intros k Hk. do 10 (destruct k as [|k]; [split; reflexivity|]). lia. }
  specialize (G (Z.to_nat n) ltac:(lia)). rewrite Z2Nat.id in G by lia. exact G.
Qed.

Lemma int_of_str_two_digits (a b : Z) :
  0 <= a <= 9 -> 0 <= b <= 9 ->
  Py.int_of_str (String (digit_char a) (String (digit_char b) EmptyString)) = Ok (10 * a + b).
Proof.
  intros Ha Hb.
  assert (G : forall j k : nat, (j < 10)%nat -> (k < 10)%nat ->
              Py.int_of_str (String (digit_char (Z.of_nat j))
                               (String (digit_char (Z.of_nat k)) EmptyString))
              = Ok (10 * Z.of_nat j + Z.of_nat k)).
  { intros j k Hj Hk.
    do 10 (destruct j as [|j];
           [do 10 (destruct k as [|k]; [reflexivity|]); lia|]). lia. }
  specialize (G (Z.to_nat a) (Z.to_nat b) ltac:(lia) ltac:(lia)).
  rewrite !Z2Nat.id in G by lia. exact G.
Qed.

(** A match of the day expression that reaches the end of the text: the
    text has no dash and [int] reads the matched day from it. *)
Lemma re_d_text (d : Z) (s : string) :
  In (d, EmptyString) (Datetime.re_d s) ->
  no_dash s = true /\ Py.int_of_str s = Ok d.
Proof.
  unfold Datetime.re_d, Datetime.alt. intros H.
  repeat (apply in_app_or in H as [H|H]).
  - apply in_two in H as (c1 & c2 & -> & R1 & R2 & ->).
    destruct (in_range_digit _ _ _ R1 ltac:(lia) ltac:(lia)) as (D1 & n1 & B1 & -> & ->).
    destruct (in_range_digit _ _ _ R2 ltac:(lia) ltac:(lia)) as (D2 & n2 & B2 & -> & ->).
    simpl. rewrite D1, D2. split; [reflexivity | apply int_of_str_two_digits; assumption].
  - apply in_two in H as (c1 & c2 & -> & R1 & R2 & ->).
    destruct (in_range_digit _ _ _ R1 ltac:(lia) ltac:(lia)) as (D1 & n1 & B1 & -> & ->).
    destruct (in_range_digit _ _ _ R2 ltac:(lia) ltac:(lia)) as (D2 & n2 & B2 & -> & ->).
    simpl. rewrite D1, D2. split; [reflexivity | apply int_of_str_two_digits; assumption].
  - apply in_two in H as (c1 & c2 & -> & R1 & R2 & ->).
    destruct (in_range_digit _ _ _ R1 ltac:(lia) ltac:(lia)) as (D1 & n1 & B1 & -> & ->).
    destruct (in_range_digit _ _ _ R2 ltac:(lia) ltac:(lia)) as (D2 & n2 & B2 & -> & ->).
    simpl. rewrite D1, D2. split; [reflexivity | apply int_of_str_two_digits; assumption].
  - apply in_digit_in in H as (c & -> & R & ->).
    destruct (in_range_digit _ _ _ R ltac:(lia) ltac:(lia)) as (D1 & n & B & -> & ->).
    simpl. rewrite D1. split; [reflexivity | apply int_of_str_digit; assumption].
  - apply in_matcher_seq in H as (u & s1 & H1 & H). apply in_lit in H1 as ->.
    apply in_digit_in in H as (c & -> & R & ->).
    destruct (in_range_digit _ _ _ R ltac:(lia) ltac:(lia)) as (D1 & n & B & -> & ->).
    simpl. rewrite D1. split; [reflexivity | apply int_of_str_digit; assumption].
Qed.

(** A match of the month expression consumes one or two digits. *)
Lemma re_m_text (m : Z) (s s' : string) :
  In (m, s') (Datetime.re_m s) ->
  exists txt, s = (txt ++ s')%string /\ no_dash txt = true.
Proof.
  unfold Datetime.re_m, Datetime.alt. intros H.
  repeat (apply in_app_or in H as [H|H]).
  - apply in_two in H as (c1 & c2 & -> & R1 & R2 & ->).
    destruct (in_range_digit _ _ _ R1 ltac:(lia) ltac:(lia)) as (D1 & _).
    destruct (in_range_digit _ _ _ R2 ltac:(lia) ltac:(lia)) as (D2 & _).
    exists (String c1 (String c2 EmptyString)). simpl. rewrite D1, D2. split; reflexivity.
  - apply in_two in H as (c1 & c2 & -> & R1 & R2 & ->).
    destruct (in_range_digit _ _ _ R1 ltac:(lia) ltac:(lia)) as (D1 & _).
    destruct (in_range_digit _ _ _ R2 ltac:(lia) ltac:(lia)) as (D2 & _).
    exists (String c1 (String c2 EmptyString)). simpl. rewrite D1, D2. split; reflexivity.
  - apply in_digit_in in H as (c & -> & R & ->).
    destruct (in_range_digit _ _ _ R ltac:(lia) ltac:(lia)) as (D1 & _).
    exists (String c EmptyString). simpl. rewrite D1. split; reflexivity.
Qed.

Lemma re_Y_text (y : Z) (s s' : string) :
  In (y, s') (Datetime.re_Y s) ->
  exists txt, s = (txt ++ s')%string /\ no_dash txt = true.
Proof.
  unfold Datetime.re_Y. intros H.
  apply in_matcher_seq in H as (a & s1 & H1 & H). apply in_matcher_seq in H as (b & s2 & H2 & H).
  apply in_matcher_seq in H as (c & s3 & H3 & H). apply in_matcher_seq in H as (d & s4 & H4 & H).
  destruct H as [H|[]]. injection H as <- <-.
  apply in_digit_in in H1 as (c1 & -> & R1 & ->).
  apply in_digit_in in H2 as (c2 & -> & R2 & ->).
  apply in_digit_in in H3 as (c3 & -> & R3 & ->).
  apply in_digit_in in H4 as (c4 & -> & R4 & ->).
  destruct (in_range_digit _ _ _ R1 ltac:(lia) ltac:(lia)) as (D1 & _).
  destruct (in_range_digit _ _ _ R2 ltac:(lia) ltac:(lia)) as (D2 & _).
  destruct (in_range_digit _ _ _ R3 ltac:(lia) ltac:(lia)) as (D3 & _).
  destruct (in_range_digit _ _ _ R4 ltac:(lia) ltac:(lia)) as (D4 & _).
  exists (String c1 (String c2 (String c3 (String c4 EmptyString)))).
  simpl. rewrite D1, D2, D3, D4. split; reflexivity.
Qed.

(** The text of a date that parses, cut at its dashes, has a third field
    from which [int] reads the parsed day. *)
Lemma strptime_day_field (s : string) (dt : Datetime.datetime) :
  Datetime.strptime s = Ok dt ->
  exists field,
    Py.index (Py.split "-" s) 2 = Ok field /\ Py.int_of_str field = Ok (Datetime.day dt).
Proof.
  unfold Datetime.strptime. intros H.
  destruct (Datetime.re_Ymd s) as [|[[[y m] d] rest] l] eqn:E; [discriminate|].
  destruct rest; [|discriminate].
  assert (Hday : Datetime.day dt = d).
  { unfold Datetime.make in H. destruct (Datetime.valid_date y m d); [|discriminate].
    injection H as <-. reflexivity. }
  assert (Hin : In (y, m, d, EmptyString) (Datetime.re_Ymd s)) by (rewrite E; left; reflexivity).
  clear E H. unfold Datetime.re_Ymd in Hin.
  apply in_matcher_seq in Hin as (y' & s1 & HY & Hin).
  apply in_matcher_seq in Hin as (u1 & s2 & HL1 & Hin). apply in_lit in HL1 as ->.
  apply in_matcher_seq in Hin as (m' & s3 & HM & Hin).
  apply in_matcher_seq in Hin as (u2 & s4 & HL2 & Hin). apply in_lit in HL2 as ->.
  apply in_matcher_seq in Hin as (d' & s5 & HD & Hin).
  destruct Hin as [Hin|[]]. injection Hin as -> -> -> ->.
  apply re_Y_text in HY as (ytxt & -> & NY).
  apply re_m_text in HM as (mtxt & -> & NM).
  apply re_d_text in HD as (ND & Hint).
  rewrite (split_app_dash ytxt _ NY), (split_app_dash mtxt _ NM), (split_no_dash _ ND).
  cbn [Py.index nth_error]. eexists. split; [reflexivity|]. rewrite Hday. exact Hint.
Qed.

(** Whenever a date string parses as a calendar date, the raw day field the
    same-day detector reads from it is an integer, the day of that date. *)
Theorem raw_day_agrees_with_parsed_day (s : string) (dt : Datetime.datetime) :
  Datetime.strptime s = Ok dt -> _get_day s = Ok (Datetime.day dt).
Proof.
  intros H. destruct (strptime_day_field s dt H) as (field & Hf & Hi).
  unfold _get_day. rewrite Hf. cbn [bind]. exact Hi.
Qed.

Lemma raw_day_agrees_with_parsed_day_witness :
  _get_day "2024-1- 5" = Ok (Datetime.day (Datetime.mk_datetime 2024 1 5)).
Proof.
  apply raw_day_agrees_with_parsed_day. reflexivity.
Defined.

(** The converse fails: the raw day field is read without a calendar check. *)
Example raw_day_of_impossible_date :
  _get_day "2024-13-40" = Ok 40 /\
  get_day (mk_transaction "Netflix" "2024-13-40" 9.99) = Ok (-1).
Proof. split; reflexivity. Qed.

(** ** Interval statistics: when they return, and the record they return *)

Lemma mapM_strptime_raises (h : list Transaction) (e : exn) :
  mapM (fun trans => Datetime.strptime (date trans)) h = Raise e ->
  e = ValueError /\ ~ Forall (fun t => returns (Datetime.strptime (date t))) h.
Proof.
  induction h as [|t h IH]; cbn [mapM]; [discriminate|].
  destruct (Datetime.strptime (date t)) as [d|e'] eqn:E; cbn [bind].
  - destruct (mapM (fun trans => Datetime.strptime (date trans)) h) as [l|e''] eqn:E';
      cbn [bind]; [discriminate|].
    intros H. injection H as <-. destruct (IH eq_refl) as [-> N].
    split; [reflexivity|]. intros HF. inversion HF; subst. contradiction.
  - intros H. injection H as <-. split; [eapply strptime_raises_ValueError; eauto|].
    intros HF. inversion HF as [|? ? [d Hd] _]; subst. congruence.
Qed.

Lemma countM_total {A : Type} (test : A -> result bool) (l : list A) :
  Forall (fun a => returns (test a)) l ->
  exists n, countM test l = Ok n /\ 0 <= n <= len l.
Proof.
  unfold len. induction 1 as [|a l [b Hb] _ (n & Hn & Hr)].
  - exists 0. split; [reflexivity | simpl; lia].
  - cbn [countM]. rewrite Hb, Hn. cbn [bind]. rewrite length_cons, Nat2Z.inj_succ.
    destruct b; eexists; (split; [reflexivity | lia]).
Qed.

Lemma int_truediv_ratio_returns (n m : Z) :
  0 <= n <= m -> 0 < m -> returns (PyFloat.int_truediv n m).
Proof.
  intros Hn Hm. apply int_truediv_returns; [assumption|].
  pose proof (Zdigits2_mono n m Hn). lia.
Qed.

(** On at least two entries whose dates parse, the interval statistics
    return a record of five values of fixed types. *)
Lemma intervals_shape (h : list Transaction) :
  (2 <= List.length h)%nat ->
  Forall (fun t => returns (Datetime.strptime (date t))) h ->
  exists (avg : value) (sd mr ca : float) (sw : Z),
    get_transaction_intervals h =
    Ok [("avg_days_between_transactions", avg);
        ("std_dev_days_between_transactions", VFloat sd);
        ("monthly_recurrence", VFloat mr);
        ("same_weekday", VInt sw);
        ("same_amount", VFloat ca)]%string /\
    (sw = 0 \/ sw = 1).
Proof.
  intros Hlen Hdates.
  unfold get_transaction_intervals, transaction_intervals_with.
  destruct (len h <? 2) eqn:E; [apply Z.ltb_lt in E; unfold len in E; lia|]. clear E.
  destruct (mapM_strptime h Hdates) as (parsed & -> & Hpl & Hpo). cbn [bind].
  destruct (sorted_spec ordinal_ok parsed Hpo) as [Hso Hsl].
  destruct (day_gaps_spec (sorted parsed) Hso) as [Hgb Hgl].
  set (intervals := day_gaps (sorted parsed)) in *.
  assert (Hil : (1 <= List.length intervals)%nat) by lia.
  assert (Hne : intervals <> []) by (intros E; rewrite E in Hil; simpl in Hil; lia).
  destruct (mean_returns intervals Hne Hgb) as [avg Havg].
  assert (Havg' : match intervals with [] => Ok (VFloat 0) | _ :: _ => Statistics.mean intervals end = Ok avg)
    by (destruct intervals; [congruence | exact Havg]).
  rewrite Havg'. cbn [bind].
  assert (Hstd : exists sd, (if 1 <? len intervals then Statistics.stdev intervals else Ok 0%float) = Ok sd).
  { destruct (1 <? len intervals) eqn:E; [|eauto].
    apply Z.ltb_lt in E. unfold len in E.
    apply stdev_returns; [lia | exact Hgb]. }
  destruct Hstd as [sd ->]. cbn [bind].
  set (cnt := len (filter (fun gap => (23 <=? gap) && (gap <=? 38)) intervals)).
  assert (Hmon : exists mr, match intervals with [] => Ok 0%float | _ :: _ => PyFloat.int_truediv cnt (len intervals) end = Ok mr).
  { assert (R : returns (PyFloat.int_truediv cnt (len intervals))).
    { apply int_truediv_ratio_returns; [apply len_filter_le | unfold len; lia]. }
    destruct R as [mr R]. exists mr. destruct intervals; [congruence | exact R]. }
  destruct Hmon as [mr ->]. cbn [bind].
  destruct h as [|t0 h']; [simpl in Hlen; lia|].
  cbn [map Py.index nth_error bind].
  assert (Hca : exists ca,
             (if (amount t0 =? 0)%float then Ok 0%float
              else n <- countM (fun amt => q <- PyFloat.truediv (abs (amt - amount t0)) (amount t0) ;;
                                           Ok (q <=? 0.05)%float)
                               (amount t0 :: map amount h') ;;
                   PyFloat.int_truediv n (len (amount t0 :: map amount h'))) = Ok ca).
  { destruct (amount t0 =? 0)%float eqn:Ez; [eauto|].
    destruct (countM_total
                (fun amt => q <- PyFloat.truediv (abs (amt - amount t0)) (amount t0) ;;
                            Ok (q <=? 0.05)%float)
                (amount t0 :: map amount h')) as (n & Hn & Hb).
    - apply Forall_forall. intros a _. unfold PyFloat.truediv. rewrite Ez. eexists; reflexivity.
    - rewrite Hn. cbn [bind].
      apply int_truediv_ratio_returns; [exact Hb | unfold len; simpl List.length; lia]. }
  destruct Hca as [ca ->]. cbn [bind].
  exists avg, sd, mr, ca. eexists. split; [reflexivity|].
  destruct (n_distinct _ =? 1); [right | left]; reflexivity.
Qed.

(** The interval statistics return exactly when the history has fewer than
    two entries or every date in it parses; the only exception they raise
    is [ValueError]; and the record returned always has the same five keys. *)
Theorem intervals_return_iff_dates_parse (h : list Transaction) :
  (returns (get_transaction_intervals h) <->
   (List.length h < 2)%nat \/
   Forall (fun t => returns (Datetime.strptime (date t))) h) /\
  (forall e, get_transaction_intervals h = Raise e -> e = ValueError) /\
  (forall d, get_transaction_intervals h = Ok d -> map fst d = interval_names).
Proof.
  destruct (Nat.lt_ge_cases (List.length h) 2) as [Hlt|Hge].
  - assert (E : get_transaction_intervals h = Ok zero_intervals).
    { unfold get_transaction_intervals, transaction_intervals_with.
      rewrite (len_lt_2 h Hlt). reflexivity. }
    rewrite E. split; [|split].
    + split; [intros _; left; exact Hlt | intros _; eexists; reflexivity].
    + discriminate.
    + intros d H. injection H as <-. reflexivity.
  - destruct (mapM (fun trans => Datetime.strptime (date trans)) h) as [parsed|e0] eqn:Em.
    + assert (HF : Forall (fun t => returns (Datetime.strptime (date t))) h).
      { clear - Em. revert parsed Em. induction h as [|t h IH]; intros parsed Em; [constructor|].
        cbn [mapM] in Em.
        destruct (Datetime.strptime (date t)) eqn:E; cbn [bind] in Em; [|discriminate].
        destruct (mapM (fun trans => Datetime.strptime (date trans)) h) eqn:E';
          cbn [bind] in Em; [|discriminate].
        constructor; [rewrite E; eexists; reflexivity | eapply IH; reflexivity]. }
      destruct (intervals_shape h Hge HF) as (avg & sd & mr & ca & sw & E & _).
      rewrite E. split; [|split].
      * split; [intros _; right; exact HF | intros _; eexists; reflexivity].
      * discriminate.
      * intros d H. injection H as <-. reflexivity.
    + destruct (mapM_strptime_raises h e0 Em) as [-> N].
      assert (E : get_transaction_intervals h = Raise ValueError).
      { unfold get_transaction_intervals, transaction_intervals_with.
        destruct (len h <? 2) eqn:E; [apply Z.ltb_lt in E; unfold len in E; lia|].
        rewrite Em. reflexivity. }
      rewrite E. split; [|split].
      * split; [intros [d H]; discriminate | intros [H|H]; [lia | contradiction]].
      * congruence.
      * discriminate.
Qed.

(** ** The feature record: when it is returned, and its keys *)

Lemma intervals_record (h : list Transaction) :
  Forall (fun t => returns (Datetime.strptime (date t))) h ->
  exists v1 v2 v3 v4 v5 : value,
    get_transaction_intervals h =
    Ok [("avg_days_between_transactions", v1);
        ("std_dev_days_between_transactions", v2);
        ("monthly_recurrence", v3);
        ("same_weekday", v4);
        ("same_amount", v5)]%string.
Proof.
  intros HF. destruct (Nat.lt_ge_cases (List.length h) 2) as [Hlt|Hge].
  - unfold get_transaction_intervals, transaction_intervals_with.
    rewrite (len_lt_2 h Hlt). unfold zero_intervals. repeat eexists.
  - destruct (intervals_shape h Hge HF) as (avg & sd & mr & ca & sw & E & _).
    rewrite E. repeat eexists.
Qed.

Lemma percent_returns (t : Transaction) (h : list Transaction) :
  returns (get_percent_transactions_same_amount t h).
Proof.
  unfold get_percent_transactions_same_amount. destruct h as [|e h]; [eexists; reflexivity|].
  apply int_truediv_ratio_returns; [apply len_filter_le | unfold len; simpl List.length; lia].
Qed.

Lemma ends_in_99_returns (t : Transaction) : returns (get_ends_in_99 t).
Proof.
  unfold get_ends_in_99, PyFloat.rem.
  change (100 =? 0)%float with false. cbn [bind]. eexists; reflexivity.
Qed.

Lemma calendar_getters_return (t : Transaction) :
  returns (get_day_of_week t) /\ returns (get_month t) /\
  returns (get_day t) /\ returns (get_year t).
Proof.
  unfold get_day_of_week, get_month, get_day, get_year.
  destruct (Datetime.strptime (date t)) as [d|e] eqn:E; cbn [bind except_ValueError].
  - repeat split; eexists; reflexivity.
  - rewrite (strptime_raises_ValueError _ _ E). repeat split; eexists; reflexivity.
Qed.

Lemma same_day_returns_of_parse (t : Transaction) (h : list Transaction) (k : Z) :
  returns (Datetime.strptime (date t)) ->
  Forall (fun e => returns (Datetime.strptime (date e))) h ->
  returns (get_n_transactions_same_day t h k).
Proof.
  intros [dt Ht] HF. unfold get_n_transactions_same_day.
  destruct (countM_total
              (fun t0 => a <- _get_day (date t0) ;; b <- _get_day (date t) ;;
                         Ok (Z.abs (a - b) <=? k)) h) as (n & Hn & _).
  - eapply Forall_impl; [|exact HF]. intros e [de He]. cbv beta.
    destruct (strptime_day_field _ _ He) as (f1 & F1 & I1).
    destruct (strptime_day_field _ _ Ht) as (f2 & F2 & I2).
    unfold _get_day. rewrite F1, F2. cbn [bind]. rewrite I1, I2. cbn [bind].
    eexists; reflexivity.
  - exists n. exact Hn.
Qed.

Lemma days_apart_returns_of_parse (t : Transaction) (h : list Transaction) (g k : Z) :
  0 < g ->
  returns (Datetime.strptime (date t)) ->
  Forall (fun e => returns (Datetime.strptime (date e))) h ->
  returns (get_n_transactions_days_apart t h g k).
Proof.
  intros Hg Rt HF. apply get_days_returns in Rt as [d0 Ht].
  apply history_days_returns in HF as [ds Hds].
  rewrite (days_apart_returns_count t h g k d0 ds Hg Ht Hds). eexists; reflexivity.
Qed.

Lemma days_apart_ok_dates_parse (t : Transaction) (h : list Transaction) (g k n : Z) :
  0 < g ->
  get_n_transactions_days_apart t h g k = Ok n ->
  returns (Datetime.strptime (date t)) /\
  Forall (fun e => returns (Datetime.strptime (date e))) h.
Proof.
  intros Hg H. unfold get_n_transactions_days_apart in H.
  destruct (_get_days (date t)) as [d0|] eqn:Et; cbn [bind] in H; [|discriminate].
  split; [apply get_days_returns; rewrite Et; eexists; reflexivity|].
  apply history_days_returns.
  destruct (history_days h) as [ds|eh] eqn:Eh; [eexists; reflexivity|].
  rewrite (days_apart_loop_raises d0 g k h ltac:(lia) eh 0 Eh) in H. discriminate.
Qed.

Ltac bind_inv H :=
  match type of H with
  | bind ?r _ = Ok _ =>
      let E := fresh "E" in
      destruct r eqn:E; cbn [bind] in H; [|discriminate H]
  end.

(** With dates that parse the assembler returns a record whose keys are
    the twenty-seven feature names, in that order. *)
Lemma features_record (t : Transaction) (h : list Transaction) :
  returns (Datetime.strptime (date t)) ->
  Forall (fun e => returns (Datetime.strptime (date e))) h ->
  exists d, get_features t h = Ok d /\ map fst d = feature_names.
Proof.
  intros Rt HF. unfold get_features.
  destruct (percent_returns t h) as [v1 ->]. cbn [bind].
  destruct (calendar_getters_return t) as ([w ->] & [m ->] & [d ->] & [y ->]). cbn [bind].
  destruct (ends_in_99_returns t) as [b ->]. cbn [bind].
  destruct (same_day_returns_of_parse t h 0 Rt HF) as [s0 ->]. cbn [bind].
  destruct (same_day_returns_of_parse t h 1 Rt HF) as [s1 ->]. cbn [bind].
  destruct (same_day_returns_of_parse t h 2 Rt HF) as [s2 ->]. cbn [bind].
  destruct (days_apart_returns_of_parse t h 14 0 ltac:(lia) Rt HF) as [a0 ->]. cbn [bind].
  destruct (days_apart_returns_of_parse t h 14 1 ltac:(lia) Rt HF) as [a1 ->]. cbn [bind].
  destruct (days_apart_returns_of_parse t h 7 0 ltac:(lia) Rt HF) as [a2 ->]. cbn [bind].
  destruct (days_apart_returns_of_parse t h 7 1 ltac:(lia) Rt HF) as [a3 ->]. cbn [bind].
  destruct (intervals_record h HF) as (i1 & i2 & i3 & i4 & i5 & ->). cbn [bind].
  eexists. split; reflexivity.
Qed.

(** [get_features] returns exactly when the date of the transaction and the
    date of every history entry parse: the sentinel -1 of the calendar
    components never shows in a record it returns.  A record it returns has
    the twenty-seven feature names as its keys, in order and without
    repetition. *)
Theorem features_return_iff_dates_parse (t : Transaction) (h : list Transaction) :
  (returns (get_features t h) <->
   returns (Datetime.strptime (date t)) /\
   Forall (fun e => returns (Datetime.strptime (date e))) h) /\
  (forall d, get_features t h = Ok d ->
             map fst d = feature_names /\ NoDup (map fst d) /\
             dict_get d "year" <> Some (VInt (-1))).
Proof.
  assert (P : forall d, get_features t h = Ok d ->
              returns (Datetime.strptime (date t)) /\
              Forall (fun e => returns (Datetime.strptime (date e))) h).
  { intros d H. unfold get_features in H.
    do 10 bind_inv H.
    eapply (days_apart_ok_dates_parse t h 14 0); [lia | eassumption]. }
  split.
  - split.
    + intros [d H]. exact (P d H).
    + intros [Rt HF]. destruct (features_record t h Rt HF) as (d & H & _).
      exists d. exact H.
  - intros d H. destruct (P d H) as [Rt HF].
    destruct (features_record t h Rt HF) as (d' & H' & K).
    assert (d' = d) by congruence. subst d'.
    split; [exact K|]. split.
    + rewrite K. rewrite <- (eq_refl : nodup string_dec feature_names = feature_names).
      apply NoDup_nodup.
    + clear H'. unfold get_features in H.
      do 5 bind_inv H.
      destruct Rt as [dt Hdt].
      unfold get_year in E3. rewrite Hdt in E3. cbn [bind except_ValueError] in E3.
      injection E3 as <-.
      do 8 bind_inv H.
      pose proof (strptime_valid _ _ Hdt) as Hv.
      unfold Datetime.valid_date in Hv. repeat (apply andb_prop in Hv as [Hv ?]).
      assert (Hy : Datetime.year dt <> -1) by lia.
      destruct (intervals_record h HF) as (i1 & i2 & i3 & i4 & i5 & Hi).
      rewrite Hi in H. cbn [bind] in H. injection H as <-.
      cbn. intros Habs. injection Habs as Habs. contradiction.
Qed.

(** ** Vendor classifiers ignore the case of ASCII letters *)

Lemma is_word_lower (c : ascii) : Re.is_word (Re.lower c) = Re.is_word c.
Proof. destruct c as [[] [] [] [] [] [] [] []]; reflexivity. Qed.

Lemma lower_lower (c : ascii) : Re.lower (Re.lower c) = Re.lower c.
Proof. destruct c as [[] [] [] [] [] [] [] []]; reflexivity. Qed.

Lemma boundary_lower (p n : option ascii) :
  Re.boundary (option_map Re.lower p) (option_map Re.lower n) = Re.boundary p n.
Proof.
  unfold Re.boundary. destruct p, n; simpl; rewrite ?is_word_lower; reflexivity.
Qed.

Lemma head_lower (s : string) : Re.head (lower_string s) = option_map Re.lower (Re.head s).
Proof. destruct s; reflexivity. Qed.

Lemma match_lit_lower (w s : string) (prev : option ascii) :
  Re.match_lit w (lower_string s) (option_map Re.lower prev) =
  option_map (fun lr => (option_map Re.lower (fst lr), lower_string (snd lr)))
             (Re.match_lit w s prev).
Proof.
  revert s prev. induction w as [|p w IH]; intros s prev; [reflexivity|].
  destruct s as [|c s]; [reflexivity|]. simpl.
  unfold Re.ci_eqb. rewrite lower_lower.
  destruct (Ascii.eqb (Re.lower c) (Re.lower p)); [|reflexivity].
  apply (IH s (Some c)).
Qed.

Lemma match_here_lower (alts : list string) (prev : option ascii) (s : string) :
  Re.match_here alts (option_map Re.lower prev) (lower_string s) = Re.match_here alts prev s.
Proof.
  unfold Re.match_here. rewrite head_lower, boundary_lower. f_equal.
  induction alts as [|w alts IH]; [reflexivity|]. simpl.
  rewrite IH, match_lit_lower.
  destruct (Re.match_lit w s prev) as [[l r]|]; [|reflexivity].
  simpl. rewrite head_lower, boundary_lower. reflexivity.
Qed.

Lemma search_from_lower (alts : list string) (prev : option ascii) (s : string) :
  Re.search_from alts (option_map Re.lower prev) (lower_string s) = Re.search_from alts prev s.
Proof.
  revert prev. induction s as [|c s IH]; intros prev.
  - cbn [Re.search_from lower_string].
    rewrite <- (match_here_lower alts prev EmptyString). reflexivity.
  - cbn [Re.search_from lower_string].
    rewrite <- (IH (Some c)). cbn [option_map].
    rewrite <- (match_here_lower alts prev (String c s)). reflexivity.
Qed.

Lemma search_lower (alts : list string) (s : string) :
  Re.search alts (lower_string s) = Re.search alts s.
Proof. apply (search_from_lower alts None s). Qed.

(** Two names that differ only in the case of ASCII letters are classified
    alike by the four vendor classifiers. *)
Theorem classifiers_ignore_case (t1 t2 : Transaction) :
  lower_string (name t1) = lower_string (name t2) ->
  get_is_always_recurring t1 = get_is_always_recurring t2 /\
  get_is_insurance t1 = get_is_insurance t2 /\
  get_is_utility t1 = get_is_utility t2 /\
  is_recurring_mobile_transaction t1 = is_recurring_mobile_transaction t2.
Proof.
  intros H.
  unfold get_is_always_recurring, get_is_insurance, get_is_utility,
    is_recurring_mobile_transaction.
  repeat split;
    match goal with
    | |- Re.search ?a _ = Re.search ?a _ =>
        rewrite <- (search_lower a (name t1)), <- (search_lower a (name t2)), H; reflexivity
    end.
Qed.

Lemma classifiers_ignore_case_witness :
  get_is_always_recurring (mk_transaction "NETFLIX.COM" "2024-01-15" 9.99)
  = get_is_always_recurring (mk_transaction "Netflix.com" "2024-01-15" 9.99) /\
  get_is_insurance (mk_transaction "NETFLIX.COM" "2024-01-15" 9.99)
  = get_is_insurance (mk_transaction "Netflix.com" "2024-01-15" 9.99) /\
  get_is_utility (mk_transaction "NETFLIX.COM" "2024-01-15" 9.99)
  = get_is_utility (mk_transaction "Netflix.com" "2024-01-15" 9.99) /\
  is_recurring_mobile_transaction (mk_transaction "NETFLIX.COM" "2024-01-15" 9.99)
  = is_recurring_mobile_transaction (mk_transaction "Netflix.com" "2024-01-15" 9.99).
Proof.
  apply classifiers_ignore_case. reflexivity.
Defined.

(** ** Vendor classifiers find a term that stands between boundaries *)

Lemma search_from_app (alts : list string) (prev : option ascii) (pre rest : string) :
  Re.match_here alts (last_char prev pre) rest = true ->
  Re.search_from alts prev (pre ++ rest) = true.
Proof.
  revert prev. induction pre as [|c pre IH]; intros prev H.
  - simpl in *. destruct rest; cbn [Re.search_from]; rewrite H; reflexivity.
  - cbn [append Re.search_from]. rewrite (IH (Some c) H). apply orb_true_r.
Qed.

Lemma match_lit_self (w post : string) (prev : option ascii) :
  Re.match_lit w (w ++ post) prev = Some (last_char prev w, post).
Proof.
  revert prev. induction w as [|c w IH]; intros prev; [reflexivity|].
  cbn [append Re.match_lit last_char]. unfold Re.ci_eqb. rewrite Ascii.eqb_refl. apply IH.
Qed.

Lemma last_char_word (prev : option ascii) (w : string) :
  w <> EmptyString -> last_char prev w = last_char None w.
Proof.
  destruct w as [|c w]; [congruence|]. reflexivity.
Qed.

(** A term of the list that stands in the text between two boundaries, the
    ends of the text or characters that are no word characters, is found. *)
Lemma search_finds_delimited_term (alts : list string) (w pre post : string) :
  In w alts -> word_edged w = true ->
  Re.is_word_opt (last_char None pre) = false ->
  Re.is_word_opt (Re.head post) = false ->
  Re.search alts (pre ++ w ++ post) = true.
Proof.
  intros Hin Hw Hpre Hpost. unfold Re.search. apply search_from_app.
  unfold word_edged in Hw. apply andb_prop in Hw as [Hh Hl].
  assert (Hne : w <> EmptyString) by (destruct w; [discriminate | congruence]).
  unfold Re.match_here. apply andb_true_intro. split.
  - unfold Re.boundary. rewrite Hpre.
    destruct w as [|c w]; [congruence|]. simpl in *. exact Hh.
  - apply existsb_exists. exists w. split; [exact Hin|].
    rewrite match_lit_self, (last_char_word _ w Hne).
    unfold Re.boundary. rewrite Hl, Hpost. reflexivity.
Qed.

(** A vendor term standing in the name between the ends of the name or
    characters that are no letters, digits or underscores makes its
    classifier answer [True]. *)
Theorem classifiers_find_delimited_term (t : Transaction) (w pre post : string) :
  name t = (pre ++ w ++ post)%string ->
  Re.is_word_opt (last_char None pre) = false ->
  Re.is_word_opt (Re.head post) = false ->
  (In w recurring_terms -> get_is_always_recurring t = true) /\
  (In w insurance_terms -> get_is_insurance t = true) /\
  (In w utility_terms -> get_is_utility t = true) /\
  (In w mobile_terms -> is_recurring_mobile_transaction t = true).
Proof.
  intros Hn Hpre Hpost.
  assert (E : forall l, forallb word_edged l = true -> In w l -> Re.search l (name t) = true).
  { intros l Hl Hin. rewrite Hn.
    apply search_finds_delimited_term; try assumption.
    apply (proj1 (forallb_forall _ _) Hl w Hin). }
  unfold get_is_always_recurring, get_is_insurance, get_is_utility,
    is_recurring_mobile_transaction.
  repeat split; apply E; reflexivity.
Qed.

Lemma classifiers_find_delimited_term_witness :
  (In "at&t"%string recurring_terms ->
   get_is_always_recurring (mk_transaction "Pay: at&t*wireless" "2024-01-15" 50) = true) /\
  (In "at&t"%string insurance_terms ->
   get_is_insurance (mk_transaction "Pay: at&t*wireless" "2024-01-15" 50) = true) /\
  (In "at&t"%string utility_terms ->
   get_is_utility (mk_transaction "Pay: at&t*wireless" "2024-01-15" 50) = true) /\
  (In "at&t"%string mobile_terms ->
   is_recurring_mobile_transaction (mk_transaction "Pay: at&t*wireless" "2024-01-15" 50) = true).
Proof.
  apply (classifiers_find_delimited_term
           (mk_transaction "Pay: at&t*wireless" "2024-01-15" 50)
           "at&t" "Pay: " "*wireless"); reflexivity.
Defined.

(** With the case theorem: the same holds for the capitals. *)
Example mobile_finds_capitals :
  is_recurring_mobile_transaction (mk_transaction "PAY: AT&T*WIRELESS" "2024-01-15" 50) = true.
Proof. reflexivity. Qed.

(** ** Epoch days follow the calendar *)

Lemma days_tables_leap (y m : Z) :
  Datetime.days_before_month y m
  = Datetime.days_before_month (if Datetime.is_leap y then 2024 else 2023) m /\
  Datetime.days_in_month y m
  = Datetime.days_in_month (if Datetime.is_leap y then 2024 else 2023) m.
Proof.
  unfold Datetime.days_before_month, Datetime.days_in_month.
  destruct (Datetime.is_leap y); split; reflexivity.
Qed.

Lemma month_in_range (m : Z) : 1 <= m <= 12 -> In m (map Z.of_nat (List.seq 1 12)).
Proof.
  intros H. apply in_map_iff. exists (Z.to_nat m). split; [lia | apply in_seq; lia].
Qed.

(** A month ends before the next one begins, and the year holds them all. *)
Lemma month_table (y m : Z) :
  1 <= m <= 12 ->
  (m <= 11 ->
   Datetime.days_before_month y m + Datetime.days_in_month y m
   <= Datetime.days_before_month y (m + 1)) /\
  Datetime.days_before_month y m + Datetime.days_in_month y m
  <= 365 + (if Datetime.is_leap y then 1 else 0).
Proof.
  intros Hm.
  assert (T : forall leap, forallb (month_table_ok leap) (map Z.of_nat (List.seq 1 12)) = true)
    by (intros []; reflexivity).
  pose proof (proj1 (forallb_forall _ _) (T (Datetime.is_leap y)) m (month_in_range m Hm)) as H.
  unfold month_table_ok in H. cbv zeta in H.
  apply andb_prop in H as [H1 H2]. apply Z.leb_le in H2.
  destruct (days_tables_leap y m) as [-> ->].
  destruct (days_tables_leap y (m + 1)) as [-> _].
  split; [|assumption].
  intros H11. apply orb_prop in H1 as [H1|H1]; [apply Z.eqb_eq in H1; lia|].
  apply Z.leb_le in H1. exact H1.
Qed.

Lemma days_before_month_mono (y m m' : Z) :
  1 <= m -> m <= m' -> m' <= 12 ->
  Datetime.days_before_month y m <= Datetime.days_before_month y m'.
Proof.
  intros H1 H2 H3.
  replace m' with (m + Z.of_nat (Z.to_nat (m' - m))) by lia.
  assert (B : m + Z.of_nat (Z.to_nat (m' - m)) <= 12) by lia.
  induction (Z.to_nat (m' - m)) as [|k IH].
  - replace (m + Z.of_nat 0) with m by lia. lia.
  - rewrite Nat2Z.inj_succ in *.
    specialize (IH ltac:(lia)).
    pose proof (month_table y (m + Z.of_nat k) ltac:(lia)) as [T _].
    specialize (T ltac:(lia)).
    assert (0 <= Datetime.days_in_month y (m + Z.of_nat k)).
    { unfold Datetime.days_in_month.
      destruct (Datetime.is_leap y);
        repeat match goal with |- context [match ?p with _ => _ end] => destruct p end; lia. }
    replace (m + Z.succ (Z.of_nat k)) with (m + Z.of_nat k + 1) by lia. lia.
Qed.

Lemma days_before_year_succ (y : Z) :
  Datetime.days_before_year (y + 1)
  = Datetime.days_before_year y + 365 + (if Datetime.is_leap y then 1 else 0).
Proof.
  unfold Datetime.days_before_year, Datetime.is_leap. cbv zeta.
  replace (y + 1 - 1) with y by lia.
  destruct (y mod 4 =? 0) eqn:E4; destruct (y mod 100 =? 0) eqn:E100;
    destruct (y mod 400 =? 0) eqn:E400; simpl;
    rewrite ?Z.eqb_eq, ?Z.eqb_neq in *; Z.div_mod_to_equations; lia.
Qed.

Lemma days_before_year_mono (y y' : Z) :
  y <= y' -> Datetime.days_before_year y <= Datetime.days_before_year y'.
Proof.
  intros H. unfold Datetime.days_before_year. cbv zeta. Z.div_mod_to_equations. lia.
Qed.

(** Of two calendar dates the earlier has the smaller ordinal. *)
Lemma toordinal_lt (a b : Datetime.datetime) :
  valid a -> valid b -> datetime_ltb a b = true ->
  Datetime.toordinal a < Datetime.toordinal b.
Proof.
  unfold valid, Datetime.valid_date, datetime_ltb, Datetime.toordinal.
  destruct a as [ya ma da], b as [yb mb db]. cbn [Datetime.year Datetime.month Datetime.day].
  intros Va Vb H.
  repeat (apply andb_prop in Va as [Va ?]). repeat (apply andb_prop in Vb as [Vb ?]).
  rewrite ?Z.leb_le in *.
  pose proof (month_table ya ma ltac:(lia)) as [Ta1 Ta2].
  pose proof (days_before_month_bounds yb mb) as Bb.
  apply orb_prop in H as [H|H].
  - apply Z.ltb_lt in H.
    pose proof (days_before_year_succ ya).
    pose proof (days_before_year_mono (ya + 1) yb ltac:(lia)). lia.
  - apply andb_prop in H as [Hy H]. apply Z.eqb_eq in Hy. subst yb.
    apply orb_prop in H as [H|H].
    + apply Z.ltb_lt in H. specialize (Ta1 ltac:(lia)).
      pose proof (days_before_month_mono ya (ma + 1) mb ltac:(lia) ltac:(lia) ltac:(lia)). lia.
    + apply andb_prop in H as [Hm H]. apply Z.eqb_eq in Hm. apply Z.ltb_lt in H. subst mb. lia.
Qed.

Lemma datetime_ltb_total (a b : Datetime.datetime) :
  datetime_ltb a b = false -> datetime_ltb b a = false -> a = b.
Proof.
  unfold datetime_ltb. destruct a as [ya ma da], b as [yb mb db].
  cbn [Datetime.year Datetime.month Datetime.day]. intros H1 H2.
  rewrite ?orb_false_iff, ?andb_false_iff, ?Z.ltb_ge, ?Z.eqb_neq in *.
  assert (ya = yb /\ ma = mb /\ da = db) as (-> & -> & ->) by lia. reflexivity.
Qed.

Lemma datetime_ltb_irrefl (a : Datetime.datetime) : datetime_ltb a a = false.
Proof.
  unfold datetime_ltb. rewrite !Z.ltb_irrefl, !Z.eqb_refl. reflexivity.
Qed.

(** For two date strings that parse, the epoch days are ordered as the
    dates are on the calendar, and equal only for the same date. *)
Theorem epoch_days_follow_calendar (sa sb : string) (a b : Datetime.datetime) :
  Datetime.strptime sa = Ok a -> Datetime.strptime sb = Ok b ->
  exists da db : Z,
    _get_days sa = Ok da /\ _get_days sb = Ok db /\
    (da < db <-> datetime_ltb a b = true) /\
    (da = db <-> a = b).
Proof.
  intros Ha Hb. unfold _get_days. rewrite Ha, Hb. cbn [bind].
  do 2 eexists. split; [reflexivity|]. split; [reflexivity|].
  pose proof (strptime_valid _ _ Ha) as Va. pose proof (strptime_valid _ _ Hb) as Vb.
  unfold Datetime.sub_days.
  assert (C : (datetime_ltb a b = true /\ Datetime.toordinal a < Datetime.toordinal b) \/
              (a = b) \/
              (datetime_ltb b a = true /\ datetime_ltb a b = false /\
               Datetime.toordinal b < Datetime.toordinal a)).
  { destruct (datetime_ltb a b) eqn:E1.
    - left. split; [reflexivity | apply toordinal_lt; assumption].
    - destruct (datetime_ltb b a) eqn:E2.
      + right; right. repeat split. apply toordinal_lt; assumption.
      + right; left. apply datetime_ltb_total; assumption. }
  destruct C as [[E L]|[->|(E1 & E2 & L)]].
  - rewrite E. split; split; intros; try reflexivity; try lia.
    subst b. rewrite datetime_ltb_irrefl in E. discriminate.
  - rewrite datetime_ltb_irrefl. split; split; intros; try reflexivity; try lia; discriminate.
  - rewrite E2. split; split; intros; try lia; try discriminate.
    subst b. rewrite datetime_ltb_irrefl in E1. discriminate.
Qed.

Lemma epoch_days_follow_calendar_witness :
  exists da db : Z,
    _get_days "1999-12-31" = Ok da /\ _get_days "2000-1-1" = Ok db /\
    (da < db <->
     datetime_ltb (Datetime.mk_datetime 1999 12 31) (Datetime.mk_datetime 2000 1 1) = true) /\
    (da = db <-> Datetime.mk_datetime 1999 12 31 = Datetime.mk_datetime 2000 1 1).
Proof.
  apply epoch_days_follow_calendar; reflexivity.
Defined.

(** ** Interval statistics and the order of the history *)

Ltac ltb_to_prop :=
  unfold datetime_ltb in *;
  cbn [Datetime.year Datetime.month Datetime.day] in *;
  rewrite ?orb_true_iff, ?andb_true_iff, ?orb_false_iff, ?andb_false_iff,
    ?Z.ltb_lt, ?Z.ltb_ge, ?Z.eqb_eq, ?Z.eqb_neq in *.

(** The order on dates is a strict total order, so two dates that are not
    below each other are the same date. *)
Lemma datetime_ltb_cases (x y : Datetime.datetime) :
  (datetime_ltb x y = true /\ datetime_ltb y x = false) \/
  (datetime_ltb x y = false /\ datetime_ltb y x = true) \/
  (x = y /\ datetime_ltb x y = false).
Proof.
  destruct x as [x1 x2 x3], y as [y1 y2 y3].
  destruct (datetime_ltb (Datetime.mk_datetime x1 x2 x3) (Datetime.mk_datetime y1 y2 y3)) eqn:Exy;
    destruct (datetime_ltb (Datetime.mk_datetime y1 y2 y3) (Datetime.mk_datetime x1 x2 x3)) eqn:Eyx.
  - exfalso. ltb_to_prop. lia.
  - left. split; reflexivity.
  - right. left. split; reflexivity.
  - right. right. split; [|reflexivity].
    ltb_to_prop. assert (x1 = y1 /\ x2 = y2 /\ x3 = y3) as (-> & -> & ->) by lia. reflexivity.
Qed.

Lemma datetime_ltb_chain (x y a : Datetime.datetime) :
  datetime_ltb x y = true -> datetime_ltb y a = true -> datetime_ltb x a = true.
Proof.
  destruct x, y, a. intros H1 H2. ltb_to_prop. lia.
Qed.

(** Inserting two dates in either order gives the same list. *)
Lemma insert_sorted_comm (x y : Datetime.datetime) (l : list Datetime.datetime) :
  insert_sorted x (insert_sorted y l) = insert_sorted y (insert_sorted x l).
Proof.
  induction l as [|a l IH].
  - cbn [insert_sorted].
    destruct (datetime_ltb_cases x y) as [[-> ->]|[[-> ->]|[-> ->]]]; reflexivity.
  - cbn [insert_sorted].
    destruct (datetime_ltb y a) eqn:Eya; destruct (datetime_ltb x a) eqn:Exa;
      cbn [insert_sorted]; rewrite ?Eya, ?Exa.
    + destruct (datetime_ltb_cases x y) as [[-> ->]|[[-> ->]|[-> ->]]];
        rewrite ?Eya, ?Exa; reflexivity.
    + destruct (datetime_ltb x y) eqn:Exy; [|reflexivity].
      rewrite (datetime_ltb_chain x y a Exy Eya) in Exa. discriminate.
    + destruct (datetime_ltb y x) eqn:Eyx; [|reflexivity].
      rewrite (datetime_ltb_chain y x a Eyx Exa) in Eya. discriminate.
    + rewrite IH. reflexivity.
Qed.

Lemma sorted_permutation (l l' : list Datetime.datetime) :
  Permutation l l' -> sorted l = sorted l'.
Proof.
  unfold sorted. intros P.
  assert (G : forall acc, fold_left (fun acc x => insert_sorted x acc) l acc
                          = fold_left (fun acc x => insert_sorted x acc) l' acc).
  { induction P as [|x l l' _ IH|x y l|l l' l'' _ IH1 _ IH2]; intros acc; cbn [fold_left].
    - reflexivity.
    - apply IH.
    - rewrite insert_sorted_comm. reflexivity.
    - rewrite IH1. apply IH2. }
  apply G.
Qed.

Lemma mapM_ok_forall2 {A B : Type} (f : A -> result B) (l : list A) (r : list B) :
  mapM f l = Ok r <-> Forall2 (fun a b => f a = Ok b) l r.
Proof.
  revert r. induction l as [|a l IH]; intros r; cbn [mapM].
  - split; [intros H; injection H as <-; constructor | intros H; inversion H; reflexivity].
  - split.
    + intros H. destruct (f a) as [b|] eqn:Ea; cbn [bind] in H; [|discriminate].
      destruct (mapM f l) as [bs|] eqn:El; cbn [bind] in H; [|discriminate].
      injection H as <-. constructor; [exact Ea | apply IH; reflexivity].
    + intros H. inversion H as [|? b ? bs Hb Hl]; subst.
      rewrite Hb. cbn [bind]. rewrite (proj2 (IH bs) Hl). reflexivity.
Qed.

(** Parsing a permuted history gives the permuted list of dates. *)
Lemma mapM_permutation {A B : Type} (f : A -> result B) (l l' : list A) (r : list B) :
  Permutation l l' -> mapM f l = Ok r ->
  exists r', mapM f l' = Ok r' /\ Permutation r r'.
Proof.
  intros P. revert r.
  induction P as [|x l l' _ IH|x y l|l l' l'' _ IH1 _ IH2]; intros r H.
  - exists r. split; [exact H | apply Permutation_refl].
  - cbn [mapM] in *. destruct (f x) as [b|]; cbn [bind] in *; [|discriminate].
    destruct (mapM f l) as [bs|] eqn:El; cbn [bind] in H; [|discriminate].
    injection H as <-. destruct (IH bs eq_refl) as (bs' & -> & Pb).
    cbn [bind]. eexists. split; [reflexivity | apply perm_skip; exact Pb].
  - cbn [mapM] in *.
    destruct (f y) as [by'|]; cbn [bind] in *; [|discriminate].
    destruct (f x) as [bx|]; cbn [bind] in *; [|discriminate].
    destruct (mapM f l) as [bs|]; cbn [bind] in *; [|discriminate].
    injection H as <-. eexists. split; [reflexivity | apply perm_swap].
  - destruct (IH1 r H) as (r1 & H1 & P1). destruct (IH2 r1 H1) as (r2 & H2 & P2).
    exists r2. split; [exact H2 | eapply Permutation_trans; eassumption].
Qed.

Lemma countM_pure {A : Type} (f : A -> bool) (l : list A) :
  countM (fun a => Ok (f a)) l = Ok (len (filter f l)).
Proof.
  unfold len. induction l as [|a l IH]; [reflexivity|].
  cbn [countM filter bind]. rewrite IH. cbn [bind].
  destruct (f a); [|reflexivity].
  rewrite length_cons, Nat2Z.inj_succ. f_equal. lia.
Qed.

Lemma countM_ext {A : Type} (f g : A -> result bool) (l : list A) :
  (forall a, f a = g a) -> countM f l = countM g l.
Proof.
  intros H. induction l as [|a l IH]; [reflexivity|].
  cbn [countM]. rewrite H, IH. reflexivity.
Qed.

Lemma filter_length_permutation {A : Type} (f : A -> bool) (l l' : list A) :
  Permutation l l' -> List.length (filter f l) = List.length (filter f l').
Proof.
  induction 1 as [|x l l' _ IH|x y l|l l' l'' _ IH1 _ IH2]; cbn [filter].
  - reflexivity.
  - destruct (f x); simpl; congruence.
  - destruct (f x), (f y); reflexivity.
  - congruence.
Qed.

(** The record of the interval statistics depends on the order of the
    history only through the amount of its first entry: two orderings of
    the same entries that begin with the same amount give the same result,
    the same exception included. *)
Theorem intervals_depend_on_order_through_first_amount (h h' : list Transaction) :
  Permutation h h' ->
  hd_error (map amount h) = hd_error (map amount h') ->
  get_transaction_intervals h = get_transaction_intervals h'.
Proof.
  intros P Hhd.
  unfold get_transaction_intervals, transaction_intervals_with.
  assert (Hlen : len h = len h') by (unfold len; rewrite (Permutation_length P); reflexivity).
  rewrite <- Hlen.
  destruct (len h <? 2); [reflexivity|].
  destruct (mapM (fun trans => Datetime.strptime (date trans)) h) as [parsed|e] eqn:Em.
  - destruct (mapM_permutation _ h h' parsed P Em) as (parsed' & -> & Pp).
    cbn [bind]. rewrite <- (sorted_permutation parsed parsed' Pp).
    assert (Hamt : len (map amount h) = len (map amount h'))
      by (unfold len; rewrite !length_map, (Permutation_length P); reflexivity).
    assert (Hcnt : forall base,
               (base =? 0)%float = false ->
               countM (fun amt => q <- PyFloat.truediv (abs (amt - base)) base ;;
                                  Ok (q <=? 0.05)%float) (map amount h)
               = countM (fun amt => q <- PyFloat.truediv (abs (amt - base)) base ;;
                                    Ok (q <=? 0.05)%float) (map amount h')).
    { intros base Hb.
      rewrite (countM_ext _ (fun amt => Ok (abs (amt - base) / base <=? 0.05)%float) (map amount h))
        by (intros a; unfold PyFloat.truediv; rewrite Hb; reflexivity).
      rewrite (countM_ext _ (fun amt => Ok (abs (amt - base) / base <=? 0.05)%float) (map amount h'))
        by (intros a; unfold PyFloat.truediv; rewrite Hb; reflexivity).
      rewrite !countM_pure. unfold len.
      rewrite (filter_length_permutation _ _ _ (Permutation_map amount P)). reflexivity. }
    destruct (match day_gaps (sorted parsed) with
              | [] => Ok (VFloat 0)
              | _ :: _ => Statistics.mean (day_gaps (sorted parsed))
              end); [|reflexivity]. cbn [bind].
    destruct (if 1 <? len (day_gaps (sorted parsed))
              then Statistics.stdev (day_gaps (sorted parsed)) else Ok 0%float);
      [|reflexivity]. cbn [bind].
    destruct (match day_gaps (sorted parsed) with
              | [] => Ok 0%float
              | _ :: _ => _
              end); [|reflexivity]. cbn [bind].
    unfold Py.index. rewrite !nth_error_0, <- Hhd.
    destruct (hd_error (map amount h)) as [base|]; [|reflexivity]. cbn [bind].
    rewrite <- Hamt.
    destruct (base =? 0)%float eqn:Hb; [reflexivity|].
    rewrite (Hcnt base Hb). reflexivity.
  - destruct (mapM_strptime_raises h e Em) as [-> N].
    destruct (mapM (fun trans => Datetime.strptime (date trans)) h') as [parsed'|e'] eqn:Em'.
    + exfalso. apply N.
      destruct (mapM_permutation _ h' h parsed' (Permutation_sym P) Em') as (r & Hr & _).
      congruence.
    + destruct (mapM_strptime_raises h' e' Em') as [-> _]. reflexivity.
Qed.

Lemma intervals_depend_on_order_through_first_amount_witness :
  get_transaction_intervals
    [mk_transaction "Netflix" "2024-03-01" 9.99;
     mk_transaction "Netflix" "2024-01-01" 9.99;
     mk_transaction "Netflix" "2024-02-01" 12.5]
  = get_transaction_intervals
      [mk_transaction "Netflix" "2024-01-01" 9.99;
       mk_transaction "Netflix" "2024-02-01" 12.5;
       mk_transaction "Netflix" "2024-03-01" 9.99].
Proof.
  apply intervals_depend_on_order_through_first_amount; [|reflexivity].
  apply Permutation_cons_app with (l1 := [_; _]) (l2 := []). apply Permutation_refl.
Defined.

(** With another first amount the record can change: the baseline of
    [same_amount] is the first entry as given, not as sorted. *)
Example same_amount_depends_on_first_entry :
  feature_is (get_transaction_intervals
                [mk_transaction "a" "2024-01-01" (-10); mk_transaction "b" "2024-02-01" 5])
             "same_amount" (VFloat 1) = true /\
  feature_is (get_transaction_intervals
                [mk_transaction "b" "2024-02-01" 5; mk_transaction "a" "2024-01-01" (-10)])
             "same_amount" (VFloat 0.5) = true.
Proof. vm_compute. split; reflexivity. Qed.

(** ** Interval statistics of an evenly spaced history *)

Lemma insert_sorted_last (x : Datetime.datetime) (acc : list Datetime.datetime) :
  Forall (fun y => datetime_ltb x y = false) acc -> insert_sorted x acc = acc ++ [x].
Proof.
  induction 1 as [|y acc Hy _ IH]; [reflexivity|].
  cbn [insert_sorted]. rewrite Hy, IH. reflexivity.
Qed.

Lemma not_below_earlier (x y : Datetime.datetime) :
  valid x -> valid y -> ordinal_le y x -> datetime_ltb x y = false.
Proof.
  intros Vx Vy H. destruct (datetime_ltb x y) eqn:E; [|reflexivity].
  pose proof (toordinal_lt x y Vx Vy E). unfold ordinal_le in H. lia.
Qed.

(** Dates already in calendar order are left as they are. *)
Lemma sorted_of_ordered (l : list Datetime.datetime) :
  Forall valid l -> StronglySorted ordinal_le l -> sorted l = l.
Proof.
  unfold sorted. intros V S.
  assert (G : forall acc,
             Forall valid acc ->
             Forall (fun y => Forall (ordinal_le y) l) acc ->
             fold_left (fun acc x => insert_sorted x acc) l acc = acc ++ l).
  { induction l as [|x l IH]; intros acc Va Hacc; cbn [fold_left].
    - rewrite app_nil_r. reflexivity.
    - inversion V as [|? ? Vx Vl]; subst. inversion S as [|? ? Sl Hx]; subst.
      rewrite insert_sorted_last.
      + rewrite (IH Vl Sl).
        * rewrite <- app_assoc. reflexivity.
        * apply Forall_app. split; [exact Va | repeat constructor; exact Vx].
        * apply Forall_app. split.
          -- eapply Forall_impl; [|exact Hacc]. cbv beta. intros y Hy.
             inversion Hy; assumption.
          -- repeat constructor. exact Hx.
      + rewrite Forall_forall in *. intros y Hy.
        apply not_below_earlier; [exact Vx | apply Va; exact Hy |].
        specialize (Hacc y Hy). inversion Hacc; assumption. }
  apply (G []); constructor.
Qed.

Lemma spaced_ordered (g : Z) (l : list Datetime.datetime) :
  0 <= g -> spaced g l -> StronglySorted ordinal_le l.
Proof.
  intros Hg H. apply Sorted_StronglySorted.
  - intros a b c. unfold ordinal_le. lia.
  - induction l as [|a l IH]; [constructor|].
    destruct l as [|b l]; [repeat constructor|].
    destruct H as [H1 H2]. constructor; [apply IH; exact H2|].
    constructor. unfold ordinal_le. lia.
Qed.

Lemma spaced_gaps (g : Z) (l : list Datetime.datetime) :
  spaced g l -> day_gaps l = repeat g (pred (List.length l)).
Proof.
  induction l as [|a l IH]; [reflexivity|].
  destruct l as [|b l]; [reflexivity|].
  intros [H1 H2]. change (day_gaps (a :: b :: l)) with (Datetime.sub_days b a :: day_gaps (b :: l)).
  rewrite (IH H2). unfold Datetime.sub_days. rewrite H1.
  cbn [List.length pred repeat]. f_equal. lia.
Qed.

Lemma get_days_ordinal (s : string) (n : Z) :
  _get_days s = Ok n ->
  exists d, Datetime.strptime s = Ok d /\
            n = Datetime.toordinal d - Datetime.toordinal Datetime.epoch.
Proof.
  unfold _get_days. destruct (Datetime.strptime s) as [d|]; cbn [bind]; [|discriminate].
  intros H. injection H as <-. exists d. split; reflexivity.
Qed.

Lemma evenly_spaced_cons (g : Z) (a b : Transaction) (h : list Transaction) :
  evenly_spaced g (a :: b :: h) =
  match _get_days (date a), _get_days (date b) with
  | Ok da, Ok db => (db =? da + g) && evenly_spaced g (b :: h)
  | _, _ => false
  end.
Proof. reflexivity. Qed.

(** An evenly spaced history parses into evenly spaced dates. *)
Lemma evenly_spaced_parse (g : Z) (h : list Transaction) :
  forall (a : Transaction) (da : Datetime.datetime),
    Datetime.strptime (date a) = Ok da ->
    evenly_spaced g (a :: h) = true ->
    exists parsed,
      mapM (fun trans => Datetime.strptime (date trans)) h = Ok parsed /\
      Forall valid parsed /\ spaced g (da :: parsed) /\
      List.length parsed = List.length h.
Proof.
  induction h as [|b h IH]; intros a da Ha H.
  - exists []. repeat split; constructor.
  - rewrite evenly_spaced_cons in H.
    destruct (_get_days (date a)) as [na|] eqn:Ea; [|discriminate].
    destruct (_get_days (date b)) as [nb|] eqn:Eb; [|discriminate].
    apply andb_prop in H as [Hg Hrest]. apply Z.eqb_eq in Hg.
    destruct (get_days_ordinal _ _ Ea) as (da' & Ha' & Hna).
    destruct (get_days_ordinal _ _ Eb) as (db & Hb & Hnb).
    assert (da' = da) by congruence. subst da'.
    destruct (IH b db Hb Hrest) as (parsed & Hp & Hv & Hs & Hl).
    exists (db :: parsed). cbn [mapM]. rewrite Hb, Hp. cbn [bind].
    repeat split.
    + constructor; [eapply strptime_valid; exact Hb | exact Hv].
    + lia.
    + exact Hs.
    + cbn [List.length]. congruence.
Qed.

Lemma sum_repeat (g : Z) (k : nat) : Statistics.sum (repeat g k) = Z.of_nat k * g.
Proof.
  induction k as [|k IH]; [reflexivity|].
  cbn [repeat]. rewrite sum_cons, IH. lia.
Qed.

Lemma sum_squares_repeat (g : Z) (k : nat) :
  Statistics.sum (map (fun x => x * x) (repeat g k)) = Z.of_nat k * (g * g).
Proof.
  induction k as [|k IH]; [reflexivity|].
  cbn [repeat map]. rewrite sum_cons, IH. lia.
Qed.

(** The mean of equal ints is that int, as an int. *)
Lemma mean_repeat (g : Z) (k : nat) :
  (1 <= k)%nat -> 0 <= g -> Statistics.mean (repeat g k) = Ok (VInt g).
Proof.
  intros Hk Hg. unfold Statistics.mean, Statistics.len.
  rewrite repeat_length, sum_repeat.
  destruct (Z.of_nat k <? 1) eqn:E; [apply Z.ltb_lt in E; lia|].
  cbv zeta.
  assert (Hgcd : Z.gcd (Z.of_nat k * g) (Z.of_nat k) = Z.of_nat k).
  { rewrite Z.gcd_comm. apply Z.gcd_mul_diag_l. lia. }
  rewrite Hgcd, Z.div_same by lia. cbn [Z.eqb Pos.eqb].
  rewrite Z.mul_comm, Z.div_mul by lia. reflexivity.
Qed.

(** The standard deviation of equal ints is [0.0]. *)
Lemma stdev_repeat (g : Z) (k : nat) :
  (2 <= k)%nat -> Statistics.stdev (repeat g k) = Ok 0%float.
Proof.
  intros Hk. unfold Statistics.stdev, Statistics.len.
  rewrite repeat_length, sum_repeat, sum_squares_repeat.
  destruct (Z.of_nat k <? 2) eqn:E; [apply Z.ltb_lt in E; lia|].
  cbv zeta.
  replace (Z.of_nat k * (Z.of_nat k * (g * g)) - Z.of_nat k * g * (Z.of_nat k * g)) with 0 by ring.
  assert (HD : 0 < Z.of_nat k * (Z.of_nat k - 1)) by nia.
  rewrite Z.gcd_0_l, Z.abs_eq by lia.
  rewrite Z.div_0_l, Z.div_same by lia.
  reflexivity.
Qed.

Lemma filter_repeat {A : Type} (f : A -> bool) (x : A) (k : nat) :
  filter f (repeat x k) = if f x then repeat x k else [].
Proof.
  induction k as [|k IH]; [destruct (f x); reflexivity|].
  cbn [repeat filter]. rewrite IH. destruct (f x); reflexivity.
Qed.

Lemma weekday_step (a b : Datetime.datetime) (g : Z) :
  Datetime.toordinal b = Datetime.toordinal a + g ->
  (Datetime.weekday a = Datetime.weekday b <-> g mod 7 = 0).
Proof.
  unfold Datetime.weekday. intros ->. split; intros H; Z.div_mod_to_equations; lia.
Qed.

(** Evenly spaced dates fall on one weekday exactly when the spacing is a
    whole number of weeks. *)
Lemma spaced_weekdays (g : Z) (a b : Datetime.datetime) (l : list Datetime.datetime) :
  spaced g (a :: b :: l) ->
  (n_distinct (map Datetime.weekday (a :: b :: l)) =? 1) = (g mod 7 =? 0).
Proof.
  intros H. unfold n_distinct, len.
  destruct (g mod 7 =? 0) eqn:E.
  - apply Z.eqb_eq in E.
    assert (G : forall l a, spaced g (a :: l) ->
                nodup Z.eq_dec (map Datetime.weekday (a :: l)) = [Datetime.weekday a]).
    { clear - E. induction l as [|b l IH]; intros a H; [reflexivity|].
      destruct H as [H1 H2]. specialize (IH b H2).
      apply (weekday_step a b g H1) in E.
      change (map Datetime.weekday (a :: b :: l))
        with (Datetime.weekday a :: map Datetime.weekday (b :: l)).
      cbn [nodup]. rewrite IH, E.
      destruct (in_dec Z.eq_dec (Datetime.weekday b) (map Datetime.weekday (b :: l))) as [_|N];
        [reflexivity|].
      exfalso. apply N. left. reflexivity. }
    rewrite (G _ _ H). reflexivity.
  - apply Z.eqb_neq in E. apply Z.eqb_neq.
    destruct H as [H1 _].
    assert (Hne : Datetime.weekday a <> Datetime.weekday b)
      by (intros W; apply E; apply (weekday_step a b g H1); exact W).
    assert (Hlen : (2 <= List.length (nodup Z.eq_dec (map Datetime.weekday (a :: b :: l))))%nat).
    { change 2%nat with (List.length [Datetime.weekday a; Datetime.weekday b]).
      apply NoDup_incl_length.
      - constructor; [intros [W|[]]; congruence | repeat constructor; intros []].
      - intros w [<-|[<-|[]]]; apply nodup_In; cbn [map In]; auto. }
    lia.
Qed.

(** The share of amounts near the first one is always returned on a
    non-empty history. *)
Lemma same_amount_share_returns (h : list Transaction) :
  h <> [] ->
  returns (base_amount <- Py.index (map amount h) 0 ;;
           (if (base_amount =? 0)%float then Ok 0%float
            else n <- countM (fun amt =>
                                q <- PyFloat.truediv (abs (amt - base_amount)) base_amount ;;
                                Ok (q <=? 0.05)%float)
                             (map amount h) ;;
                 PyFloat.int_truediv n (len (map amount h)))).
Proof.
  destruct h as [|t0 h']; [congruence|]. intros _.
  cbn [map Py.index nth_error bind].
  destruct (amount t0 =? 0)%float eqn:Ez; [eexists; reflexivity|].
  destruct (countM_total
              (fun amt => q <- PyFloat.truediv (abs (amt - amount t0)) (amount t0) ;;
                          Ok (q <=? 0.05)%float)
              (amount t0 :: map amount h')) as (n & Hn & Hb).
  - apply Forall_forall. intros a _. unfold PyFloat.truediv. rewrite Ez. eexists; reflexivity.
  - rewrite Hn. cbn [bind].
    apply int_truediv_ratio_returns; [exact Hb | unfold len; simpl List.length; lia].
Qed.

(** A history that holds, in any order, at least two entries spaced [g]
    days apart has [g] itself as its average interval (an int), a standard
    deviation of [0.0], a monthly recurrence of [1.0] when [23 <= g <= 38]
    and of [0.0] otherwise, and the same-weekday flag set exactly when [g]
    is a whole number of weeks. *)
Theorem evenly_spaced_history_statistics (h h' : list Transaction) (g : Z) :
  0 <= g -> (2 <= List.length h)%nat -> evenly_spaced g h = true -> Permutation h h' ->
  exists ca : float,
    get_transaction_intervals h' =
    Ok [("avg_days_between_transactions", VInt g);
        ("std_dev_days_between_transactions", VFloat 0);
        ("monthly_recurrence", VFloat (if ((23 <=? g) && (g <=? 38))%Z then 1 else 0));
        ("same_weekday", VInt (if (g mod 7 =? 0)%Z then 1 else 0));
        ("same_amount", VFloat ca)]%string.
Proof.
  intros Hg Hlen Hsp P.
  destruct h as [|a [|b h]]; cbn [List.length] in Hlen; try lia.
  assert (Ha : exists da, Datetime.strptime (date a) = Ok da).
  { rewrite evenly_spaced_cons in Hsp.
    destruct (_get_days (date a)) as [na|] eqn:Ea; [|discriminate].
    destruct (get_days_ordinal _ _ Ea) as (da & Hda & _). exists da. exact Hda. }
  destruct Ha as [da Ha].
  destruct (evenly_spaced_parse g (b :: h) a da Ha Hsp) as (parsed & Hp & Hv & Hs & Hl).
  assert (Hall : mapM (fun trans => Datetime.strptime (date trans)) (a :: b :: h)
                 = Ok (da :: parsed))
    by (cbn [mapM] in *; rewrite Ha, Hp; reflexivity).
  destruct (mapM_permutation _ _ _ _ P Hall) as (parsed' & Hp' & Pp).
  assert (Hva : Forall valid (da :: parsed))
    by (constructor; [eapply strptime_valid; exact Ha | exact Hv]).
  assert (Hsorted : sorted parsed' = da :: parsed).
  { rewrite <- (sorted_permutation _ _ Pp).
    apply sorted_of_ordered; [exact Hva | eapply spaced_ordered; eassumption]. }
  destruct (same_amount_share_returns h') as [ca Hca].
  { intros E. subst h'. apply Permutation_length in P. discriminate. }
  exists ca.
  unfold get_transaction_intervals, transaction_intervals_with.
  assert (Hlen' : List.length h' = S (S (List.length h)))
    by (rewrite <- (Permutation_length P); reflexivity).
  destruct (len h' <? 2) eqn:E; [apply Z.ltb_lt in E; unfold len in E; lia|]. clear E.
  rewrite Hp'. cbn [bind]. rewrite Hsorted, (spaced_gaps g _ Hs).
  destruct parsed as [|db parsed]; [discriminate|].
  rewrite (spaced_weekdays g da db parsed Hs).
  cbn [List.length pred]. set (k := List.length parsed).
  assert (M : forall (A : Type) (x y : A),
             match repeat g (S k) with [] => x | _ :: _ => y end = y) by reflexivity.
  rewrite !M, (mean_repeat g (S k)) by lia. cbn [bind].
  assert (Hstd : (if 1 <? len (repeat g (S k)) then Statistics.stdev (repeat g (S k))
                  else Ok 0%float) = Ok 0%float).
  { destruct (1 <? len (repeat g (S k))) eqn:E; [|reflexivity].
    apply Z.ltb_lt in E. unfold len in E. rewrite repeat_length in E.
    apply stdev_repeat. lia. }
  rewrite Hstd. cbn [bind].
  rewrite filter_repeat.
  assert (Hmon : PyFloat.int_truediv
                   (len (if (23 <=? g) && (g <=? 38) then repeat g (S k) else []))
                   (len (repeat g (S k)))
                 = Ok (if (23 <=? g) && (g <=? 38) then 1%float else 0%float)).
  { unfold len. rewrite repeat_length.
    destruct ((23 <=? g) && (g <=? 38)).
    - rewrite repeat_length. apply int_truediv_self. lia.
    - apply int_truediv_zero. lia. }
  rewrite Hmon. cbn [bind].
  destruct (Py.index (map amount h') 0) as [base|]; cbn [bind] in Hca |- *; [|discriminate].
  rewrite Hca. reflexivity.
Qed.

Lemma evenly_spaced_history_statistics_witness :
  exists ca : float,
    get_transaction_intervals
      [mk_transaction "Gym" "2024-03-01" 30;
       mk_transaction "Gym" "2024-01-01" 30;
       mk_transaction "Gym" "2024-01-31" 25]
    = Ok [("avg_days_between_transactions", VInt 30);
          ("std_dev_days_between_transactions", VFloat 0);
          ("monthly_recurrence", VFloat 1);
          ("same_weekday", VInt 0);
          ("same_amount", VFloat ca)]%string.
Proof.
  apply (evenly_spaced_history_statistics
           [mk_transaction "Gym" "2024-01-01" 30;
            mk_transaction "Gym" "2024-01-31" 25;
            mk_transaction "Gym" "2024-03-01" 30]
           _ 30).
  - lia.
  - simpl. lia.
  - vm_compute. reflexivity.
  - apply Permutation_sym.
    apply Permutation_cons_app with (l1 := [_; _]) (l2 := []). apply Permutation_refl.
Defined.

(** ** Vendor classifiers find nothing but a term between boundaries *)







(** A term inside a longer word, or run together with digits, is not
    found. *)
Example classifiers_skip_embedded_terms :
  get_is_utility (mk_transaction "Gasoline station" "2024-01-01" 40) = false /\
  get_is_utility (mk_transaction "CABLES4U" "2024-01-01" 40) = false /\
  get_is_always_recurring (mk_transaction "netflix2" "2024-01-01" 40) = false /\
  get_is_always_recurring (mk_transaction "netflix.com" "2024-01-01" 40) = true.
Proof. repeat split. Qed.

(** ** The counts and the order of the history *)

Lemma countM_permutation {A : Type} (test : A -> result bool) (l l' : list A) (n : Z) :
  Permutation l l' -> countM test l = Ok n -> countM test l' = Ok n.
Proof.
  intros P. revert n.
  induction P as [|x l l' _ IH|x y l|l l' l'' _ IH1 _ IH2]; intros n H.
  - exact H.
  - cbn [countM] in *. destruct (test x) as [b|]; cbn [bind] in *; [|discriminate].
    destruct (countM test l) as [m|]; cbn [bind] in *; [|discriminate].
    rewrite (IH m eq_refl). exact H.
  - cbn [countM] in *.
    destruct (test y) as [b1|]; cbn [bind] in *; [|discriminate].
    destruct (test x) as [b2|]; cbn [bind] in *; [|discriminate].
    destruct (countM test l) as [m|]; cbn [bind] in *; [|discriminate].
    injection H as <-. destruct b1, b2; reflexivity.
  - apply IH2, IH1, H.
Qed.

Lemma len_filter_permutation {A : Type} (f : A -> bool) (l l' : list A) :
  Permutation l l' -> len (filter f l) = len (filter f l').
Proof.
  intros P. unfold len. rewrite (filter_length_permutation f l l' P). reflexivity.
Qed.

(** The counts over the history do not depend on the order of its entries:
    with a gap other than zero the days-apart count gives the same result,
    count or exception, and so do the same-vendor count, the same-amount
    count and the same-amount share; the same-day count, when it returns,
    returns the same count. *)
Theorem counts_ignore_history_order
  (t : Transaction) (h h' : list Transaction) (g k : Z) :
  Permutation h h' -> g <> 0 ->
  get_n_transactions_days_apart t h g k = get_n_transactions_days_apart t h' g k /\
  get_n_transactions_same_vendor t h = get_n_transactions_same_vendor t h' /\
  get_n_transactions_same_amount t h = get_n_transactions_same_amount t h' /\
  get_percent_transactions_same_amount t h = get_percent_transactions_same_amount t h' /\
  (forall n, get_n_transactions_same_day t h k = Ok n ->
             get_n_transactions_same_day t h' k = Ok n).
Proof.
  intros P Hg. repeat split.
  - unfold get_n_transactions_days_apart.
    destruct (_get_days (date t)) as [d0|e]; cbn [bind]; [|reflexivity].
    destruct (history_days h) as [ds|e] eqn:E.
    + destruct (mapM_permutation _ _ _ _ P E) as (ds' & E' & Pd).
      rewrite (days_apart_loop_spec d0 g k h Hg ds 0 E),
        (days_apart_loop_spec d0 g k h' Hg ds' 0 E').
      unfold days_apart_count. rewrite (len_filter_permutation _ _ _ Pd). reflexivity.
    + rewrite (days_apart_loop_raises d0 g k h Hg e 0 E).
      destruct (history_days h') as [ds'|e'] eqn:E'.
      * destruct (mapM_permutation _ _ _ _ (Permutation_sym P) E') as (ds & E2 & _).
        unfold history_days in E. congruence.
      * rewrite (days_apart_loop_raises d0 g k h' Hg e' 0 E'). reflexivity.
  - unfold get_n_transactions_same_vendor. apply len_filter_permutation, P.
  - unfold get_n_transactions_same_amount. apply len_filter_permutation, P.
  - unfold get_percent_transactions_same_amount.
    rewrite (len_filter_permutation _ _ _ P).
    assert (Hl : len h = len h') by (unfold len; rewrite (Permutation_length P); reflexivity).
    rewrite Hl.
    destruct h as [|a h]; destruct h' as [|a' h'']; try reflexivity.
    + apply Permutation_nil in P. discriminate.
    + apply Permutation_sym, Permutation_nil in P. discriminate.
  - intros n. unfold get_n_transactions_same_day. apply countM_permutation, P.
Qed.

Lemma counts_ignore_history_order_witness :
  get_n_transactions_days_apart (mk_transaction "Gym" "2024-01-15" 30)
    [mk_transaction "Gym" "2024-01-01" 30; mk_transaction "Gym" "2024-01-29" 30] 14 0
  = get_n_transactions_days_apart (mk_transaction "Gym" "2024-01-15" 30)
      [mk_transaction "Gym" "2024-01-29" 30; mk_transaction "Gym" "2024-01-01" 30] 14 0.
Proof.
  apply (counts_ignore_history_order (mk_transaction "Gym" "2024-01-15" 30) _ _ 14 0).
  - apply perm_swap.
  - lia.
Defined.

(** Which exception is raised can depend on the order: the same-day count
    stops at the first entry that fails, and with a gap of zero the
    days-apart count divides by zero at the first entry it reaches. *)
Example exceptions_depend_on_history_order :
  get_n_transactions_same_day (mk_transaction "a" "2024-01-15" 1)
    [mk_transaction "b" "2024-01" 1; mk_transaction "c" "2024-01-xx" 1] 0
  = Raise IndexError /\
  get_n_transactions_same_day (mk_transaction "a" "2024-01-15" 1)
    [mk_transaction "c" "2024-01-xx" 1; mk_transaction "b" "2024-01" 1] 0
  = Raise ValueError /\
  get_n_transactions_days_apart (mk_transaction "a" "2024-01-15" 1)
    [mk_transaction "b" "2024-01-20" 1; mk_transaction "c" "2024-01" 1] 0 0
  = Raise ZeroDivisionError /\
  get_n_transactions_days_apart (mk_transaction "a" "2024-01-15" 1)
    [mk_transaction "c" "2024-01" 1; mk_transaction "b" "2024-01-20" 1] 0 0
  = Raise ValueError.
Proof. repeat split. Qed.

(** ** The same-weekday flag and the day of the week *)

Lemma insert_sorted_permutation (x : Datetime.datetime) (l : list Datetime.datetime) :
  Permutation (insert_sorted x l) (x :: l).
Proof.
  induction l as [|y l IH]; cbn [insert_sorted]; [apply Permutation_refl|].
  destruct (datetime_ltb x y); [apply Permutation_refl|].
  eapply Permutation_trans; [apply perm_skip; exact IH | apply perm_swap].
Qed.

(** Sorting keeps the dates, each as often as it was there. *)
Lemma sorted_is_permutation (l : list Datetime.datetime) : Permutation (sorted l) l.
Proof.
  unfold sorted.
  assert (G : forall acc, Permutation (fold_left (fun acc x => insert_sorted x acc) l acc)
                                      (acc ++ l)).
  { induction l as [|x l IH]; intros acc; cbn [fold_left].
    - rewrite app_nil_r. apply Permutation_refl.
    - eapply Permutation_trans; [apply IH|].
      eapply Permutation_trans;
        [apply Permutation_app_tail, insert_sorted_permutation|].
      cbn [app]. apply Permutation_middle. }
  apply (G []).
Qed.

(** One distinct value: a list that is not empty and holds one value only. *)
Lemma n_distinct_one (l : list Z) :
  n_distinct l = 1 <-> l <> [] /\ forall a b, In a l -> In b l -> a = b.
Proof.
  unfold n_distinct, len. split.
  - intros H.
    destruct (nodup Z.eq_dec l) as [|w [|w' r]] eqn:E; cbn [List.length] in H; try lia.
    split.
    + intros ->. discriminate.
    + assert (Hw : forall a, In a l -> a = w).
      { intros a Ha. apply (nodup_In Z.eq_dec) in Ha. rewrite E in Ha.
        destruct Ha as [<-|[]]. reflexivity. }
      intros a b Ha Hb. rewrite (Hw a Ha), (Hw b Hb). reflexivity.
  - intros [Hne Heq].
    destruct l as [|w l]; [congruence|].
    assert (Hle : (List.length (nodup Z.eq_dec (w :: l)) <= List.length [w])%nat).
    { apply NoDup_incl_length; [apply NoDup_nodup|].
      intros a Ha. apply nodup_In in Ha. left. apply Heq; [left; reflexivity | exact Ha]. }
    assert (Hge : (1 <= List.length (nodup Z.eq_dec (w :: l)))%nat).
    { assert (Hin : In w (nodup Z.eq_dec (w :: l))) by (apply nodup_In; left; reflexivity).
      destruct (nodup Z.eq_dec (w :: l)); [destruct Hin | cbn [List.length]; lia]. }
    cbn [List.length] in Hle. lia.
Qed.

Lemma day_of_week_of_parse (t : Transaction) (d : Datetime.datetime) :
  Datetime.strptime (date t) = Ok d -> get_day_of_week t = Ok (Datetime.weekday d).
Proof. intros H. unfold get_day_of_week. rewrite H. reflexivity. Qed.

Lemma forall2_in_l {A B : Type} (R : A -> B -> Prop) (l : list A) (r : list B) (a : A) :
  Forall2 R l r -> In a l -> exists b, In b r /\ R a b.
Proof.
  induction 1 as [|x y l r Hxy _ IH]; intros Hin; [destruct Hin|].
  destruct Hin as [<-|Hin].
  - exists y. split; [left; reflexivity | exact Hxy].
  - destruct (IH Hin) as (b & Hb & Hab). exists b. split; [right; exact Hb | exact Hab].
Qed.

Lemma forall2_in_r {A B : Type} (R : A -> B -> Prop) (l : list A) (r : list B) (b : B) :
  Forall2 R l r -> In b r -> exists a, In a l /\ R a b.
Proof.
  induction 1 as [|x y l r Hxy _ IH]; intros Hin; [destruct Hin|].
  destruct Hin as [<-|Hin].
  - exists x. split; [left; reflexivity | exact Hxy].
  - destruct (IH Hin) as (a & Ha & Hab). exists a. split; [right; exact Ha | exact Hab].
Qed.

(** On a history of at least two entries whose dates parse, the
    [same_weekday] flag of the interval statistics is 1 exactly when
    [get_day_of_week] gives one answer for all entries, and 0 otherwise. *)
Theorem same_weekday_iff_days_of_week_agree (h : list Transaction) :
  (2 <= List.length h)%nat ->
  Forall (fun t => returns (Datetime.strptime (date t))) h ->
  exists (d : dict) (sw : Z),
    get_transaction_intervals h = Ok d /\
    dict_get d "same_weekday" = Some (VInt sw) /\
    (sw = 1 \/ sw = 0) /\
    (sw = 1 <-> forall a b, In a h -> In b h -> get_day_of_week a = get_day_of_week b).
Proof.
  intros Hlen HF.
  destruct (intervals_shape h Hlen HF) as (avg & sd & mr & ca & sw & E & Hsw).
  eexists. exists sw. split; [exact E|]. split; [reflexivity|]. split; [tauto|].
  unfold get_transaction_intervals, transaction_intervals_with in E.
  destruct (len h <? 2) eqn:E2; [apply Z.ltb_lt in E2; unfold len in E2; lia|]. clear E2.
  destruct (mapM (fun trans => Datetime.strptime (date trans)) h) as [parsed|] eqn:Em;
    cbn [bind] in E; [|discriminate].
  repeat match type of E with
         | bind ?r _ = _ => destruct r; cbn [bind] in E; [|discriminate]
         end.
  injection E as _ _ _ Hw _.
  apply mapM_ok_forall2 in Em.
  assert (Hparsed : parsed <> []).
  { intros ->. inversion Em; subst. cbn [List.length] in Hlen. lia. }
  assert (Hin : forall w, In w (map Datetime.weekday (sorted parsed)) <->
                          exists t, In t h /\ get_day_of_week t = Ok w).
  { intros w. rewrite in_map_iff. split.
    - intros (d & <- & Hd).
      apply (Permutation_in _ (sorted_is_permutation parsed)) in Hd.
      destruct (forall2_in_r _ _ _ _ Em Hd) as (t & Ht & Hp).
      exists t. split; [exact Ht | apply day_of_week_of_parse; exact Hp].
    - intros (t & Ht & Hwd).
      destruct (forall2_in_l _ _ _ _ Em Ht) as (d & Hd & Hp).
      rewrite (day_of_week_of_parse t d Hp) in Hwd. injection Hwd as <-.
      exists d. split; [reflexivity|].
      apply (Permutation_in _ (Permutation_sym (sorted_is_permutation parsed))). exact Hd. }
  assert (Hone : sw = 1 <-> n_distinct (map Datetime.weekday (sorted parsed)) = 1).
  { rewrite <- Hw. destruct (n_distinct _ =? 1) eqn:En.
    - apply Z.eqb_eq in En. tauto.
    - apply Z.eqb_neq in En. split; [discriminate | tauto]. }
  rewrite Hone, n_distinct_one. split.
  - intros [_ Heq] ta tb Hta Htb.
    destruct (forall2_in_l _ _ _ _ Em Hta) as (da & _ & Hpa).
    destruct (forall2_in_l _ _ _ _ Em Htb) as (db & _ & Hpb).
    rewrite (day_of_week_of_parse ta da Hpa), (day_of_week_of_parse tb db Hpb). f_equal.
    apply Heq; apply Hin.
    + exists ta. split; [exact Hta | apply day_of_week_of_parse; exact Hpa].
    + exists tb. split; [exact Htb | apply day_of_week_of_parse; exact Hpb].
  - intros Hall. split.
    + intros Hnil. apply Hparsed.
      apply map_eq_nil in Hnil.
      apply Permutation_nil. rewrite <- Hnil. apply sorted_is_permutation.
    + intros x y Hx Hy.
      apply Hin in Hx as (ta & Hta & Hxa). apply Hin in Hy as (tb & Htb & Hyb).
      rewrite (Hall ta tb Hta Htb) in Hxa. congruence.
Qed.

Lemma same_weekday_iff_days_of_week_agree_witness :
  exists (d : dict) (sw : Z),
    get_transaction_intervals
      [mk_transaction "Gym" "2024-01-01" 30; mk_transaction "Gym" "2024-01-15" 30]
    = Ok d /\
    dict_get d "same_weekday" = Some (VInt sw) /\
    (sw = 1 \/ sw = 0) /\
    (sw = 1 <->
     forall a b,
       In a [mk_transaction "Gym" "2024-01-01" 30; mk_transaction "Gym" "2024-01-15" 30] ->
       In b [mk_transaction "Gym" "2024-01-01" 30; mk_transaction "Gym" "2024-01-15" 30] ->
       get_day_of_week a = get_day_of_week b).
Proof.
  apply same_weekday_iff_days_of_week_agree.
  - simpl. lia.
  - repeat constructor; eexists; vm_compute; reflexivity.
Defined.

(** ** The day of the week and the epoch days *)

(** The day of the week is the epoch day number taken modulo 7, counted from
    the Thursday that 1970-01-01 was. *)
Theorem day_of_week_follows_epoch_days (t : Transaction) (n : Z) :
  _get_days (date t) = Ok n -> get_day_of_week t = Ok ((n + 3) mod 7).
Proof.
  unfold _get_days, get_day_of_week.
  destruct (Datetime.strptime (date t)) as [d|]; cbn [bind except_ValueError]; [|discriminate].
  intros H. injection H as <-. f_equal.
  unfold Datetime.weekday, Datetime.sub_days.
  change (Datetime.toordinal Datetime.epoch) with 719163.
  Z.div_mod_to_equations. lia.
Qed.

Lemma day_of_week_follows_epoch_days_witness :
  get_day_of_week (mk_transaction "Gym" "2024-01-15" 30) = Ok ((19737 + 3) mod 7).
Proof.
  apply day_of_week_follows_epoch_days. vm_compute. reflexivity.
Defined.

(** ** The average interval and the span of the history *)

Lemma insert_sorted_ordered (x : Datetime.datetime) (l : list Datetime.datetime) :
  Sorted date_le l -> Sorted date_le (insert_sorted x l).
Proof.
  induction l as [|y l IH]; intros S.
  - repeat constructor.
  - cbn [insert_sorted]. destruct (datetime_ltb x y) eqn:E.
    + constructor; [exact S|]. constructor. unfold date_le.
      destruct (datetime_ltb_cases x y) as [[_ H]|[[H _]|[_ H]]]; congruence.
    + inversion S as [|? ? Sl Hd]; subst. constructor; [apply IH; exact Sl|].
      destruct l as [|z l]; cbn [insert_sorted].
      * constructor. exact E.
      * destruct (datetime_ltb x z); constructor; [exact E|].
        inversion Hd; assumption.
Qed.

Lemma sorted_ordered (l : list Datetime.datetime) : Sorted date_le (sorted l).
Proof.
  unfold sorted.
  assert (G : forall acc, Sorted date_le acc ->
                          Sorted date_le (fold_left (fun acc x => insert_sorted x acc) l acc)).
  { induction l as [|x l IH]; intros acc S; cbn [fold_left]; [exact S|].
    apply IH, insert_sorted_ordered, S. }
  apply G. constructor.
Qed.

Lemma date_le_trans (a b c : Datetime.datetime) : date_le a b -> date_le b c -> date_le a c.
Proof.
  unfold date_le. destruct a, b, c. intros H1 H2. ltb_to_prop. lia.
Qed.

Lemma date_le_ordinal (a b : Datetime.datetime) :
  valid a -> valid b -> date_le a b -> Datetime.toordinal a <= Datetime.toordinal b.
Proof.
  unfold date_le. intros Va Vb H.
  destruct (datetime_ltb_cases a b) as [[Hab _]|[[_ Hba]|[-> _]]].
  - pose proof (toordinal_lt a b Va Vb Hab). lia.
  - congruence.
  - lia.
Qed.

Lemma last_cons {A : Type} (l : list A) :
  forall a b : A, last (b :: l) a = last l b.
Proof.
  induction l as [|c l IH]; intros a b; [reflexivity|].
  change (last (b :: c :: l) a) with (last (c :: l) a).
  rewrite (IH a c), (IH b c). reflexivity.
Qed.

Lemma in_last {A : Type} (l : list A) (a : A) : In (last l a) (a :: l).
Proof.
  revert a. induction l as [|b l IH]; intros a; [left; reflexivity|].
  right. rewrite last_cons. apply IH.
Qed.

(** The gaps between consecutive dates add up to the distance from the
    first date to the last. *)
Lemma day_gaps_telescope (a : Datetime.datetime) (l : list Datetime.datetime) :
  Statistics.sum (day_gaps (a :: l)) = Datetime.toordinal (last l a) - Datetime.toordinal a.
Proof.
  revert a. induction l as [|b l IH]; intros a.
  - cbn. lia.
  - change (day_gaps (a :: b :: l)) with (Datetime.sub_days b a :: day_gaps (b :: l)).
    rewrite sum_cons, IH, last_cons. unfold Datetime.sub_days. lia.
Qed.

Lemma strongly_sorted_last (a : Datetime.datetime) (l : list Datetime.datetime) :
  StronglySorted date_le (a :: l) ->
  forall x, In x (a :: l) -> x = last l a \/ date_le x (last l a).
Proof.
  revert a. induction l as [|b l IH]; intros a S x Hx.
  - destruct Hx as [<-|[]]. left. reflexivity.
  - inversion S as [|? ? Sl Ha]; subst.
    rewrite last_cons. destruct Hx as [<-|Hx].
    + right. rewrite Forall_forall in Ha. apply Ha, in_last.
    + apply (IH b Sl x Hx).
Qed.

(** The mean of ints is settled by how many there are and what they add up
    to. *)
Lemma mean_of_sum_and_length (l1 l2 : list Z) :
  List.length l1 = List.length l2 -> Statistics.sum l1 = Statistics.sum l2 ->
  Statistics.mean l1 = Statistics.mean l2.
Proof.
  intros Hl Hs. unfold Statistics.mean, Statistics.len. rewrite Hl, Hs. reflexivity.
Qed.

Lemma mean_of_multiple (l : list Z) :
  l <> [] -> Statistics.sum l mod Statistics.len l = 0 ->
  Statistics.mean l = Ok (VInt (Statistics.sum l / Statistics.len l)).
Proof.
  intros Hne Hm. unfold Statistics.mean.
  assert (Hn : 0 < Statistics.len l)
    by (destruct l; [congruence | rewrite len_cons; unfold Statistics.len; lia]).
  destruct (Statistics.len l <? 1) eqn:E; [apply Z.ltb_lt in E; lia|].
  cbv zeta.
  assert (Hg : Z.gcd (Statistics.sum l) (Statistics.len l) = Statistics.len l).
  { rewrite Z.gcd_comm. apply Z.divide_gcd_iff; [lia|].
    apply Z.mod_divide; [lia | exact Hm]. }
  rewrite Hg, Z.div_same by lia. reflexivity.
Qed.

(** On a history of at least two entries whose dates parse, the average
    interval is the number of days from the earliest date to the latest
    over the number of gaps, whatever the dates in between: the mean of that
    span and of zeros for the other gaps, and the exact int quotient when
    the span is a multiple of the number of gaps. *)
Theorem avg_interval_is_span_over_gaps (h : list Transaction) (lo hi : Z) :
  (2 <= List.length h)%nat ->
  Forall (fun e => exists n, _get_days (date e) = Ok n /\ lo <= n <= hi) h ->
  (exists e, In e h /\ _get_days (date e) = Ok lo) ->
  (exists e, In e h /\ _get_days (date e) = Ok hi) ->
  exists (d : dict) (v : value),
    get_transaction_intervals h = Ok d /\
    dict_get d "avg_days_between_transactions" = Some v /\
    Statistics.mean ((hi - lo) :: repeat 0 (List.length h - 2)) = Ok v /\
    ((hi - lo) mod (len h - 1) = 0 -> v = VInt ((hi - lo) / (len h - 1))).
Proof.
  intros Hlen Hall (elo & Hlo_in & Hlo) (ehi & Hhi_in & Hhi).
  assert (HF : Forall (fun t => returns (Datetime.strptime (date t))) h).
  { eapply Forall_impl; [|exact Hall]. cbv beta. intros e (n & Hn & _).
    destruct (get_days_ordinal _ _ Hn) as (d & Hd & _). exists d. exact Hd. }
  destruct (intervals_shape h Hlen HF) as (avg & sd & mr & ca & sw & E & _).
  eexists. exists avg. split; [exact E|]. split; [reflexivity|].
  unfold get_transaction_intervals, transaction_intervals_with in E.
  destruct (len h <? 2) eqn:E2; [apply Z.ltb_lt in E2; unfold len in E2; lia|]. clear E2.
  destruct (mapM (fun trans => Datetime.strptime (date trans)) h) as [parsed|] eqn:Em;
    cbn [bind] in E; [|discriminate].
  match type of E with
  | bind ?r _ = _ => destruct r as [v|] eqn:Eavg; cbn [bind] in E; [|discriminate]
  end.
  repeat match type of E with
         | bind ?r _ = _ => destruct r; cbn [bind] in E; [|discriminate]
         end.
  injection E as Hv _ _ _ _. subst v.
  apply mapM_ok_forall2 in Em.
  pose proof (Forall2_length Em) as Hpl.
  pose proof (sorted_is_permutation parsed) as Ps.
  (* every sorted date is a valid date of the history, between lo and hi *)
  assert (Hdates : forall x, In x (sorted parsed) ->
                             valid x /\
                             lo <= Datetime.toordinal x - Datetime.toordinal Datetime.epoch <= hi).
  { intros x Hx. apply (Permutation_in _ Ps) in Hx.
    destruct (forall2_in_r _ _ _ _ Em Hx) as (e & He & Hp).
    split; [eapply strptime_valid; exact Hp|].
    rewrite Forall_forall in Hall. destruct (Hall e He) as (n & Hn & Hr).
    destruct (get_days_ordinal _ _ Hn) as (d' & Hd' & ->). congruence. }
  assert (Hfind : forall e n, In e h -> _get_days (date e) = Ok n ->
                    exists x, In x (sorted parsed) /\
                              Datetime.toordinal x - Datetime.toordinal Datetime.epoch = n).
  { intros e n He Hn. destruct (get_days_ordinal _ _ Hn) as (d' & Hd' & ->).
    destruct (forall2_in_l _ _ _ _ Em He) as (x & Hx & Hp).
    exists x. split; [apply (Permutation_in _ (Permutation_sym Ps)); exact Hx | congruence]. }
  pose proof (Permutation_length Ps) as Hsl.
  pose proof (Sorted_StronglySorted date_le_trans (sorted_ordered parsed)) as SS.
  destruct (sorted parsed) as [|d0 ds] eqn:Es; [cbn [List.length] in Hsl; lia|].
  assert (Hsum : Statistics.sum (day_gaps (d0 :: ds)) = hi - lo).
  { rewrite day_gaps_telescope.
    destruct (Hfind elo lo Hlo_in Hlo) as (xlo & Hxlo & Exlo).
    destruct (Hfind ehi hi Hhi_in Hhi) as (xhi & Hxhi & Exhi).
    destruct (Hdates d0 ltac:(left; reflexivity)) as [Va Ra].
    destruct (Hdates (last ds d0) (in_last ds d0)) as [Vl Rl].
    destruct (Hdates xlo Hxlo) as [Vlo _]. destruct (Hdates xhi Hxhi) as [Vhi _].
    assert (Datetime.toordinal d0 <= Datetime.toordinal xlo).
    { destruct Hxlo as [<-|Hxlo]; [lia|].
      inversion SS as [|? ? _ Hfa]; subst. rewrite Forall_forall in Hfa.
      apply date_le_ordinal; auto. }
    assert (Datetime.toordinal xhi <= Datetime.toordinal (last ds d0)).
    { destruct (strongly_sorted_last d0 ds SS xhi Hxhi) as [->|H']; [lia|].
      apply date_le_ordinal; auto. }
    lia. }
  assert (Hgl : List.length (day_gaps (d0 :: ds)) = List.length ds).
  { clear. revert d0. induction ds as [|b ds IH]; intros d0; [reflexivity|].
    change (day_gaps (d0 :: b :: ds)) with (Datetime.sub_days b d0 :: day_gaps (b :: ds)).
    cbn [List.length]. rewrite IH. reflexivity. }
  cbn [List.length] in Hsl.
  assert (Hmean : Statistics.mean (day_gaps (d0 :: ds)) = Ok avg).
  { destruct (day_gaps (d0 :: ds)) eqn:Eg; [cbn [List.length] in Hgl; lia | exact Eavg]. }
  assert (Hcanon : Statistics.mean ((hi - lo) :: repeat 0 (List.length h - 2)) = Ok avg).
  { rewrite <- Hmean. apply mean_of_sum_and_length.
    - cbn [List.length]. rewrite repeat_length, Hgl. lia.
    - rewrite sum_cons, sum_repeat, Hsum. lia. }
  split; [exact Hcanon|].
  intros Hmod.
  assert (Hlen1 : Statistics.len (day_gaps (d0 :: ds)) = len h - 1)
    by (unfold Statistics.len, len; rewrite Hgl; lia).
  rewrite mean_of_multiple in Hmean.
  - rewrite Hsum, Hlen1 in Hmean. congruence.
  - intros Eg. rewrite Eg in Hgl. cbn [List.length] in Hgl. lia.
  - rewrite Hsum, Hlen1. exact Hmod.
Qed.

Lemma avg_interval_is_span_over_gaps_witness :
  exists (d : dict) (v : value),
    get_transaction_intervals
      [mk_transaction "Gym" "2024-01-29" 30;
       mk_transaction "Gym" "2024-01-01" 30;
       mk_transaction "Gym" "2024-01-03" 30]
    = Ok d /\
    dict_get d "avg_days_between_transactions" = Some v /\
    Statistics.mean [19751 - 19723; 0] = Ok v /\
    ((19751 - 19723) mod 2 = 0 -> v = VInt ((19751 - 19723) / 2)).
Proof.
  apply (avg_interval_is_span_over_gaps
           [mk_transaction "Gym" "2024-01-29" 30;
            mk_transaction "Gym" "2024-01-01" 30;
            mk_transaction "Gym" "2024-01-03" 30] 19723 19751).
  - simpl. lia.
  - repeat constructor; eexists; (split; [vm_compute; reflexivity | lia]).
  - eexists. split; [right; left; reflexivity | vm_compute; reflexivity].
  - eexists. split; [left; reflexivity | vm_compute; reflexivity].
Defined.

(** ** The feature record holds what the feature functions return *)

(** Every entry of a returned feature record is the value of its function
    on the same transaction and history; the five interval statistics are
    those of [get_transaction_intervals], and they replace none of the
    other entries. *)
Theorem features_hold_function_values
  (t : Transaction) (h : list Transaction) (d : dict) :
  get_features t h = Ok d ->
  (dict_get d "n_transactions_same_amount"
   = Some (VInt (get_n_transactions_same_amount t h)) /\
   dict_get d "percent_transactions_same_amount"
   = stored VFloat (get_percent_transactions_same_amount t h) /\
   dict_get d "n_transactions_same_vendor"
   = Some (VInt (get_n_transactions_same_vendor t h)) /\
   dict_get d "max_transaction_amount" = Some (VFloat (get_max_transaction_amount h)) /\
   dict_get d "min_transaction_amount" = Some (VFloat (get_min_transaction_amount h)) /\
   dict_get d "is_recurring_mobile_transaction"
   = Some (VBool (is_recurring_mobile_transaction t)) /\
   dict_get d "day_of_week" = stored VInt (get_day_of_week t) /\
   dict_get d "month" = stored VInt (get_month t) /\
   dict_get d "day" = stored VInt (get_day t) /\
   dict_get d "year" = stored VInt (get_year t) /\
   dict_get d "ends_in_99" = stored VBool (get_ends_in_99 t) /\
   dict_get d "amount" = Some (VFloat (amount t)))%string /\
  (dict_get d "same_day_exact" = stored VInt (get_n_transactions_same_day t h 0) /\
   dict_get d "same_day_off_1" = stored VInt (get_n_transactions_same_day t h 1) /\
   dict_get d "same_day_off_2" = stored VInt (get_n_transactions_same_day t h 2) /\
   dict_get d "14_days_apart_exact" = stored VInt (get_n_transactions_days_apart t h 14 0) /\
   dict_get d "14_days_apart_off_by_1"
   = stored VInt (get_n_transactions_days_apart t h 14 1) /\
   dict_get d "7_days_apart_exact" = stored VInt (get_n_transactions_days_apart t h 7 0) /\
   dict_get d "7_days_apart_off_by_1"
   = stored VInt (get_n_transactions_days_apart t h 7 1) /\
   dict_get d "is_insurance" = Some (VBool (get_is_insurance t)) /\
   dict_get d "is_utility" = Some (VBool (get_is_utility t)) /\
   dict_get d "is_always_recurring" = Some (VBool (get_is_always_recurring t)))%string /\
  exists iv : dict,
    get_transaction_intervals h = Ok iv /\
    forall k : string, In k interval_names -> dict_get d k = dict_get iv k.
Proof.
  intros H. unfold get_features in H.
  do 13 bind_inv H.
  assert (HF : Forall (fun e => returns (Datetime.strptime (date e))) h).
  { eapply (days_apart_ok_dates_parse t h 14 0); [lia | exact E8]. }
  destruct (intervals_record h HF) as (i1 & i2 & i3 & i4 & i5 & Hi).
  rewrite Hi in H. cbn [bind] in H. injection H as <-.
  split; [|split].
  - repeat split.
  - repeat split.
  - eexists. split; [exact Hi|].
    intros k Hk. unfold interval_names in Hk. cbn [In] in Hk.
    repeat (destruct Hk as [<-|Hk]; [reflexivity|]). destruct Hk.
Qed.

Lemma features_hold_function_values_witness :
  exists d, get_features (mk_transaction "Gym" "2024-01-15" 30)
              [mk_transaction "Gym" "2024-01-01" 30; mk_transaction "Gym" "2024-01-15" 30]
            = Ok d /\
            dict_get d "7_days_apart_exact"
            = stored VInt (get_n_transactions_days_apart
                             (mk_transaction "Gym" "2024-01-15" 30)
                             [mk_transaction "Gym" "2024-01-01" 30;
                              mk_transaction "Gym" "2024-01-15" 30] 7 0).
Proof.
  eexists. split; [vm_compute; reflexivity|].
  apply (features_hold_function_values (mk_transaction "Gym" "2024-01-15" 30)
           [mk_transaction "Gym" "2024-01-01" 30; mk_transaction "Gym" "2024-01-15" 30]).
  vm_compute. reflexivity.
Defined.
